(** * Model Optimizer driver ([mo/main.py]): a shallow embedding

    The driver resolves a parsed command line (an [argparse.Namespace]) into
    a validated configuration, runs the conversion pipeline and emits the IR.
    The namespace is a finite map from attribute names to Python values, the
    code is written in a state-and-exception monad, and every collaborator
    that lives outside [mo/main.py] is a field of the record [Env]. *)

From Stdlib Require Import ZArith String Ascii List Bool Floats.
From stdpp Require Import gmap strings list fin_maps.

Open Scope Z_scope.
Open Scope string_scope.

(** ** Python values *)

(** The values an attribute of the namespace can hold.  [PObj] is any object
    the driver only carries around (dictionaries built by the command-line
    helpers, say); it comes with its truth value. *)
Inductive pyval : Type :=
| PNone
| PBool (b : bool)
| PInt (z : Z)
| PFloat (f : float)
| PStr (s : string)
| PStrList (l : list string)
| PArray (l : list Z)
| PObj (truth : bool) (repr : string).

(** ** Exceptions *)

(** [Error] and [FrameworkError] are the two classes of [mo.utils.error];
    the others are Python's own.  [SystemExit] and [KeyboardInterrupt] derive
    from [BaseException] only, everything else from [Exception]. *)
Inductive exn : Type :=
| Error (msg : string) (args : list pyval)
| FrameworkError (msg : string)
| FileNotFoundError (msg : string)
| NotADirectoryError (msg : string)
| PermissionError (msg : string)
| AttributeError (msg : string)
| TypeError (msg : string)
| ValueError (msg : string)
| IndexError (msg : string)
| OtherException (cls msg : string)
| SystemExit (code : Z)
| KeyboardInterrupt.

Definition is_Exception (e : exn) : bool :=
  match e with
  | SystemExit _ | KeyboardInterrupt => false
  | _ => true
  end.

Inductive result (A : Type) : Type :=
| Ok (a : A)
| Raise (e : exn).
Arguments Ok {A} a.
Arguments Raise {A} e.

(** ** The state-and-exception monad

    A raise keeps the state: what was mutated before the exception stays
    mutated, as in Python. *)
Definition M (S A : Type) : Type := S -> result A * S.

Definition ret {S A} (a : A) : M S A := fun s => (Ok a, s).
Definition raise {S A} (e : exn) : M S A := fun s => (Raise e, s).
Definition bind {S A B} (m : M S A) (k : A -> M S B) : M S B :=
  fun s => match m s with
           | (Ok a, s') => k a s'
           | (Raise e, s') => (Raise e, s')
           end.
Definition get_state {S} : M S S := fun s => (Ok s, s).
Definition modify {S} (f : S -> S) : M S unit := fun s => (Ok tt, f s).
Definition lift {S A} (r : result A) : M S A := fun s => (r, s).
Definition try_except {S A} (m : M S A) (h : exn -> M S A) : M S A :=
  fun s => match m s with
           | (Ok a, s') => (Ok a, s')
           | (Raise e, s') => h e s'
           end.

Notation "x <- m ;; k" := (bind m (fun x => k))
  (at level 100, m at next level, right associativity).
Notation "m ;;; k" := (bind m (fun _ => k))
  (at level 100, right associativity).

Definition when {S} (b : bool) (m : M S unit) : M S unit :=
  if b then m else ret tt.

(** Short-circuit [and] / [not] over conditions that may raise. *)
Definition andM {S} (a b : M S bool) : M S bool :=
  x <- a ;; if x then b else ret false.
Definition notM {S} (a : M S bool) : M S bool :=
  x <- a ;; ret (negb x).

(** ** Truth values *)

(** [bool(v)].  A numpy array with more than one element has no truth value
    (numpy raises [ValueError]). *)
Definition py_bool (v : pyval) : result bool :=
  match v with
  | PNone => Ok false
  | PBool b => Ok b
  | PInt z => Ok (negb (Z.eqb z 0))
  | PFloat f => Ok (negb (PrimFloat.eqb f PrimFloat.zero))
  | PStr s => Ok (negb (String.eqb s ""))
  | PStrList l => Ok (match l with [] => false | _ => true end)
  | PArray [] => Ok false
  | PArray [z] => Ok (negb (Z.eqb z 0))
  | PArray _ => Raise (ValueError "The truth value of an array with more than one element is ambiguous")
  | PObj t _ => Ok t
  end.

(** ** Strings *)

Fixpoint str_take (n : nat) (s : string) : string :=
  match n, s with
  | S n', String c s' => String c (str_take n' s')
  | _, _ => ""
  end.

Fixpoint str_drop (n : nat) (s : string) : string :=
  match n, s with
  | S n', String _ s' => str_drop n' s'
  | _, _ => s
  end.

(** [s.startswith(p)] *)
Fixpoint startswith (p s : string) : bool :=
  match p, s with
  | EmptyString, _ => true
  | String a p', String b s' => Ascii.eqb a b && startswith p' s'
  | String _ _, EmptyString => false
  end.

(** [s.endswith(p)] *)
Definition endswith (p s : string) : bool :=
  Nat.leb (String.length p) (String.length s) &&
  String.eqb (str_drop (String.length s - String.length p) s) p.

(** [p in s] *)
Fixpoint contains (p s : string) : bool :=
  startswith p s ||
  match s with
  | EmptyString => false
  | String _ s' => contains p s'
  end.

(** [s.rfind(c)] for a one-character [c]: the last index of [c], or -1. *)
Fixpoint rfind_from (c : ascii) (s : string) (i : Z) (last : Z) : Z :=
  match s with
  | EmptyString => last
  | String a s' => rfind_from c s' (i + 1) (if Ascii.eqb a c then i else last)
  end.
Definition rfind (c : ascii) (s : string) : Z := rfind_from c s 0 (-1).

(** [s.split(sep)] for a non-empty [sep].  [skip] counts the characters of a
    separator that was just matched and is still to be stepped over; [cur] is
    the piece being read, reversed. *)
Fixpoint split_go (sep : string) (s : string) (skip : nat) (cur : string) : list string :=
  match s with
  | EmptyString => [cur]
  | String c s' =>
      match skip with
      | S k => split_go sep s' k cur
      | O =>
          if startswith sep s
          then cur :: split_go sep s' (String.length sep - 1) ""
          else split_go sep s' 0 (cur +:+ String c "")
      end
  end.
Definition split (sep s : string) : list string := split_go sep s 0 "".

(** ** [os.path] (POSIX) *)

(** [os.path.splitext]: the extension starts at the last dot of the last
    path component, unless that component has only leading dots before it. *)
Definition splitext (p : string) : string * string :=
  let sepIndex := rfind "/" p in
  let dotIndex := rfind "." p in
  if Z.ltb sepIndex dotIndex then
    let filenameIndex := sepIndex + 1 in
    if existsb (fun i => negb (String.eqb (String.substring i 1 p) "."))
               (seq (Z.to_nat filenameIndex) (Z.to_nat (dotIndex - filenameIndex)))
    then (str_take (Z.to_nat dotIndex) p, str_drop (Z.to_nat dotIndex) p)
    else (p, "")
  else (p, "").

(** [os.path.basename] *)
Definition basename (p : string) : string :=
  str_drop (Z.to_nat (rfind "/" p + 1)) p.

(** [os.path.join(a, b)] *)
Definition path_join (a b : string) : string :=
  if startswith "/" b then b
  else if String.eqb a "" || endswith "/" a then a +:+ b
  else a +:+ "/" +:+ b.

(** ** [replace_ext] *)

(** [replace_ext(name, old, new)]: [None] when the extension is not [old]
    (the function falls off its end).  The debug line is not modelled. *)
Definition replace_ext (name old new : string) : option string :=
  let '(base, ext) := splitext name in
  if String.eqb ext old then Some (base +:+ new) else None.

(** [int(s)] on a string: surrounding white space is dropped, then an
    optional sign and decimal digits, single underscores allowed between
    digits.  Anything else is a [ValueError].  Strings are ASCII here. *)
Definition is_space (c : ascii) : bool :=
  let n := nat_of_ascii c in
  (Nat.leb 9 n && Nat.leb n 13) || (Nat.leb 28 n && Nat.leb n 32).

Fixpoint lstrip (s : string) : string :=
  match s with
  | String c s' => if is_space c then lstrip s' else s
  | EmptyString => s
  end.

Fixpoint rstrip (s : string) : string :=
  match s with
  | EmptyString => ""
  | String c s' =>
      match rstrip s' with
      | EmptyString => if is_space c then "" else String c ""
      | r => String c r
      end
  end.

Definition strip (s : string) : string := rstrip (lstrip s).

Definition digit_of (c : ascii) : option Z :=
  let n := nat_of_ascii c in
  if Nat.leb 48 n && Nat.leb n 57 then Some (Z.of_nat (n - 48)) else None.

Fixpoint digits_go (s : string) (acc : Z) (prev_digit : bool) : option Z :=
  match s with
  | EmptyString => if prev_digit then Some acc else None
  | String c s' =>
      match digit_of c with
      | Some d => digits_go s' (10 * acc + d) true
      | None =>
          if Ascii.eqb c "_" && prev_digit then digits_go s' acc false else None
      end
  end.

Definition py_int (s : string) : result Z :=
  let bad := Raise (ValueError ("invalid literal for int() with base 10: " +:+ s)) in
  match strip s with
  | String "-" ds => match digits_go ds 0 false with Some z => Ok (- z) | None => bad end
  | String "+" ds => match digits_go ds 0 false with Some z => Ok z | None => bad end
  | ds => match digits_go ds 0 false with Some z => Ok z | None => bad end
  end.

(** [[f(x) for x in l]] where [f] may raise: the first failure wins. *)
Fixpoint map_result {A B} (f : A -> result B) (l : list A) : result (list B) :=
  match l with
  | [] => Ok []
  | x :: l' =>
      match f x with
      | Raise e => Raise e
      | Ok y => match map_result f l' with
                | Raise e => Raise e
                | Ok ys => Ok (y :: ys)
                end
      end
  end.

(** ** The namespace, the graph, the events *)

(** An [argparse.Namespace]: attribute name to value. *)
Abbreviation Namespace := (gmap string pyval).

(** What [deduce_framework_by_namespace] returns. *)
Record Flags : Type := mkFlags {
  is_tf : bool; is_caffe : bool; is_mxnet : bool; is_kaldi : bool; is_onnx : bool
}.

(** [any([is_tf, is_caffe, is_mxnet, is_kaldi, is_onnx])] *)
Definition any_flag (f : Flags) : bool :=
  existsb (fun b => b) [is_tf f; is_caffe f; is_mxnet f; is_kaldi f; is_onnx f].

(** The back passes of [extensions.back.SpecialNodesFinalization]. *)
Inductive BackPass : Type :=
| NormalizeTI | RemoveConstOps | CreateConstNodesReplacement | RemoveOutputOps.

(** How [find_and_replace_pattern] of a pass is applied: to the graph itself,
    through [for_each_sub_graph_recursively], or through
    [for_graph_and_each_sub_graph_recursively]. *)
Inductive Traversal : Type :=
| OnGraph | EachSubGraph | GraphAndEachSubGraph.

Inductive LogLevel : Type := LDebug | LInfo | LError.

Inductive LogMsg : Type :=
| MsgText (s : string)
| MsgExn (e : exn)
| MsgTraceback.

(** What the run does to the outside, in order. *)
Inductive Event : Type :=
| EvInitLogger (level : pyval) (silent : pyval)
| EvLog (lvl : LogLevel) (msg : LogMsg) (extra : option string)
| EvPrint (text : string)
| EvMakedirs (path : string)
| EvLoadDirs (front : string) (framework : pyval) (extensions : option (list string))
| EvPipeline
| EvPass (t : Traversal) (p : BackPass)
| EvPrepareEmitIR (data_type output_dir output_model_name mean_data input_names meta_info : pyval)
| EvBoolAsI32.

(** A [Graph] as the driver sees it: the attributes it reads from
    [graph.graph] and the nodes, which only the passes look at. *)
Record Graph (B : Type) : Type := mkGraph {
  cmd_params : Namespace;      (* graph.graph['cmd_params'] *)
  mf : option pyval;           (* graph.graph['mf'], when present *)
  input_names : option pyval;  (* graph.graph['input_names'], when present *)
  body : B
}.
Arguments mkGraph {B}.
Arguments cmd_params {B}.
Arguments mf {B}.
Arguments input_names {B}.
Arguments body {B}.

(** ** The collaborators

    Everything [mo/main.py] imports: the file system behind [os], the
    helpers of [mo.utils], the pipeline and the emitter.  A helper that can
    raise returns a [result].  The helpers get the namespace by value: they
    read it and do not write it. *)
Record Env : Type := mkEnv {
  FS : Type;
  GraphBody : Type;
  os_path_exists : FS -> string -> bool;
  os_access_W_OK : FS -> string -> bool;
  os_makedirs : FS -> string -> result unit * FS;
  os_getcwd : FS -> string;
  deduce_framework_by_namespace : Namespace -> result Flags;
  refer_to_faq_msg : Z -> string;
  get_model_name : pyval -> result pyval;
  print_argv_lines : Namespace -> Flags -> pyval -> result (list string);
  check_requirements : pyval -> result pyval;
  get_tuple_values : pyval -> Z -> result (list string);
  get_placeholder_shapes : pyval -> pyval -> pyval -> result (pyval * pyval);
  parse_tuple_pairs : pyval -> result pyval;
  get_mean_scale_dictionary : pyval -> pyval -> pyval -> result pyval;
  get_freeze_placeholder_values : pyval -> pyval -> result (pyval * pyval);
  load_dirs : string -> pyval -> option (list string) -> FS -> result unit;
  unified_pipeline : Namespace -> FS -> result (Graph GraphBody);
  apply_pass : Traversal -> BackPass -> GraphBody -> result GraphBody;
  prepare_emit_ir : Graph GraphBody -> list pyval -> FS -> result unit * FS;
  get_meta_info : Namespace -> pyval;
  get_ir_version : Namespace -> string;
  py_str : pyval -> string;
  str_namespace : Namespace -> string;
  append_exp_keys_to_namespace : Namespace -> result Namespace;
  get_ov_update_message : result pyval;
  analysis_messages : option (list string);
  elapsed_seconds : string;
  memory_usage : option string
}.

(** The state of a run: the namespace [argv], the file system, and the
    events so far (oldest first). *)
Record St (E : Env) : Type := mkSt {
  argv : Namespace;
  fs : FS E;
  trace : list Event
}.
Arguments mkSt {E}.
Arguments argv {E}.
Arguments fs {E}.
Arguments trace {E}.

Section Driver.
Context (E : Env).

Abbreviation Run := (M (St E)).

Definition emit (ev : Event) : Run unit :=
  modify (fun s => mkSt (argv s) (fs s) (trace s ++ [ev])%list).

Definition log (lvl : LogLevel) (text : string) : Run unit :=
  emit (EvLog lvl (MsgText text) None).

Definition print (text : string) : Run unit := emit (EvPrint text).

(** [argv.name] *)
Definition getattr (name : string) : Run pyval :=
  fun s => match argv s !! name with
           | Some v => (Ok v, s)
           | None => (Raise (AttributeError name), s)
           end.

(** [argv.name = v] *)
Definition setattr (name : string) (v : pyval) : Run unit :=
  modify (fun s => mkSt (<[name := v]> (argv s)) (fs s) (trace s)).

(** [hasattr(argv, name)] *)
Definition hasattr (name : string) : Run bool :=
  fun s => (Ok (bool_decide (is_Some (argv s !! name))), s).

Definition truth (v : pyval) : Run bool := lift (py_bool v).

(** [argv.name] in a condition *)
Definition attr_true (name : string) : Run bool :=
  v <- getattr name ;; truth v.

(** [argv.name is not None] *)
Definition attr_not_none (name : string) : Run bool :=
  v <- getattr name ;; ret (match v with PNone => false | _ => true end).

(** [v.split(',')]: only strings have [split]. *)
Definition py_split (v : pyval) : result (list string) :=
  match v with
  | PStr s => Ok (split "," s)
  | _ => Raise (AttributeError "split")
  end.

(** [v == s] for a string literal [s] *)
Definition is_str (s : string) (v : pyval) : bool :=
  match v with
  | PStr s' => String.eqb s' s
  | _ => false
  end.

(** [' ' in v] *)
Definition has_space (v : pyval) : result bool :=
  match v with
  | PStr s => Ok (contains " " s)
  | PStrList l => Ok (existsb (String.eqb " ") l)
  | PArray _ => Ok false
  | _ => Raise (TypeError "argument is not iterable")
  end.

(** [v < 1.0] *)
Definition lt_one (v : pyval) : result bool :=
  match v with
  | PBool b => Ok (negb b)
  | PInt z => Ok (Z.ltb z 1)
  | PFloat f => Ok (PrimFloat.ltb f PrimFloat.one)
  | PArray [z] => Ok (Z.ltb z 1)
  | PArray _ => Raise (ValueError "The truth value of an array with more than one element is ambiguous")
  | _ => Raise (TypeError "'<' not supported")
  end.

(** A path argument of [os.path]: a string. *)
Definition as_path (v : pyval) : result string :=
  match v with
  | PStr s => Ok s
  | _ => Raise (TypeError "expected str, bytes or os.PathLike object")
  end.

(** ** [prepare_ir]

    The body of [prepare_ir] is cut into its consecutive blocks, each under
    the name of the check it makes; [prepare_ir] below runs them in the
    order of the source. *)

(** Lines 99-103: the framework flags, and the error when none is set. *)
Definition detect_framework : Run Flags :=
  s <- get_state ;;
  fl <- lift (deduce_framework_by_namespace E (argv s)) ;;
  if negb (any_flag fl) then
    fw <- getattr "framework" ;;
    raise (Error ("Framework {} is not a valid target. Please use --framework with one from the list: caffe, tf, "
                  +:+ "mxnet, kaldi, onnx. " +:+ refer_to_faq_msg E 15) [fw])
  else ret fl.

(** Lines 105-114: the model source each framework needs. *)
Definition check_required_inputs (fl : Flags) : Run unit :=
  c <- andM (ret (is_tf fl)) (andM (notM (attr_true "input_model"))
         (andM (notM (attr_true "saved_model_dir")) (notM (attr_true "input_meta_graph")))) ;;
  if c then
    raise (Error ("Path to input model or saved model dir is required: use --input_model, --saved_model_dir or "
                  +:+ "--input_meta_graph") [])
  else
  c <- andM (ret (is_mxnet fl)) (andM (notM (attr_true "input_model"))
         (andM (notM (attr_true "input_symbol")) (notM (attr_true "pretrained_model_name")))) ;;
  if c then
    raise (Error ("Path to input model or input symbol or pretrained_model_name is required: use --input_model or "
                  +:+ "--input_symbol or --pretrained_model_name") [])
  else
  c <- andM (ret (is_caffe fl)) (andM (notM (attr_true "input_model")) (notM (attr_true "input_proto"))) ;;
  if c then
    raise (Error "Path to input model or input proto is required: use --input_model or --input_proto" [])
  else
  c <- andM (ret (is_kaldi fl || is_onnx fl)) (notM (attr_true "input_model")) ;;
  if c then raise (Error "Path to input model is required: use --input_model." [])
  else ret tt.

(** Lines 116-120: Kaldi never produces the experimental IR. *)
Definition force_kaldi_ir (fl : Flags) : Run unit :=
  when (is_kaldi fl) (setattr "generate_experimental_IR_V10" (PBool false)) ;;;
  s <- get_state ;;
  log LDebug (str_namespace E (argv s)) ;;;
  log LDebug "Model Optimizer started".

(** [get_model_name(argv.name)] *)
Definition model_name_of (name : string) : Run pyval :=
  v <- getattr name ;; lift (get_model_name E v).

(** Lines 122-135: the output model name. *)
Definition derive_model_name (fl : Flags) : Run unit :=
  model_name <-
    (c <- attr_true "model_name" ;;
     if c then getattr "model_name" else
     c <- attr_true "input_model" ;;
     if c then model_name_of "input_model" else
     c <- andM (ret (is_tf fl)) (attr_true "saved_model_dir") ;;
     if c then ret (PStr "saved_model") else
     c <- andM (ret (is_tf fl)) (attr_true "input_meta_graph") ;;
     if c then model_name_of "input_meta_graph" else
     c <- andM (ret (is_mxnet fl)) (attr_true "input_symbol") ;;
     if c then model_name_of "input_symbol" else
     ret (PStr "<UNKNOWN_NAME>")) ;;
  setattr "model_name" model_name ;;;
  log LDebug ("Output model name would be " +:+ py_str E model_name +:+ "{.xml, .bin}").

(** Lines 137-147: the prototxt next to the caffemodel. *)
Definition infer_input_proto (fl : Flags) : Run unit :=
  c <- andM (ret (is_caffe fl)) (notM (attr_true "input_proto")) ;;
  when c (
    input_model <- getattr "input_model" ;;
    name <- lift (as_path input_model) ;;
    setattr "input_proto"
      (match replace_ext name ".caffemodel" ".prototxt" with
       | Some p => PStr p
       | None => PNone
       end) ;;;
    c <- notM (attr_true "input_proto") ;;
    if c then
      raise (Error ("Cannot find prototxt file: for Caffe please specify --input_proto - a "
                    +:+ "protobuf file that stores topology and --input_model that stores "
                    +:+ "pretrained weights. " +:+ refer_to_faq_msg E 20) [])
    else
      input_proto <- getattr "input_proto" ;;
      log LInfo ("Deduced name for prototxt: " +:+ py_str E input_proto)).

(** Lines 149-150: the argument summary.  What [print_argv] prints after its
    header comes from the option tables of [mo.utils.cli_parser]; the lines
    are taken from the environment. *)
Definition print_arguments (fl : Flags) : Run unit :=
  c <- notM (attr_true "silent") ;;
  when c (
    s <- get_state ;;
    model_name <- getattr "model_name" ;;
    print "Model Optimizer arguments:" ;;;
    lines <- lift (print_argv_lines E (argv s) fl model_name) ;;
    print (String.concat (String (ascii_of_nat 10) "") lines)).

(** Lines 152-157: the installed requirements, and the TensorFlow alias of
    [--transformations_config]. *)
Definition check_environment (fl : Flags) : Run unit :=
  framework <- getattr "framework" ;;
  ret_code <- lift (check_requirements E framework) ;;
  c <- truth ret_code ;;
  (if c then
     raise (Error ("check_requirements exit with return code " +:+ py_str E ret_code) [])
   else ret tt) ;;;
  c <- andM (ret (is_tf fl)) (attr_not_none "tensorflow_use_custom_operations_config") ;;
  when c (
    v <- getattr "tensorflow_use_custom_operations_config" ;;
    setattr "transformations_config" v).

(** Lines 159-171: mean file against mean values, and the mean file
    offsets. *)
Definition check_mean_options (fl : Flags) : Run unit :=
  c <- andM (ret (is_caffe fl)) (andM (attr_true "mean_file") (attr_true "mean_values")) ;;
  if c then
    raise (Error ("Both --mean_file and mean_values are specified. Specify either mean file or mean values. "
                  +:+ refer_to_faq_msg E 17) [])
  else
  c <- andM (ret (is_caffe fl)) (andM (attr_true "mean_file") (attr_true "mean_file_offsets")) ;;
  when c (
    raw <- getattr "mean_file_offsets" ;;
    values <- lift (get_tuple_values E raw 2) ;;
    first <- lift (match values with
                   | v :: _ => Ok v
                   | [] => Raise (IndexError "list index out of range")
                   end) ;;
    mean_file_offsets <- lift (map_result py_int (split "," first)) ;;
    if negb (forallb (fun offset => Z.leb 0 offset) mean_file_offsets) then
      raise (Error ("Negative value specified for --mean_file_offsets option. "
                    +:+ "Please specify positive integer values in format '(x,y)'. "
                    +:+ refer_to_faq_msg E 18) [])
    else setattr "mean_file_offsets" (PArray mean_file_offsets)).

(** Lines 173-180: scale against scale values; a scale below one is only
    reported. *)
Definition check_scale_options : Run unit :=
  c <- andM (attr_true "scale") (attr_true "scale_values") ;;
  if c then
    raise (Error ("Both --scale and --scale_values are defined. Specify either scale factor or scale values per input "
                  +:+ "channels. " +:+ refer_to_faq_msg E 19) [])
  else
  c <- andM (attr_true "scale") (v <- getattr "scale" ;; lift (lt_one v)) ;;
  when c (
    emit (EvLog LError
            (MsgText ("The scale value is less than 1.0. This is most probably an issue because the scale value specifies "
                      +:+ "floating point value which all input values will be *divided*."))
            (Some "is_warning"))).

(** Lines 182-191: input model against saved model directory, the saved
    model tags and the output names. *)
Definition normalize_model_options (fl : Flags) : Run unit :=
  c <- andM (attr_true "input_model") (andM (ret (is_tf fl)) (attr_true "saved_model_dir")) ;;
  if c then
    raise (Error ("Both --input_model and --saved_model_dir are defined. "
                  +:+ "Specify either input model or saved model directory.") [])
  else
  when (is_tf fl) (
    c <- attr_not_none "saved_model_tags" ;;
    when c (
      tags <- getattr "saved_model_tags" ;;
      c <- lift (has_space tags) ;;
      if c then
        raise (Error "Incorrect saved model tag was provided. Specify --saved_model_tags with no spaces in it" [])
      else
        l <- lift (py_split tags) ;;
        setattr "saved_model_tags" (PStrList l))) ;;;
  c <- attr_true "output" ;;
  if c then
    output <- getattr "output" ;;
    l <- lift (py_split output) ;;
    setattr "output" (PStrList l)
  else setattr "output" PNone.

(** Lines 193-199: placeholder shapes and the mean/scale dictionary. *)
Definition resolve_placeholders : Run unit :=
  input <- getattr "input" ;;
  input_shape <- getattr "input_shape" ;;
  batch <- getattr "batch" ;;
  shapes <- lift (get_placeholder_shapes E input input_shape batch) ;;
  setattr "placeholder_shapes" (fst shapes) ;;;
  setattr "placeholder_data_types" (snd shapes) ;;;
  v <- getattr "mean_values" ;;
  mean_values <- lift (parse_tuple_pairs E v) ;;
  v <- getattr "scale_values" ;;
  scale_values <- lift (parse_tuple_pairs E v) ;;
  input <- getattr "input" ;;
  mean_scale <- lift (get_mean_scale_dictionary E mean_values scale_values input) ;;
  setattr "mean_scale_values" mean_scale.

(** [os.makedirs(path)] *)
Definition makedirs (path : string) : Run unit :=
  emit (EvMakedirs path) ;;;
  fun s => let '(r, fs') := os_makedirs E (fs s) path in
           (r, mkSt (argv s) fs' (trace s)).

(** Lines 201-213: the output directory. *)
Definition resolve_output_dir : Run unit :=
  output_dir <- getattr "output_dir" ;;
  path <- lift (as_path output_dir) ;;
  s <- get_state ;;
  (if negb (os_path_exists E (fs s) path) then
     try_except (makedirs path)
       (fun e => match e with
                 | PermissionError _ =>
                     raise (Error ("Failed to create directory {}. Permission denied! "
                                   +:+ refer_to_faq_msg E 22) [output_dir])
                 | _ => raise e
                 end)
   else if negb (os_access_W_OK E (fs s) path) then
     raise (Error ("Output directory {} is not writable for current user. "
                   +:+ refer_to_faq_msg E 22) [output_dir])
   else ret tt) ;;;
  shapes <- getattr "placeholder_shapes" ;;
  log LDebug ("Placeholder shapes : " +:+ py_str E shapes).

(** The front end whose [get_front_classes] is imported: the first flag set,
    in the order of the [if]/[elif] chain. *)
Definition front_of (fl : Flags) : option string :=
  if is_tf fl then Some "tf"
  else if is_caffe fl then Some "caffe"
  else if is_mxnet fl then Some "mxnet"
  else if is_kaldi fl then Some "kaldi"
  else if is_onnx fl then Some "onnx"
  else None.

(** Lines 215-237: the extension directories, the frozen placeholders, and
    the extensions of the front end. *)
Definition load_extensions (fl : Flags) : Run unit :=
  c <- andM (hasattr "extensions")
         (andM (attr_true "extensions")
               (v <- getattr "extensions" ;; ret (negb (is_str "" v)))) ;;
  extensions <-
    (if c then v <- getattr "extensions" ;; l <- lift (py_split v) ;; ret (Some l)
     else ret None) ;;
  input <- getattr "input" ;;
  freeze <- getattr "freeze_placeholder_with_value" ;;
  r <- lift (get_freeze_placeholder_values E input freeze) ;;
  setattr "freeze_placeholder_with_value" (fst r) ;;;
  setattr "input" (snd r) ;;;
  match front_of fl with
  | Some front =>
      framework <- getattr "framework" ;;
      emit (EvLoadDirs front framework extensions) ;;;
      s <- get_state ;;
      lift (load_dirs E front framework extensions (fs s))
  | None => ret tt
  end.

(** Lines 238-239 *)
Definition run_pipeline : Run (Graph (GraphBody E)) :=
  emit EvPipeline ;;;
  s <- get_state ;;
  lift (unified_pipeline E (argv s) (fs s)).

(** [prepare_ir] from line 105 on, the flags known. *)
Definition prepare_ir_from (fl : Flags) : Run (Graph (GraphBody E)) :=
  check_required_inputs fl ;;;
  force_kaldi_ir fl ;;;
  derive_model_name fl ;;;
  infer_input_proto fl ;;;
  print_arguments fl ;;;
  check_environment fl ;;;
  check_mean_options fl ;;;
  check_scale_options ;;;
  normalize_model_options fl ;;;
  resolve_placeholders ;;;
  resolve_output_dir ;;;
  load_extensions fl ;;;
  run_pipeline.

Definition prepare_ir : Run (Graph (GraphBody E)) :=
  fl <- detect_framework ;;
  prepare_ir_from fl.

(** ** [emit_ir] *)

(** One application of a back pass.  A pass rewrites the nodes of the graph
    and of its sub-graphs; the attributes of [graph.graph] stay. *)
Definition run_pass (t : Traversal) (p : BackPass) (g : Graph (GraphBody E))
  : Run (Graph (GraphBody E)) :=
  emit (EvPass t p) ;;;
  b <- lift (apply_pass E t p (body g)) ;;
  ret (mkGraph (cmd_params g) (mf g) (input_names g) b).

(** [graph.graph['cmd_params'].name] *)
Definition cmd_param (g : Graph (GraphBody E)) (name : string) : Run pyval :=
  match cmd_params g !! name with
  | Some v => ret v
  | None => raise (AttributeError name)
  end.

(** [not graph.graph['cmd_params'].generate_experimental_IR_V10] *)
Definition removes_output_ops (g : Graph (GraphBody E)) : Run bool :=
  notM (v <- cmd_param g "generate_experimental_IR_V10" ;; truth v).

Definition success_banner : Run unit :=
  v <- getattr "output_dir" ;;
  s <- get_state ;;
  let output_dir := if negb (is_str "." v) then v else PStr (os_getcwd E (fs s)) in
  print (String (ascii_of_nat 10) "" +:+ "[ SUCCESS ] Generated IR version "
         +:+ get_ir_version E (argv s) +:+ " model.") ;;;
  dir <- lift (as_path output_dir) ;;
  model_name <- getattr "model_name" ;;
  name <- lift (as_path model_name) ;;
  print ("[ SUCCESS ] XML file: " +:+ path_join dir name +:+ ".xml") ;;;
  dir <- lift (as_path output_dir) ;;
  model_name <- getattr "model_name" ;;
  name <- lift (as_path model_name) ;;
  print ("[ SUCCESS ] BIN file: " +:+ path_join dir name +:+ ".bin").

(** Lines 243-249: the passes that finish the graph. *)
Definition finalize_graph (graph : Graph (GraphBody E)) : Run (Graph (GraphBody E)) :=
  graph <- run_pass OnGraph NormalizeTI graph ;;
  graph <- run_pass GraphAndEachSubGraph RemoveConstOps graph ;;
  graph <- run_pass GraphAndEachSubGraph CreateConstNodesReplacement graph ;;
  c <- removes_output_ops graph ;;
  graph <- (if c then run_pass EachSubGraph RemoveOutputOps graph else ret graph) ;;
  c <- removes_output_ops graph ;;
  (if c then run_pass GraphAndEachSubGraph RemoveOutputOps graph else ret graph).

(** Lines 251-257: the call of the emitter. *)
Definition write_ir (graph : Graph (GraphBody E)) : Run unit :=
  data_type <- cmd_param graph "data_type" ;;
  output_dir <- getattr "output_dir" ;;
  model_name <- getattr "model_name" ;;
  s <- get_state ;;
  let mean_data := match mf graph with Some v => v | None => PNone end in
  let names := match input_names graph with Some v => v | None => PStrList [] end in
  let meta_info := get_meta_info E (argv s) in
  emit (EvPrepareEmitIR data_type output_dir model_name mean_data names meta_info) ;;;
  fun s => let '(r, fs') := prepare_emit_ir E graph
                              [data_type; output_dir; model_name; mean_data; names; meta_info] (fs s) in
           (r, mkSt (argv s) fs' (trace s)).

Definition emit_ir (graph : Graph (GraphBody E)) : Run Z :=
  graph <- finalize_graph graph ;;
  write_ir graph ;;;
  c <- notM (andM (v <- getattr "framework" ;; ret (is_str "tf" v))
                  (attr_true "tensorflow_custom_operations_config_update")) ;;
  when c success_banner ;;;
  ret 0.

(** ** [driver] *)

Definition upper_ascii (c : ascii) : ascii :=
  let n := nat_of_ascii c in
  if Nat.leb 97 n && Nat.leb n 122 then ascii_of_nat (n - 32) else c.

Fixpoint upper (s : string) : string :=
  match s with
  | EmptyString => ""
  | String c s' => String (upper_ascii c) (upper s')
  end.

(** The elapsed time and the peak memory come from the environment;
    [memory_usage] is [None] when [resource] cannot be imported. *)
Definition driver : Run Z :=
  log_level <- getattr "log_level" ;;
  level <- lift (match log_level with
                 | PStr s => Ok (PStr (upper s))
                 | _ => Raise (AttributeError "upper")
                 end) ;;
  silent <- getattr "silent" ;;
  emit (EvInitLogger level silent) ;;;
  graph <- prepare_ir ;;
  ret_res <- emit_ir graph ;;
  if negb (Z.eqb ret_res 0) then ret ret_res
  else
    print ("[ SUCCESS ] Total execution time: " +:+ elapsed_seconds E +:+ " seconds. ") ;;;
    match memory_usage E with
    | Some mem_usage => print ("[ SUCCESS ] Memory consumed: " +:+ mem_usage +:+ " MB. ")
    | None => ret tt
    end ;;;
    ret ret_res.

(** ** [main] *)

(** The four reports of the [except] clauses. *)
Inductive Category : Type :=
| FileNotFound | ConfigurationError | FrameworkNative | InternalError.

(** The [except] clause an exception is caught by: the first whose class
    the exception is an instance of.  [except Exception] does not catch the
    exceptions that derive from [BaseException] only. *)
Definition classify (e : exn) : option Category :=
  match e with
  | FileNotFoundError _ | NotADirectoryError _ => Some FileNotFound
  | Error _ _ => Some ConfigurationError
  | FrameworkError _ => Some FrameworkNative
  | SystemExit _ | KeyboardInterrupt => None
  | _ => Some InternalError
  end.

(** [str(e)] *)
Definition exn_text (e : exn) : string :=
  match e with
  | Error m _ | FrameworkError m | FileNotFoundError m | NotADirectoryError m
  | PermissionError m | AttributeError m | TypeError m | ValueError m
  | IndexError m | OtherException _ m => m
  | SystemExit c => py_str E (PInt c)
  | KeyboardInterrupt => ""
  end.

Definition log_error (text : string) : Run unit :=
  emit (EvLog LError (MsgText text) None).

(** The body of an [except] clause of [main]. *)
Definition report (c : Category) (e : exn) : Run unit :=
  match c with
  | FileNotFound =>
      match split "No such file or directory:" (exn_text e) with
      | _ :: path :: _ =>
          log_error ("File " +:+ path +:+ " was not found") ;;;
          emit (EvLog LDebug MsgTraceback None)
      | _ => raise (IndexError "list index out of range")
      end
  | ConfigurationError =>
      match analysis_messages E with
      | Some messages =>
          fold_right (fun el k => emit (EvLog LError (MsgText el) (Some "analysis_info")) ;;; k)
                     (ret tt) messages
      | None => ret tt
      end ;;;
      emit (EvLog LError (MsgExn e) None) ;;;
      emit (EvLog LDebug MsgTraceback None)
  | FrameworkNative =>
      emit (EvLog LError (MsgExn e) (Some "framework_error")) ;;;
      emit (EvLog LDebug MsgTraceback None)
  | InternalError =>
      log_error "-------------------------------------------------" ;;;
      log_error "----------------- INTERNAL ERROR ----------------" ;;;
      log_error "Unexpected exception happened." ;;;
      log_error "Please contact Model Optimizer developers and forward the following information:" ;;;
      log_error (exn_text e) ;;;
      emit (EvLog LError MsgTraceback None) ;;;
      log_error "---------------- END OF BUG REPORT --------------" ;;;
      log_error "-------------------------------------------------"
  end.

Definition set_argv (a : Namespace) : Run unit :=
  modify (fun s => mkSt a (fs s) (trace s)).

(** Lines 297-311, the [try] of [main] up to the call of [driver]; the
    result is [ov_update_message].  [cli_parser] is what
    [cli_parser.parse_args()] does: a namespace, or an exception
    ([argparse] leaves with [SystemExit] on [--help] and on a bad command
    line). *)
Definition main_setup (cli_parser : result Namespace) (framework : pyval) : Run pyval :=
  emit (EvInitLogger (PStr "ERROR") (PBool false)) ;;;
  a <- lift cli_parser ;;
  set_argv a ;;;
  c <- truth framework ;;
  when c (setattr "framework" framework) ;;;
  s <- get_state ;;
  a <- lift (append_exp_keys_to_namespace E (argv s)) ;;
  set_argv a ;;;
  c <- attr_true "generate_deprecated_IR_V7" ;;
  when c (emit EvBoolAsI32) ;;;
  c <- (h <- hasattr "silent" ;;
        if negb h then ret true else notM (attr_true "silent")) ;;
  if c then lift (get_ov_update_message E) else ret PNone.

(** Lines 297-315: what is inside the [try] of [main]. *)
Definition main_try (cli_parser : result Namespace) (framework : pyval) : Run Z :=
  ov_update_message <- main_setup cli_parser framework ;;
  ret_code <- driver ;;
  c <- truth ov_update_message ;;
  when c (print (py_str E ov_update_message)) ;;;
  ret ret_code.

(** [main].  The state it starts from has no namespace yet: [argv] is set by
    [parse_args] before anything reads it. *)
Definition main (cli_parser : result Namespace) (framework : pyval) : Run Z :=
  try_except (main_try cli_parser framework)
    (fun e => match classify e with
              | Some c => report c e ;;; ret 1
              | None => raise e
              end).

End Driver.

(** * Notions for the statements *)

(** How many frameworks the flags select. *)
Definition selected (fl : Flags) : nat :=
  length (filter (fun b => Is_true b) [is_tf fl; is_caffe fl; is_mxnet fl; is_kaldi fl; is_onnx fl]).

Definition tf_only : Flags := mkFlags true false false false false.
Definition caffe_only : Flags := mkFlags false true false false false.
Definition mxnet_only : Flags := mkFlags false false true false false.
Definition kaldi_only : Flags := mkFlags false false false true false.
Definition tf_and_caffe : Flags := mkFlags true true false false false.
Definition no_flags : Flags := mkFlags false false false false false.

(** Modelled from the spec: [deduce_framework_by_namespace] of
    [mo.utils.guess_framework], which is not among the sources.  Section
    4.1 of the specification has the detector inspect the bundle and yield
    "a single selected source-framework identifier among a fixed set", or
    report "that none/multiple are selected", as a pure function of the
    bundle; "exactly one must be active for a run to proceed".  [deducible]
    tells of each of the five frameworks whether it can be deduced from the
    bundle, which the specification leaves open.  The flags returned are
    the flag of the one framework that can be deduced; when none or several
    can, no flag is set, and it is [prepare_ir] that raises. *)
Definition spec_deduce_framework_by_namespace (deducible : Namespace -> Flags) (a : Namespace)
  : result Flags :=
  if Nat.eqb (selected (deducible a)) 1 then Ok (deducible a) else Ok no_flags.

(** An environment with another [deduce_framework_by_namespace], and with
    the one of the specification. *)
Definition with_detector (E : Env) (detector : Namespace -> result Flags) : Env := {|
  FS := FS E;
  GraphBody := GraphBody E;
  os_path_exists := os_path_exists E;
  os_access_W_OK := os_access_W_OK E;
  os_makedirs := os_makedirs E;
  os_getcwd := os_getcwd E;
  deduce_framework_by_namespace := detector;
  refer_to_faq_msg := refer_to_faq_msg E;
  get_model_name := get_model_name E;
  print_argv_lines := print_argv_lines E;
  check_requirements := check_requirements E;
  get_tuple_values := get_tuple_values E;
  get_placeholder_shapes := get_placeholder_shapes E;
  parse_tuple_pairs := parse_tuple_pairs E;
  get_mean_scale_dictionary := get_mean_scale_dictionary E;
  get_freeze_placeholder_values := get_freeze_placeholder_values E;
  load_dirs := load_dirs E;
  unified_pipeline := unified_pipeline E;
  apply_pass := apply_pass E;
  prepare_emit_ir := prepare_emit_ir E;
  get_meta_info := get_meta_info E;
  get_ir_version := get_ir_version E;
  py_str := py_str E;
  str_namespace := str_namespace E;
  append_exp_keys_to_namespace := append_exp_keys_to_namespace E;
  get_ov_update_message := get_ov_update_message E;
  analysis_messages := analysis_messages E;
  elapsed_seconds := elapsed_seconds E;
  memory_usage := memory_usage E
|}.

Definition spec_env (E : Env) (deducible : Namespace -> Flags) : Env :=
  with_detector E (spec_deduce_framework_by_namespace deducible).

(** An attribute that is there and false ([None], [''], [False], ...), or
    there and true. *)
Definition unset {E} (s : St E) (name : string) : Prop :=
  exists v, argv s !! name = Some v /\ py_bool v = Ok false.
Definition is_set {E} (s : St E) (name : string) : Prop :=
  exists v, argv s !! name = Some v /\ py_bool v = Ok true.

(** Whether a result is a value, and whether it is an [Error]. *)
Definition returns {A} (r : result A) : bool :=
  match r with Ok _ => true | Raise _ => false end.
Definition raises_Error {A} (r : result A) : bool :=
  match r with Raise (Error _ _) => true | _ => false end.

(** The state with one more event, and with more events. *)
Definition after_event {E} (s : St E) (ev : Event) : St E :=
  mkSt (argv s) (fs s) (trace s ++ [ev])%list.
Definition add_events {E} (s : St E) (evs : list Event) : St E :=
  mkSt (argv s) (fs s) (trace s ++ evs)%list.

(** [g] with other nodes. *)
Definition with_body {B} (g : Graph B) (b : B) : Graph B :=
  mkGraph (cmd_params g) (mf g) (input_names g) b.

(** The three passes that always run. *)
Definition constant_passes : list Event :=
  [EvPass OnGraph NormalizeTI; EvPass GraphAndEachSubGraph RemoveConstOps;
   EvPass GraphAndEachSubGraph CreateConstNodesReplacement].

(** The events of an applied [RemoveOutputOps], and of a call of
    [os.makedirs]. *)
Definition is_output_removal (ev : Event) : bool :=
  match ev with
  | EvPass _ RemoveOutputOps => true
  | _ => false
  end.
Definition is_makedirs (ev : Event) : bool :=
  match ev with EvMakedirs _ => true | _ => false end.

(** A computation that leaves an observation [f] of the state as it was,
    whatever it returns or raises. *)
Definition preserves {E A X} (f : St E -> X) (m : M (St E) A) : Prop :=
  forall s r s', m s = (r, s') -> f s' = f s.

(** The observations: an attribute of the namespace, the removals of output
    operations so far, the calls of [os.makedirs] so far. *)
Definition attr {E} (name : string) (s : St E) : option pyval := argv s !! name.
Definition output_removals {E} (s : St E) : list Event :=
  List.filter is_output_removal (trace s).
Definition makedirs_calls {E} (s : St E) : list Event :=
  List.filter is_makedirs (trace s).

(** [prepare_ir_from] up to a block: lines 105-120, 105-135 and 105-157. *)
Definition until_model_name (E : Env) (fl : Flags) : M (St E) unit :=
  check_required_inputs E fl ;;; force_kaldi_ir E fl.
Definition until_input_proto (E : Env) (fl : Flags) : M (St E) unit :=
  check_required_inputs E fl ;;; force_kaldi_ir E fl ;;; derive_model_name E fl.
Definition until_mean_options (E : Env) (fl : Flags) : M (St E) unit :=
  check_required_inputs E fl ;;; force_kaldi_ir E fl ;;; derive_model_name E fl ;;;
  infer_input_proto E fl ;;; print_arguments E fl ;;; check_environment E fl.

(** The text by which [main] recognises a missing file. *)
Definition missing_file_marker : string := "No such file or directory:".

(** [os.path.basename] without its extension. *)
Definition basename_without_extension (p : string) : string :=
  fst (splitext (basename p)).

(** ** A sample environment

    One concrete set of collaborators, to run the driver on examples: a file
    system that is a map from the paths that exist to whether they can be
    written, passes that leave their name in the graph, and helpers that
    accept everything. *)
Definition sample_get_model_name (v : pyval) : result pyval :=
  match v with
  | PStr p => Ok (PStr (fst (splitext (basename p))))
  | _ => Raise (TypeError "expected str, bytes or os.PathLike object")
  end.

Definition sample_get_tuple_values (v : pyval) (n : Z) : result (list string) :=
  match v with
  | PStr s => Ok [str_take (String.length s - 2) (str_drop 1 s)]
  | _ => Raise (TypeError "object of this type has no len()")
  end.

Definition sample_makedirs (outcome : result unit) (f : gmap string bool) (p : string)
  : result unit * gmap string bool :=
  match outcome with
  | Ok _ => (Ok tt, <[p := true]> f)
  | Raise e => (Raise e, f)
  end.

Definition sample_env (fl : result Flags) (mk : result unit) : Env := {|
  FS := gmap string bool;
  GraphBody := list (Traversal * BackPass);
  os_path_exists := fun f p => bool_decide (is_Some (f !! p));
  os_access_W_OK := fun f p => bool_decide (f !! p = Some true);
  os_makedirs := sample_makedirs mk;
  os_getcwd := fun _ => "/work";
  deduce_framework_by_namespace := fun _ => fl;
  refer_to_faq_msg := fun _ => " (see the FAQ)";
  get_model_name := sample_get_model_name;
  print_argv_lines := fun _ _ _ => Ok [];
  check_requirements := fun _ => Ok (PInt 0);
  get_tuple_values := sample_get_tuple_values;
  get_placeholder_shapes := fun _ _ _ => Ok (PNone, PNone);
  parse_tuple_pairs := fun _ => Ok (PObj false "{}");
  get_mean_scale_dictionary := fun _ _ _ => Ok (PObj false "{}");
  get_freeze_placeholder_values := fun input _ => Ok (PObj false "{}", input);
  load_dirs := fun _ _ _ _ => Ok tt;
  unified_pipeline := fun a _ => Ok (mkGraph a None None []);
  apply_pass := fun t p b => Ok (b ++ [(t, p)])%list;
  prepare_emit_ir := fun _ _ f => (Ok tt, f);
  get_meta_info := fun _ => PObj true "meta";
  get_ir_version := fun _ => "10";
  py_str := fun v => match v with PStr s => s | _ => "?" end;
  str_namespace := fun _ => "Namespace(...)";
  append_exp_keys_to_namespace := fun a => Ok a;
  get_ov_update_message := Ok PNone;
  analysis_messages := None;
  elapsed_seconds := "0.01";
  memory_usage := Some "100"
|}.

(** The namespace of a command line that sets no option but the output
    directory and the log level. *)
Definition default_args : Namespace :=
  list_to_map
    (("output_dir", PStr "out") :: ("log_level", PStr "error") :: ("silent", PBool true)
     :: ("generate_experimental_IR_V10", PBool true) :: ("generate_deprecated_IR_V7", PBool false)
     :: ("data_type", PStr "float")
     :: map (fun n => (n, PNone))
          ["framework"; "input_model"; "saved_model_dir"; "input_meta_graph"; "input_symbol";
           "pretrained_model_name"; "input_proto"; "model_name";
           "tensorflow_use_custom_operations_config"; "transformations_config";
           "tensorflow_custom_operations_config_update";
           "mean_file"; "mean_values"; "mean_file_offsets"; "scale"; "scale_values";
           "saved_model_tags"; "output"; "input"; "input_shape"; "batch";
           "extensions"; "freeze_placeholder_with_value"]).

(** [default_args] with some options set. *)
Definition with_args (l : list (string * pyval)) : Namespace :=
  fold_right (fun kv a => <[kv.1 := kv.2]> a) default_args l.

Definition sample_state (fl : result Flags) (mk : result unit) (a : Namespace)
  (f : gmap string bool) : St (sample_env fl mk) :=
  mkSt (E := sample_env fl mk) a f [].

(** ** Sample runs *)

Definition tf_env := sample_env (Ok tf_only) (Ok tt).
Definition caffe_env := sample_env (Ok caffe_only) (Ok tt).
Definition kaldi_env := sample_env (Ok kaldi_only) (Ok tt).

(** What can be deduced from a bundle, for the sample runs: a framework
    from its name in [framework]; TensorFlow also from a saved model
    directory or a meta graph, Caffe from a prototxt, MXNet from a symbol
    file. *)
Definition sample_deducible (a : Namespace) : Flags :=
  let named n := match a !! "framework" with Some v => is_str n v | None => false end in
  let given n := match a !! n with
                 | Some v => match py_bool v with Ok b => b | Raise _ => false end
                 | None => false
                 end in
  mkFlags (named "tf" || given "saved_model_dir" || given "input_meta_graph")
          (named "caffe" || given "input_proto")
          (named "mxnet" || given "input_symbol")
          (named "kaldi")
          (named "onnx").

(** The detector of the specification over the sample environment, and three
    bundles: a framework that is not one of the five; a saved model
    directory together with a prototxt, from which two frameworks can be
    deduced; a TensorFlow model. *)
Definition detecting_env : Env := spec_env tf_env sample_deducible.
Definition unknown_framework_state : St detecting_env :=
  mkSt (E := detecting_env) (with_args [("framework", PStr "pytorch")]) ∅ [].
Definition ambiguous_state : St detecting_env :=
  mkSt (E := detecting_env)
    (with_args [("saved_model_dir", PStr "/models/resnet50"); ("input_proto", PStr "net.prototxt")])
    ∅ [].
Definition single_framework_state : St detecting_env :=
  mkSt (E := detecting_env)
    (with_args [("framework", PStr "tf"); ("input_model", PStr "model.pb")]) ∅ [].

(** Caffe command lines: the model in a directory; the model and more
    options; both mean options; a mean file with offsets; a model that is
    not a [.caffemodel].  The [_reached] states are those in which
    [prepare_ir] comes to the block in question. *)
Definition caffe_state :=
  sample_state (Ok caffe_only) (Ok tt)
    (with_args [("framework", PStr "caffe"); ("input_model", PStr "dir/model.caffemodel")]) ∅.
Definition caffe_run (l : list (string * pyval)) : St caffe_env :=
  mkSt (E := caffe_env)
    (with_args (("framework", PStr "caffe") :: ("input_model", PStr "model.caffemodel") :: l)) ∅ [].
Definition caffemodel_run : St caffe_env := caffe_run [].
Definition caffemodel_reached : St caffe_env :=
  snd (until_input_proto caffe_env caffe_only caffemodel_run).
Definition both_means : St caffe_env :=
  caffe_run [("mean_file", PStr "mean.binaryproto"); ("mean_values", PStr "(1,2,3)")].
Definition both_means_reached : St caffe_env :=
  snd (until_mean_options caffe_env caffe_only both_means).
Definition with_offsets : St caffe_env :=
  caffe_run [("mean_file", PStr "mean.binaryproto"); ("mean_file_offsets", PStr "(1,2)")].
Definition with_offsets_reached : St caffe_env :=
  snd (until_mean_options caffe_env caffe_only with_offsets).
Definition caffe_weights_run : St caffe_env :=
  mkSt (E := caffe_env)
    (with_args [("framework", PStr "caffe"); ("input_model", PStr "weights.bin")]) ∅ [].

(** A TensorFlow command line with a saved model directory. *)
Definition saved_model_run : St tf_env :=
  mkSt (E := tf_env)
    (with_args [("framework", PStr "tf"); ("saved_model_dir", PStr "/models/resnet50")]) ∅ [].
Definition saved_model_reached : St tf_env :=
  snd (until_model_name tf_env tf_only saved_model_run).

(** A Kaldi command line that asks for the experimental IR. *)
Definition kaldi_run : St kaldi_env :=
  mkSt (E := kaldi_env)
    (with_args [("framework", PStr "kaldi"); ("input_model", PStr "final.nnet");
                ("generate_experimental_IR_V10", PBool true)]) ∅ [].

(** A graph and a state for [emit_ir], the experimental IR switched off. *)
Definition emit_args : Namespace :=
  with_args [("framework", PStr "onnx"); ("model_name", PStr "model");
             ("generate_experimental_IR_V10", PBool false)].
Definition emit_graph : Graph (GraphBody tf_env) := mkGraph emit_args None None [].
Definition emit_state : St tf_env := mkSt (E := tf_env) emit_args ∅ [].

(** A state whose output directory is there and can be written. *)
Definition resolved_state : St tf_env :=
  mkSt (E := tf_env) (with_args [("placeholder_shapes", PNone)]) {[ "out" := true ]} [].

(** Runs of [main]: an MXNet command line with no model source, and an
    output directory below a regular file. *)
Definition mxnet_args : Namespace := with_args [("framework", PStr "mxnet")].
Definition mxnet_start := sample_state (Ok mxnet_only) (Ok tt) ∅ ∅.
Definition mxnet_parsed : St (sample_env (Ok mxnet_only) (Ok tt)) :=
  snd (main_setup _ (Ok mxnet_args) PNone mxnet_start).
Definition not_a_directory : exn :=
  NotADirectoryError "[Errno 20] Not a directory: 'model.pb/out'".
Definition below_a_file_args : Namespace :=
  with_args [("framework", PStr "tf"); ("input_model", PStr "model.pb");
             ("output_dir", PStr "model.pb/out")].

(** * Notions for the properties of the blocks *)

(** An extension as [os.path.splitext] gives it: a dot, then neither a dot
    nor a slash. *)
Definition is_extension (e : string) : bool :=
  match e with
  | String "." r => negb (contains "." r) && negb (contains "/" r)
  | _ => false
  end.

(** Whether the last component of a path has a character that is not a
    dot. *)
Definition has_stem (p : string) : bool :=
  let filenameIndex := rfind "/" p + 1 in
  existsb (fun i => negb (String.eqb (String.substring i 1 p) "."))
          (seq (Z.to_nat filenameIndex) (Z.to_nat (Z.of_nat (String.length p) - filenameIndex))).

(** The attributes of the namespace that [prepare_ir] assigns. *)
Definition prepare_ir_assigns : list string :=
  ["generate_experimental_IR_V10"; "model_name"; "input_proto"; "transformations_config";
   "mean_file_offsets"; "saved_model_tags"; "output"; "placeholder_shapes";
   "placeholder_data_types"; "mean_scale_values"; "freeze_placeholder_with_value"; "input"].

(** ** More sample runs *)

Definition onnx_only : Flags := mkFlags false false false false true.
Definition onnx_env := sample_env (Ok onnx_only) (Ok tt).

(** Command lines that name a framework and no model. *)
Definition tf_no_source : St tf_env :=
  mkSt (E := tf_env) (with_args [("framework", PStr "tf")]) ∅ [].
Definition caffe_no_source : St caffe_env :=
  mkSt (E := caffe_env) (with_args [("framework", PStr "caffe")]) ∅ [].
Definition onnx_no_source : St onnx_env :=
  mkSt (E := onnx_env) (with_args [("framework", PStr "onnx")]) ∅ [].

(** An ONNX command line with a model, a model name and the experimental IR
    asked for. *)
Definition onnx_run : St onnx_env :=
  mkSt (E := onnx_env)
    (with_args [("framework", PStr "onnx"); ("input_model", PStr "net.onnx");
                ("model_name", PStr "mine"); ("generate_experimental_IR_V10", PBool true)]) ∅ [].

(** An environment with other answers of [check_requirements], of
    [get_ov_update_message] and of [AnalysisResults], and other lines of
    [print_argv]. *)
Definition change_env (E : Env) (requirements : pyval -> result pyval)
  (update_message : result pyval) (messages : option (list string))
  (lines : Namespace -> Flags -> pyval -> result (list string)) : Env := {|
  FS := FS E;
  GraphBody := GraphBody E;
  os_path_exists := os_path_exists E;
  os_access_W_OK := os_access_W_OK E;
  os_makedirs := os_makedirs E;
  os_getcwd := os_getcwd E;
  deduce_framework_by_namespace := deduce_framework_by_namespace E;
  refer_to_faq_msg := refer_to_faq_msg E;
  get_model_name := get_model_name E;
  print_argv_lines := lines;
  check_requirements := requirements;
  get_tuple_values := get_tuple_values E;
  get_placeholder_shapes := get_placeholder_shapes E;
  parse_tuple_pairs := parse_tuple_pairs E;
  get_mean_scale_dictionary := get_mean_scale_dictionary E;
  get_freeze_placeholder_values := get_freeze_placeholder_values E;
  load_dirs := load_dirs E;
  unified_pipeline := unified_pipeline E;
  apply_pass := apply_pass E;
  prepare_emit_ir := prepare_emit_ir E;
  get_meta_info := get_meta_info E;
  get_ir_version := get_ir_version E;
  py_str := py_str E;
  str_namespace := str_namespace E;
  append_exp_keys_to_namespace := append_exp_keys_to_namespace E;
  get_ov_update_message := update_message;
  analysis_messages := messages;
  elapsed_seconds := elapsed_seconds E;
  memory_usage := memory_usage E
|}.

(** [v is None] *)
Definition is_none (v : pyval) : bool :=
  match v with PNone => true | _ => false end.

(** A machine where the requirements of TensorFlow are not installed. *)
Definition bare_env : Env :=
  change_env tf_env (fun _ => Ok (PInt 1)) (Ok PNone) None (fun _ _ _ => Ok []).
Definition bare_run : St bare_env :=
  mkSt (E := bare_env) (with_args [("framework", PStr "tf"); ("input_model", PStr "model.pb")]) ∅ [].

(** TensorFlow command lines: the old name of [--transformations_config];
    a frozen model together with a saved model directory; tags with a space
    in them, and tags and output names separated by commas. *)
Definition tf_run (l : list (string * pyval)) : St tf_env :=
  mkSt (E := tf_env) (with_args (("framework", PStr "tf") :: l)) ∅ [].
Definition tf_alias_run : St tf_env :=
  tf_run [("input_model", PStr "model.pb");
          ("tensorflow_use_custom_operations_config", PStr "ssd.json")].
Definition tf_two_sources : St tf_env :=
  tf_run [("input_model", PStr "model.pb"); ("saved_model_dir", PStr "/models/resnet50")].
Definition tf_spaced_tags : St tf_env :=
  tf_run [("saved_model_dir", PStr "/models/resnet50"); ("saved_model_tags", PStr "serve, gpu")].
Definition tf_tags_and_outputs : St tf_env :=
  tf_run [("saved_model_dir", PStr "/models/resnet50"); ("saved_model_tags", PStr "serve,gpu");
          ("output", PStr "prob,boxes")].

(** Caffe command lines: offsets that are no integers; a scale together
    with scale values; a scale below one. *)
Definition bad_offsets : St caffe_env :=
  caffe_run [("mean_file", PStr "mean.binaryproto"); ("mean_file_offsets", PStr "(1,x)")].
Definition two_scales : St caffe_env :=
  caffe_run [("scale", PFloat 255); ("scale_values", PStr "(1,2,3)")].
Definition small_scale : St caffe_env := caffe_run [("scale", PFloat 0.5)].

(** The warning about a scale below one. *)
Definition scale_warning : Event :=
  EvLog LError
    (MsgText ("The scale value is less than 1.0. This is most probably an issue because the scale value specifies "
              +:+ "floating point value which all input values will be *divided*."))
    (Some "is_warning").

(** An output directory that is there and cannot be written; an output
    directory below a regular file, where [os.makedirs] fails. *)
Definition read_only_state : St tf_env :=
  mkSt (E := tf_env) (with_args [("placeholder_shapes", PNone)]) {[ "out" := false ]} [].
Definition below_a_file_env : Env := sample_env (Ok tf_only) (Raise not_a_directory).
Definition below_a_file_state : St below_a_file_env :=
  mkSt (E := below_a_file_env) below_a_file_args ∅ [].

(** The extension directories of lines 216-219: the pieces of
    [argv.extensions], when it is there and not empty. *)
Definition extension_dirs (a : Namespace) : option (list string) :=
  match a !! "extensions" with
  | Some (PStr e) => if String.eqb e "" then None else Some (split "," e)
  | _ => None
  end.

(** A command line that sets two framework flags and two extension
    directories, at the point where the extensions are loaded. *)
Definition two_fronts_env : Env := sample_env (Ok tf_and_caffe) (Ok tt).
Definition two_fronts_state : St two_fronts_env :=
  mkSt (E := two_fronts_env)
    (with_args [("framework", PStr "tf"); ("input_model", PStr "model.pb");
                ("extensions", PStr "/ext/a,/ext/b")]) ∅ [].

(** What has been printed so far. *)
Definition is_print (ev : Event) : bool :=
  match ev with EvPrint _ => true | _ => false end.
Definition prints {E} (s : St E) : list Event := List.filter is_print (trace s).

(** A TensorFlow run that only updates the configuration of the custom
    operations, at the point where the IR is emitted. *)
Definition tf_update_args : Namespace :=
  with_args [("framework", PStr "tf"); ("input_model", PStr "model.pb");
             ("model_name", PStr "model");
             ("tensorflow_custom_operations_config_update", PStr "ssd.json")].
Definition tf_update_graph : Graph (GraphBody tf_env) := mkGraph tf_update_args None None [].
Definition tf_update_state : St tf_env := mkSt (E := tf_env) tf_update_args ∅ [].

(** Runs of [main]: a machine where the update message cannot be fetched,
    with a command line that is not silent; a run whose analysis left two
    messages, with a command line that names no model. *)
Definition offline_env : Env :=
  change_env tf_env (fun _ => Ok (PInt 0)) (Raise (OtherException "URLError" "unreachable")) None
    (fun _ _ _ => Ok []).
Definition chatty_args : Namespace :=
  with_args [("framework", PStr "tf"); ("input_model", PStr "model.pb"); ("silent", PBool false)].
Definition offline_start : St offline_env := mkSt (E := offline_env) ∅ ∅ [].

Definition analysed_env : Env :=
  change_env (sample_env (Ok mxnet_only) (Ok tt)) (fun _ => Ok (PInt 0)) (Ok PNone)
    (Some ["Your model looks like a detection model."; "Try --input_shape."])
    (fun _ _ _ => Ok []).
Definition analysed_start : St analysed_env := mkSt (E := analysed_env) ∅ ∅ [].

Definition below_a_file_start : St below_a_file_env := mkSt (E := below_a_file_env) ∅ ∅ [].

(** The events of the analysis messages, as [main] logs them. *)
Definition analysis_events (E : Env) : list Event :=
  map (fun el => EvLog LError (MsgText el) (Some "analysis_info"))
      (match analysis_messages E with Some messages => messages | None => [] end).

(** * [print_argv]

    [print_argv] prints a header and then, in one call of [print], a line
    for every option of the tables of [mo.utils.cli_parser] that apply.
    The tables, the version and [sys.argv[0]] are the fields of
    [CliTables]: what [get_common_cli_options] and the like return is taken
    as a value.  [print_argv_lines] of the environment stands for the lines
    below the header, and [print_argv_lines_of] computes them. *)

(** What a table has for an option: a description, or the list of a label
    and of the function that renders the value. *)
Inductive Desc : Type :=
| Label (desc : string)
| Rendered (label : string) (render : pyval -> result pyval).

(** An [OrderedDict] from option names to descriptions, in its order. *)
Abbreviation Options := (list (string * Desc)).

Record CliTables : Type := mkCliTables {
  get_common_cli_options : pyval -> Options;
  get_caffe_cli_options : Options;
  get_tf_cli_options : Options;
  get_mxnet_cli_options : Options;
  get_kaldi_cli_options : Options;
  get_onnx_cli_options : Options;
  get_version : string;
  sys_argv0 : string
}.

(** [os.path.dirname] *)
Fixpoint all_slashes (s : string) : bool :=
  match s with
  | EmptyString => true
  | String c s' => Ascii.eqb c "/" && all_slashes s'
  end.

Fixpoint rstrip_slashes (s : string) : string :=
  match s with
  | EmptyString => ""
  | String c s' =>
      match rstrip_slashes s' with
      | EmptyString => if Ascii.eqb c "/" then "" else String c ""
      | r => String c r
      end
  end.

Definition dirname (p : string) : string :=
  let head := str_take (Z.to_nat (rfind "/" p + 1)) p in
  if negb (String.eqb head "") && negb (all_slashes head) then rstrip_slashes head else head.

Definition tab : string := String (ascii_of_nat 9) "".

(** A dictionary with string keys, as a list; [d[key]]. *)
Fixpoint dict_get {A} (key : string) (d : list (string * A)) : result A :=
  match d with
  | [] => Raise (OtherException "KeyError" key)
  | (k, v) :: d' => if String.eqb k key then Ok v else dict_get key d'
  end.

Section PrintArgv.
Context (E : Env) (T : CliTables).

(** Lines 59-69: the tables that apply, under their keys. *)
Definition props (fl : Flags) (model_name : pyval) : list (string * Options) :=
  (("common_args", get_common_cli_options T model_name)
   :: (if is_caffe fl then [("caffe_args", get_caffe_cli_options T)] else [])
   ++ (if is_tf fl then [("tf_args", get_tf_cli_options T)] else [])
   ++ (if is_mxnet fl then [("mxnet_args", get_mxnet_cli_options T)] else [])
   ++ (if is_kaldi fl then [("kaldi_args", get_kaldi_cli_options T)] else [])
   ++ (if is_onnx fl then [("onnx_args", get_onnx_cli_options T)] else []))%list.

Definition framework_specifics_map : list (string * string) :=
  [("common_args", "Common parameters:");
   ("caffe_args", "Caffe specific parameters:");
   ("tf_args", "TensorFlow specific parameters:");
   ("mxnet_args", "MXNet specific parameters:");
   ("kaldi_args", "Kaldi specific parameters:");
   ("onnx_args", "ONNX specific parameters:")].

(** Lines 84-93: the line of one option.  [getattr(argv, op, 'NONE')] is
    the value; [op is 'k'] holds of the one-character string [k] and of no
    other. *)
Definition option_line (a : Namespace) (op : string) (d : Desc) : result string :=
  let value := match a !! op with Some v => v | None => PStr "NONE" end in
  match d with
  | Rendered label render =>
      match render value with
      | Ok text => Ok (tab +:+ label +:+ ": " +:+ tab +:+ py_str E text)
      | Raise e => Raise e
      end
  | Label desc =>
      let default_path :=
        path_join (dirname (sys_argv0 T)) "extensions/front/caffe/CustomLayersMapping.xml" in
      if String.eqb op "k" && is_str default_path value
      then Ok (tab +:+ desc +:+ ": " +:+ tab +:+ "Default")
      else Ok (tab +:+ desc +:+ ": " +:+ tab +:+ py_str E value)
  end.

(** Lines 81-93: the loop over the tables. *)
Fixpoint group_lines (a : Namespace) (groups : list (string * Options)) : result (list string) :=
  match groups with
  | [] => Ok []
  | (key, items) :: rest =>
      match dict_get key framework_specifics_map with
      | Raise e => Raise e
      | Ok header =>
          match map_result (fun item => option_line a item.1 item.2) items with
          | Raise e => Raise e
          | Ok lines =>
              match group_lines a rest with
              | Raise e => Raise e
              | Ok more => Ok (header :: lines ++ more)%list
              end
          end
      end
  end.

(** Lines 80-94: [lines]. *)
Definition print_argv_lines_of (a : Namespace) (fl : Flags) (model_name : pyval)
  : result (list string) :=
  match group_lines a (props fl model_name) with
  | Raise e => Raise e
  | Ok lines => Ok (lines ++ ["Model Optimizer version: " +:+ tab +:+ get_version T])%list
  end.

End PrintArgv.

(** The headers of the tables that apply, in the order of [print_argv]. *)
Definition section_headers (fl : Flags) : list string :=
  ("Common parameters:"
   :: (if is_caffe fl then ["Caffe specific parameters:"] else [])
   ++ (if is_tf fl then ["TensorFlow specific parameters:"] else [])
   ++ (if is_mxnet fl then ["MXNet specific parameters:"] else [])
   ++ (if is_kaldi fl then ["Kaldi specific parameters:"] else [])
   ++ (if is_onnx fl then ["ONNX specific parameters:"] else []))%list.

(** The lines that are not the line of an option. *)
Definition is_option_line (line : string) : bool := startswith tab line.
Definition outline (lines : list string) : list string :=
  List.filter (fun line => negb (is_option_line line)) lines.

(** How many options the tables that apply have. *)
Definition options_count (T : CliTables) (fl : Flags) (model_name : pyval) : nat :=
  list_sum (map (fun group => length group.2) (props T fl model_name)).

(** Sample tables. *)
Definition sample_tables : CliTables := {|
  get_common_cli_options := fun model_name =>
    [("input_model", Label "- Path to the Input Model");
     ("output_dir", Label "- Path for generated IR");
     ("log_level", Label "- Log level");
     ("batch", Label "- Batch");
     ("silent", Rendered "- Silent" (fun v => Ok v))];
  get_caffe_cli_options :=
    [("input_proto", Rendered "- Path to the Input prototxt"
                       (fun v => match v with
                                 | PStr s => Ok (PStr s)
                                 | _ => Raise (TypeError "expected str, bytes or os.PathLike object")
                                 end));
     ("k", Label "- Path to CustomLayersMapping.xml")];
  get_tf_cli_options := [("saved_model_dir", Label "- Path to the saved model directory")];
  get_mxnet_cli_options := [];
  get_kaldi_cli_options := [];
  get_onnx_cli_options := [];
  get_version := "2020.4";
  sys_argv0 := "/opt/mo/mo.py"
|}.

(** A namespace in which the Caffe mapping file is the default one, and the
    lines [print_argv] makes for it from [sample_tables]. *)
Definition mapping_args : Namespace :=
  with_args [("framework", PStr "caffe"); ("input_model", PStr "model.caffemodel");
             ("input_proto", PStr "model.prototxt");
             ("k", PStr "/opt/mo/extensions/front/caffe/CustomLayersMapping.xml")].
Definition mapping_lines : list string :=
  ["Common parameters:";
   tab +:+ "- Path to the Input Model: " +:+ tab +:+ "model.caffemodel";
   tab +:+ "- Path for generated IR: " +:+ tab +:+ "out";
   tab +:+ "- Log level: " +:+ tab +:+ "error";
   tab +:+ "- Batch: " +:+ tab +:+ "?";
   tab +:+ "- Silent: " +:+ tab +:+ "?";
   "Caffe specific parameters:";
   tab +:+ "- Path to the Input prototxt: " +:+ tab +:+ "model.prototxt";
   tab +:+ "- Path to CustomLayersMapping.xml: " +:+ tab +:+ "Default";
   "Model Optimizer version: " +:+ tab +:+ "2020.4"].

(** The value [print_argv] shows for an option: [getattr(argv, op, 'NONE')]. *)
Definition shown_value (a : Namespace) (op : string) : pyval :=
  match a !! op with Some v => v | None => PStr "NONE" end.

(** A command line without prototxt: the function of [sample_tables] that
    renders the prototxt fails on [None]. *)
Definition no_proto_args : Namespace :=
  with_args [("framework", PStr "caffe"); ("input_model", PStr "model.caffemodel")].

(** An environment that prints the arguments from [sample_tables], and a
    command line that is not silent. *)
Definition printing_env : Env :=
  change_env caffe_env (fun _ => Ok (PInt 0)) (Ok PNone) None
    (print_argv_lines_of caffe_env sample_tables).
Definition printing_state : St printing_env :=
  mkSt (E := printing_env)
    (with_args [("framework", PStr "caffe"); ("input_model", PStr "model.caffemodel");
                ("input_proto", PStr "model.prototxt"); ("model_name", PStr "model");
                ("silent", PBool false)]) ∅ [].

(** * Properties *)

(** ** Tests of the string and path functions *)

Example replace_ext_hidden :
  replace_ext "dir/.caffemodel" ".caffemodel" ".prototxt" = None.
Proof. reflexivity. Qed.

Example replace_ext_other :
  replace_ext "a.b/model" ".caffemodel" ".prototxt" = None.
Proof. reflexivity. Qed.

Example split_commas : split "," "1,-2,,3" = ["1"; "-2"; ""; "3"].
Proof. reflexivity. Qed.

Example split_marker :
  split "No such file or directory:" "[Errno 2] No such file or directory: 'm.pb'"
  = ["[Errno 2] "; " 'm.pb'"].
Proof. reflexivity. Qed.

Example py_int_neg : py_int " -12" = Ok (-12).
Proof. reflexivity. Qed.

Example py_int_underscore : py_int "1_000" = Ok 1000.
Proof. reflexivity. Qed.

Example py_int_bad : exists m, py_int "1.5" = Raise (ValueError m).
Proof. eexists. reflexivity. Qed.

Example run_sample :
  returns (fst (prepare_ir _ caffe_state)) = true
  /\ attr "input_proto" (snd (prepare_ir _ caffe_state)) = Some (PStr "dir/model.prototxt")
  /\ attr "model_name" (snd (prepare_ir _ caffe_state)) = Some (PStr "model")
  /\ fs (snd (prepare_ir _ caffe_state)) !! "out" = Some true.
Proof. split; [|split; [|split]]; vm_compute; reflexivity. Qed.

(** ** Running the monad *)

Section Runs.
Context {S A B : Type}.
Implicit Types (m : M S A) (k : A -> M S B).

Lemma bind_ok m k s a s1 : m s = (Ok a, s1) -> bind m k s = k a s1.
Proof. intros H. unfold bind. now rewrite H. Qed.

Lemma bind_raise m k s e s1 : m s = (Raise e, s1) -> bind m k s = (Raise e, s1).
Proof. intros H. unfold bind. now rewrite H. Qed.

Lemma bind_inv m k s r s' :
  bind m k s = (r, s') ->
  (exists a s1, m s = (Ok a, s1) /\ k a s1 = (r, s'))
  \/ (exists e, m s = (Raise e, s') /\ r = Raise e).
Proof.
  unfold bind. destruct (m s) as [[a|e] s1]; intros H.
  - left. eauto.
  - right. inversion H; subst. eauto.
Qed.

Lemma bind_ok_inv m k s b s' :
  bind m k s = (Ok b, s') -> exists a s1, m s = (Ok a, s1) /\ k a s1 = (Ok b, s').
Proof.
  intros H. apply bind_inv in H as [H | (e & _ & H)]; [exact H | discriminate H].
Qed.

End Runs.

(** A run from its two halves. *)
Lemma run_eq {S A} (x : result A * S) r s : fst x = r -> snd x = s -> x = (r, s).
Proof. destruct x. simpl. intros -> ->. reflexivity. Qed.

Lemma attr_true_unset E (s : St E) name : unset s name -> attr_true E name s = (Ok false, s).
Proof.
  intros (v & Hv & Hb). cbv [attr_true getattr truth lift bind]. now rewrite Hv, Hb.
Qed.

Lemma attr_true_set E (s : St E) name : is_set s name -> attr_true E name s = (Ok true, s).
Proof.
  intros (v & Hv & Hb). cbv [attr_true getattr truth lift bind]. now rewrite Hv, Hb.
Qed.

(** ** What a block leaves as it was *)

Section Preserves.
Context {E : Env} {X : Type} (f : St E -> X).

Lemma preserves_ret {A} (a : A) : preserves f (ret a).
Proof. intros s r s' H. inversion H. reflexivity. Qed.

Lemma preserves_raise {A} e : preserves (A := A) f (raise e).
Proof. intros s r s' H. inversion H. reflexivity. Qed.

Lemma preserves_lift {A} (x : result A) : preserves f (lift x).
Proof. intros s r s' H. inversion H. reflexivity. Qed.

Lemma preserves_get_state : preserves f get_state.
Proof. intros s r s' H. inversion H. reflexivity. Qed.

Lemma preserves_bind {A B} (m : M (St E) A) (k : A -> M (St E) B) :
  preserves f m -> (forall a, preserves f (k a)) -> preserves f (bind m k).
Proof.
  intros Hm Hk s r s' H. apply bind_inv in H as [(a & s1 & H1 & H2) | (e & H1 & _)].
  - rewrite (Hk a _ _ _ H2). exact (Hm _ _ _ H1).
  - exact (Hm _ _ _ H1).
Qed.

Lemma preserves_try_except {A} (m : M (St E) A) h :
  preserves f m -> (forall e, preserves f (h e)) -> preserves f (try_except m h).
Proof.
  intros Hm Hh s r s' H. unfold try_except in H.
  destruct (m s) as [[a|e] s1] eqn:H1.
  - inversion H; subst. exact (Hm _ _ _ H1).
  - rewrite (Hh e _ _ _ H). exact (Hm _ _ _ H1).
Qed.

Lemma preserves_getattr n : preserves f (getattr E n).
Proof.
  intros s r s' H. unfold getattr in H. destruct (argv s !! n); inversion H; reflexivity.
Qed.

Lemma preserves_hasattr n : preserves f (hasattr E n).
Proof. intros s r s' H. inversion H. reflexivity. Qed.

Lemma preserves_emit ev :
  (forall s, f (after_event s ev) = f s) -> preserves f (emit E ev).
Proof. intros Hf s r s' H. inversion H; subst. apply Hf. Qed.

Lemma preserves_setattr n v :
  (forall s, f (mkSt (<[n := v]> (argv s)) (fs s) (trace s)) = f s) ->
  preserves f (setattr E n v).
Proof. intros Hf s r s' H. inversion H; subst. apply Hf. Qed.

(** A call that only touches the file system. *)
Lemma preserves_fs_call {A} (call : FS E -> result A * FS E) :
  (forall s f', f (mkSt (argv s) f' (trace s)) = f s) ->
  preserves f (fun s => let '(r, f') := call (fs s) in (r, mkSt (argv s) f' (trace s))).
Proof.
  intros Hf s r s' H. destruct (call (fs s)) as [r0 f']. inversion H; subst. apply Hf.
Qed.

Lemma preserves_makedirs path :
  (forall s, f (after_event s (EvMakedirs path)) = f s) ->
  (forall s f', f (mkSt (argv s) f' (trace s)) = f s) ->
  preserves f (makedirs E path).
Proof.
  intros H1 H2. unfold makedirs. apply preserves_bind.
  - apply preserves_emit. exact H1.
  - intros _. apply (preserves_fs_call (fun x => os_makedirs E x path)). exact H2.
Qed.

End Preserves.

Lemma attr_after_event {E} name (s : St E) ev : attr name (after_event s ev) = attr name s.
Proof. reflexivity. Qed.

Lemma attr_setattr_ne {E} name n v (s : St E) :
  name <> n -> attr name (mkSt (<[n := v]> (argv s)) (fs s) (trace s)) = attr name s.
Proof. intros H. unfold attr. simpl. apply lookup_insert_ne. congruence. Qed.

Lemma output_removals_after_event {E} (s : St E) ev :
  is_output_removal ev = false -> output_removals (after_event s ev) = output_removals s.
Proof.
  intros H. unfold output_removals, after_event. simpl.
  rewrite List.filter_app. simpl. rewrite H. apply app_nil_r.
Qed.

(** Goals [preserves f m]: the structure of [m] is followed.  For an
    attribute, every [setattr] must be to another attribute; for the
    removals, every event must be another event. *)
Ltac preserves_side :=
  first
    [ reflexivity
    | intros; apply attr_setattr_ne; first [assumption | discriminate]
    | intros; apply output_removals_after_event; reflexivity ].

Ltac preserves_step :=
  first
    [ apply preserves_ret | apply preserves_raise | apply preserves_lift | apply preserves_get_state
    | apply preserves_getattr | apply preserves_hasattr
    | apply preserves_emit; preserves_side
    | apply preserves_setattr; preserves_side
    | apply preserves_makedirs; preserves_side
    | apply preserves_bind; [| intro]
    | apply preserves_try_except; [| intro]
    | match goal with
      | |- preserves _ (if ?c then _ else _) => destruct c
      | |- preserves _ (match ?x with _ => _ end) => destruct x
      end ].

Ltac preserves_tac :=
  cbv [andM notM when truth attr_true attr_not_none log print model_name_of log_error];
  repeat preserves_step.

Section KeepsBlocks.
Context (E : Env) (fl : Flags) (name : string).

Lemma keeps_check_required_inputs : preserves (attr name) (check_required_inputs E fl).
Proof. unfold check_required_inputs. preserves_tac. Qed.

Lemma keeps_force_kaldi_ir :
  name <> "generate_experimental_IR_V10" -> preserves (attr name) (force_kaldi_ir E fl).
Proof. intros H. unfold force_kaldi_ir. preserves_tac. Qed.

Lemma keeps_derive_model_name : name <> "model_name" -> preserves (attr name) (derive_model_name E fl).
Proof. intros H. unfold derive_model_name. preserves_tac. Qed.

Lemma keeps_infer_input_proto : name <> "input_proto" -> preserves (attr name) (infer_input_proto E fl).
Proof. intros H. unfold infer_input_proto. preserves_tac. Qed.

Lemma keeps_print_arguments : preserves (attr name) (print_arguments E fl).
Proof. unfold print_arguments. preserves_tac. Qed.

Lemma keeps_check_environment :
  name <> "transformations_config" -> preserves (attr name) (check_environment E fl).
Proof. intros H. unfold check_environment. preserves_tac. Qed.

Lemma keeps_check_mean_options :
  name <> "mean_file_offsets" -> preserves (attr name) (check_mean_options E fl).
Proof. intros H. unfold check_mean_options. preserves_tac. Qed.

Lemma keeps_check_scale_options : preserves (attr name) (check_scale_options E).
Proof. unfold check_scale_options. preserves_tac. Qed.

Lemma keeps_normalize_model_options :
  name <> "saved_model_tags" -> name <> "output" -> preserves (attr name) (normalize_model_options E fl).
Proof. intros H1 H2. unfold normalize_model_options. preserves_tac. Qed.

Lemma keeps_resolve_placeholders :
  name <> "placeholder_shapes" -> name <> "placeholder_data_types" ->
  name <> "mean_scale_values" -> preserves (attr name) (resolve_placeholders E).
Proof. intros H1 H2 H3. unfold resolve_placeholders. preserves_tac. Qed.

Lemma keeps_resolve_output_dir : preserves (attr name) (resolve_output_dir E).
Proof. unfold resolve_output_dir. preserves_tac. Qed.

Lemma keeps_load_extensions :
  name <> "freeze_placeholder_with_value" -> name <> "input" -> preserves (attr name) (load_extensions E fl).
Proof. intros H1 H2. unfold load_extensions. preserves_tac. Qed.

Lemma keeps_run_pipeline : preserves (attr name) (run_pipeline E).
Proof. unfold run_pipeline. preserves_tac. Qed.

End KeepsBlocks.

(** The blocks of [prepare_ir] one after the other. *)
Ltac keeps_block :=
  first
    [ apply keeps_check_required_inputs | apply keeps_force_kaldi_ir | apply keeps_derive_model_name
    | apply keeps_infer_input_proto | apply keeps_print_arguments | apply keeps_check_environment
    | apply keeps_check_mean_options | apply keeps_check_scale_options
    | apply keeps_normalize_model_options | apply keeps_resolve_placeholders
    | apply keeps_resolve_output_dir | apply keeps_load_extensions | apply keeps_run_pipeline ];
  discriminate.

Ltac keeps_blocks :=
  first [ keeps_block | apply preserves_bind; [keeps_block | intro; keeps_blocks] ].

(** ** Framework detection *)

Lemma any_flag_selected fl : any_flag fl = false <-> selected fl = 0%nat.
Proof. destruct fl as [[] [] [] [] []]; cbv; split; congruence. Qed.

Lemma detect_framework_none E (s : St E) fl fw :
  deduce_framework_by_namespace E (argv s) = Ok fl ->
  any_flag fl = false ->
  argv s !! "framework" = Some fw ->
  detect_framework E s =
    (Raise (Error ("Framework {} is not a valid target. Please use --framework with one from the list: caffe, tf, "
                   +:+ "mxnet, kaldi, onnx. " +:+ refer_to_faq_msg E 15) [fw]), s).
Proof.
  intros Hd Hn Hf. cbv [detect_framework bind get_state lift getattr raise].
  rewrite Hd, Hn. cbn [negb]. now rewrite Hf.
Qed.

Lemma detect_framework_some E (s : St E) fl :
  deduce_framework_by_namespace E (argv s) = Ok fl ->
  any_flag fl = true ->
  detect_framework E s = (Ok fl, s).
Proof.
  intros Hd Hn. cbv [detect_framework bind get_state lift ret]. rewrite Hd, Hn. reflexivity.
Qed.

(** C1.  With [deduce_framework_by_namespace] as the specification has it:
    for every bundle from which no framework or more than one framework
    can be deduced, [prepare_ir] raises the [Error] whose message lists
    caffe, tf, mxnet, kaldi and onnx, and leaves the state as it was; the
    detection step returns only when exactly one framework can be deduced,
    with the flag of that framework and no other; and then [prepare_ir]
    goes on to the checks that follow. *)
Theorem prepare_ir_framework_detection E deducible (s : St (spec_env E deducible)) fw :
  argv s !! "framework" = Some fw ->
  ((selected (deducible (argv s)) = 0 \/ 2 <= selected (deducible (argv s)))%nat ->
     exists msg, prepare_ir (spec_env E deducible) s = (Raise (Error msg [fw]), s)
       /\ Forall (fun name => contains name msg = true) ["caffe"; "tf"; "mxnet"; "kaldi"; "onnx"])
  /\ (forall fl s1, detect_framework (spec_env E deducible) s = (Ok fl, s1) ->
        selected (deducible (argv s)) = 1%nat /\ fl = deducible (argv s) /\ selected fl = 1%nat
        /\ s1 = s)
  /\ (selected (deducible (argv s)) = 1%nat ->
      detect_framework (spec_env E deducible) s = (Ok (deducible (argv s)), s)
      /\ prepare_ir (spec_env E deducible) s
         = prepare_ir_from (spec_env E deducible) (deducible (argv s)) s).
Proof.
  intros Hf.
  assert (Hd : deduce_framework_by_namespace (spec_env E deducible) (argv s)
               = spec_deduce_framework_by_namespace deducible (argv s)) by reflexivity.
  unfold spec_deduce_framework_by_namespace in Hd.
  destruct (Nat.eqb_spec (selected (deducible (argv s))) 1) as [H1 | H1].
  - assert (Ha : any_flag (deducible (argv s)) = true).
    { destruct (any_flag (deducible (argv s))) eqn:Ha; [reflexivity|].
      apply any_flag_selected in Ha. rewrite Ha in H1. discriminate H1. }
    pose proof (detect_framework_some _ s _ Hd Ha) as Hdet.
    split; [intros [H0 | H2]; lia|]. split.
    + intros fl s1 H. rewrite Hdet in H. inversion H; subst. auto.
    + intros _. split; [exact Hdet|].
      unfold prepare_ir. now rewrite (bind_ok _ _ _ _ _ Hdet).
  - pose proof (detect_framework_none _ s no_flags fw Hd eq_refl Hf) as Hraise.
    split; [|split].
    + intros _. eexists. split.
      * unfold prepare_ir. apply bind_raise. exact Hraise.
      * repeat constructor.
    + intros fl s1 H. rewrite Hraise in H. discriminate H.
    + intros H. contradiction.
Qed.

Lemma prepare_ir_framework_detection_witness :
  selected (sample_deducible (argv ambiguous_state)) = 2%nat
  /\ exists msg,
       prepare_ir detecting_env ambiguous_state = (Raise (Error msg [PNone]), ambiguous_state)
       /\ Forall (fun name => contains name msg = true) ["caffe"; "tf"; "mxnet"; "kaldi"; "onnx"].
Proof.
  split; [vm_compute; reflexivity|].
  apply (proj1 (prepare_ir_framework_detection tf_env sample_deducible ambiguous_state PNone
                  ltac:(vm_compute; reflexivity))).
  right. vm_compute. constructor.
Defined.

(** The three bundles: a framework that is none of the five and two
    frameworks at once end in the [Error]; one framework goes on, here to
    the graph. *)
Example framework_detection_runs :
  raises_Error (fst (prepare_ir detecting_env unknown_framework_state)) = true
  /\ raises_Error (fst (prepare_ir detecting_env ambiguous_state)) = true
  /\ fst (detect_framework detecting_env single_framework_state) = Ok tf_only
  /\ returns (fst (prepare_ir detecting_env single_framework_state)) = true.
Proof. split; [|split; [|split]]; vm_compute; reflexivity. Qed.

(** ** [emit_ir] *)

Lemma add_events_trace {E} (s : St E) evs ev :
  after_event (add_events s evs) ev = add_events s (evs ++ [ev]).
Proof. unfold after_event, add_events. simpl. now rewrite <- app_assoc. Qed.

Lemma run_pass_ok E t p (g : Graph (GraphBody E)) (s : St E) b :
  apply_pass E t p (body g) = Ok b ->
  run_pass E t p g s = (Ok (with_body g b), after_event s (EvPass t p)).
Proof.
  intros H. cbv [run_pass bind emit modify lift ret]. rewrite H. reflexivity.
Qed.

Lemma run_pass_raise E t p (g : Graph (GraphBody E)) (s : St E) e :
  apply_pass E t p (body g) = Raise e ->
  run_pass E t p g s = (Raise e, after_event s (EvPass t p)).
Proof.
  intros H. cbv [run_pass bind emit modify lift ret]. rewrite H. reflexivity.
Qed.

Lemma removes_output_ops_run E (g : Graph (GraphBody E)) (s : St E) v b :
  cmd_params g !! "generate_experimental_IR_V10" = Some v ->
  py_bool v = Ok b ->
  removes_output_ops E g s = (Ok (negb b), s).
Proof.
  intros Hv Hb. cbv [removes_output_ops notM cmd_param truth bind lift ret].
  rewrite Hv. cbv [ret]. rewrite Hb. reflexivity.
Qed.

Lemma finalize_graph_run E (g : Graph (GraphBody E)) (s : St E) v b b1 b2 b3 :
  cmd_params g !! "generate_experimental_IR_V10" = Some v ->
  py_bool v = Ok b ->
  apply_pass E OnGraph NormalizeTI (body g) = Ok b1 ->
  apply_pass E GraphAndEachSubGraph RemoveConstOps b1 = Ok b2 ->
  apply_pass E GraphAndEachSubGraph CreateConstNodesReplacement b2 = Ok b3 ->
  finalize_graph E g s =
    if b then (Ok (with_body g b3), add_events s constant_passes)
    else
      match apply_pass E EachSubGraph RemoveOutputOps b3 with
      | Raise e => (Raise e, add_events s (constant_passes ++ [EvPass EachSubGraph RemoveOutputOps]))
      | Ok b4 =>
          match apply_pass E GraphAndEachSubGraph RemoveOutputOps b4 with
          | Raise e =>
              (Raise e, add_events s (constant_passes ++ [EvPass EachSubGraph RemoveOutputOps;
                                                          EvPass GraphAndEachSubGraph RemoveOutputOps]))
          | Ok b5 =>
              (Ok (with_body g b5),
               add_events s (constant_passes ++ [EvPass EachSubGraph RemoveOutputOps;
                                                 EvPass GraphAndEachSubGraph RemoveOutputOps]))
          end
      end.
Proof.
  intros Hv Hb H1 H2 H3. unfold finalize_graph.
  rewrite (bind_ok _ _ _ _ _ (run_pass_ok E _ _ g s b1 H1)).
  rewrite (bind_ok _ _ _ _ _ (run_pass_ok E _ _ (with_body g b1) _ b2 H2)).
  rewrite (bind_ok _ _ _ _ _ (run_pass_ok E _ _ (with_body (with_body g b1) b2) _ b3 H3)).
  set (g3 := with_body (with_body (with_body g b1) b2) b3).
  assert (Hs : after_event (after_event (after_event s (EvPass OnGraph NormalizeTI))
                 (EvPass GraphAndEachSubGraph RemoveConstOps))
                 (EvPass GraphAndEachSubGraph CreateConstNodesReplacement)
               = add_events s constant_passes).
  { unfold after_event, add_events, constant_passes. simpl. now rewrite <- !app_assoc. }
  rewrite Hs. clear Hs.
  rewrite (bind_ok _ _ _ _ _ (removes_output_ops_run E g3 _ v b Hv Hb)).
  destruct b; cbn [negb].
  - rewrite (bind_ok _ _ _ _ _ (eq_refl : ret g3 _ = (Ok g3, _))).
    rewrite (bind_ok _ _ _ _ _ (removes_output_ops_run E g3 _ v true Hv Hb)).
    reflexivity.
  - destruct (apply_pass E EachSubGraph RemoveOutputOps b3) as [b4|e] eqn:H4.
    + rewrite (bind_ok _ _ _ _ _ (run_pass_ok E _ _ g3 _ b4 H4)).
      rewrite (bind_ok _ _ _ _ _ (removes_output_ops_run E (with_body g3 b4) _ v false Hv Hb)).
      cbn [negb]. rewrite add_events_trace.
      destruct (apply_pass E GraphAndEachSubGraph RemoveOutputOps b4) as [b5|e] eqn:H5.
      * rewrite (run_pass_ok E _ _ (with_body g3 b4) _ b5 H5). rewrite add_events_trace.
        reflexivity.
      * rewrite (run_pass_raise E _ _ (with_body g3 b4) _ e H5). rewrite add_events_trace.
        reflexivity.
    + rewrite (bind_raise _ _ _ _ _ (run_pass_raise E _ _ g3 _ e H4)). rewrite add_events_trace.
      reflexivity.
Qed.

Lemma preserves_success_banner E : preserves output_removals (success_banner E).
Proof. unfold success_banner. preserves_tac. Qed.

Lemma preserves_write_ir E g : preserves output_removals (write_ir E g).
Proof.
  unfold write_ir, cmd_param. preserves_tac.
  match goal with
  | |- preserves _ (fun s => let '(r, f') := prepare_emit_ir E ?g ?l (fs s) in _) =>
      apply (preserves_fs_call output_removals (fun x => prepare_emit_ir E g l x))
  end.
  reflexivity.
Qed.

(** What [emit_ir] does once the graph is final removes no output
    operations. *)
Lemma emit_ir_after_finalize E g (s : St E) g' s1 r s' :
  finalize_graph E g s = (Ok g', s1) ->
  emit_ir E g s = (r, s') ->
  output_removals s' = output_removals s1.
Proof.
  intros Hf He. unfold emit_ir in He. rewrite (bind_ok _ _ _ _ _ Hf) in He.
  revert He. generalize s1 r s'.
  change (preserves output_removals
            (write_ir E g' ;;;
             c <- notM (andM (v <- getattr E "framework" ;; ret (is_str "tf" v))
                             (attr_true E "tensorflow_custom_operations_config_update")) ;;
             when c (success_banner E) ;;; ret 0)).
  apply preserves_bind; [apply preserves_write_ir | intro].
  apply preserves_bind; [preserves_tac | intro].
  apply preserves_bind; [| intro; apply preserves_ret].
  destruct a0; [apply preserves_success_banner | apply preserves_ret].
Qed.

Lemma output_removals_add_events {E} (s : St E) evs :
  output_removals (add_events s evs) = (output_removals s ++ List.filter is_output_removal evs)%list.
Proof. unfold output_removals, add_events. simpl. apply List.filter_app. Qed.

(** C2.  In [emit_ir], with the three constant passes returning:
    when [generate_experimental_IR_V10] is set, no [RemoveOutputOps] is
    applied and the graph is the one the constant passes left; when it is
    not set, [RemoveOutputOps] is applied twice, first through
    [for_each_sub_graph_recursively] and then through
    [for_graph_and_each_sub_graph_recursively], the second on the result
    of the first, and the graph that goes on is the result of both. *)
Theorem emit_ir_output_ops E (g : Graph (GraphBody E)) (s : St E) v b b1 b2 b3 r s' :
  cmd_params g !! "generate_experimental_IR_V10" = Some v ->
  py_bool v = Ok b ->
  apply_pass E OnGraph NormalizeTI (body g) = Ok b1 ->
  apply_pass E GraphAndEachSubGraph RemoveConstOps b1 = Ok b2 ->
  apply_pass E GraphAndEachSubGraph CreateConstNodesReplacement b2 = Ok b3 ->
  emit_ir E g s = (r, s') ->
  (b = true ->
     finalize_graph E g s = (Ok (with_body g b3), add_events s constant_passes)
     /\ output_removals s' = output_removals s)
  /\ (b = false ->
      forall b4 b5,
        apply_pass E EachSubGraph RemoveOutputOps b3 = Ok b4 ->
        apply_pass E GraphAndEachSubGraph RemoveOutputOps b4 = Ok b5 ->
        finalize_graph E g s =
          (Ok (with_body g b5),
           add_events s (constant_passes ++ [EvPass EachSubGraph RemoveOutputOps;
                                             EvPass GraphAndEachSubGraph RemoveOutputOps]))
        /\ output_removals s' =
           (output_removals s ++ [EvPass EachSubGraph RemoveOutputOps;
                                  EvPass GraphAndEachSubGraph RemoveOutputOps])%list).
Proof.
  intros Hv Hb H1 H2 H3 He.
  pose proof (finalize_graph_run E g s v b b1 b2 b3 Hv Hb H1 H2 H3) as Hf.
  split.
  - intros ->. split; [exact Hf|].
    rewrite (emit_ir_after_finalize E g s _ _ r s' Hf He), output_removals_add_events.
    simpl. apply app_nil_r.
  - intros -> b4 b5 H4 H5. rewrite H4, H5 in Hf. split; [exact Hf|].
    rewrite (emit_ir_after_finalize E g s _ _ r s' Hf He), output_removals_add_events.
    reflexivity.
Qed.

Lemma emit_ir_output_ops_witness :
  (false = true ->
     finalize_graph tf_env emit_graph emit_state
     = (Ok (with_body emit_graph
              [(OnGraph, NormalizeTI); (GraphAndEachSubGraph, RemoveConstOps);
               (GraphAndEachSubGraph, CreateConstNodesReplacement)]),
        add_events emit_state constant_passes)
     /\ output_removals (snd (emit_ir tf_env emit_graph emit_state)) = output_removals emit_state)
  /\ (false = false ->
      forall b4 b5,
        apply_pass tf_env EachSubGraph RemoveOutputOps
          [(OnGraph, NormalizeTI); (GraphAndEachSubGraph, RemoveConstOps);
           (GraphAndEachSubGraph, CreateConstNodesReplacement)] = Ok b4 ->
        apply_pass tf_env GraphAndEachSubGraph RemoveOutputOps b4 = Ok b5 ->
        finalize_graph tf_env emit_graph emit_state =
          (Ok (with_body emit_graph b5),
           add_events emit_state
             (constant_passes ++ [EvPass EachSubGraph RemoveOutputOps;
                                  EvPass GraphAndEachSubGraph RemoveOutputOps]))
        /\ output_removals (snd (emit_ir tf_env emit_graph emit_state)) =
           (output_removals emit_state ++ [EvPass EachSubGraph RemoveOutputOps;
                                           EvPass GraphAndEachSubGraph RemoveOutputOps])%list).
Proof.
  apply (emit_ir_output_ops tf_env emit_graph emit_state (PBool false) false
           [(OnGraph, NormalizeTI)]
           [(OnGraph, NormalizeTI); (GraphAndEachSubGraph, RemoveConstOps)]
           [(OnGraph, NormalizeTI); (GraphAndEachSubGraph, RemoveConstOps);
            (GraphAndEachSubGraph, CreateConstNodesReplacement)]
           (fst (emit_ir tf_env emit_graph emit_state))
           (snd (emit_ir tf_env emit_graph emit_state))).
  - vm_compute. reflexivity.
  - reflexivity.
  - reflexivity.
  - reflexivity.
  - reflexivity.
  - apply run_eq; reflexivity.
Defined.

Example emit_ir_sample_run :
  fst (emit_ir tf_env emit_graph emit_state) = Ok 0
  /\ output_removals (snd (emit_ir tf_env emit_graph emit_state))
     = [EvPass EachSubGraph RemoveOutputOps; EvPass GraphAndEachSubGraph RemoveOutputOps].
Proof. split; vm_compute; reflexivity. Qed.

(** ** Kaldi *)






Example kaldi_sample_run :
  argv kaldi_run !! "generate_experimental_IR_V10" = Some (PBool true)
  /\ returns (fst (prepare_ir kaldi_env kaldi_run)) = true
  /\ attr "generate_experimental_IR_V10" (snd (prepare_ir kaldi_env kaldi_run)) = Some (PBool false).
Proof. split; [|split]; vm_compute; reflexivity. Qed.

(** The same command line through [driver]: the graph is written after
    both removals. *)
Example kaldi_driver_run :
  fst (driver kaldi_env kaldi_run) = Ok 0
  /\ output_removals (snd (driver kaldi_env kaldi_run))
     = [EvPass EachSubGraph RemoveOutputOps; EvPass GraphAndEachSubGraph RemoveOutputOps].
Proof. split; vm_compute; reflexivity. Qed.

(** ** The output model name *)

Lemma after_until_model_name E fl (s1 s2 : St E) :
  until_model_name E fl s1 = (Ok tt, s2) ->
  prepare_ir_from E fl s1 =
    (derive_model_name E fl ;;; infer_input_proto E fl ;;; print_arguments E fl ;;;
     check_environment E fl ;;; check_mean_options E fl ;;; check_scale_options E ;;;
     normalize_model_options E fl ;;; resolve_placeholders E ;;; resolve_output_dir E ;;;
     load_extensions E fl ;;; run_pipeline E) s2.
Proof.
  intros H. unfold until_model_name in H.
  apply bind_ok_inv in H as ([] & ? & H1 & H).
  unfold prepare_ir_from.
  rewrite (bind_ok _ _ _ _ _ H1), (bind_ok _ _ _ _ _ H). reflexivity.
Qed.

(** The name [derive_model_name] chooses, read off the [if]/[elif] chain. *)
Lemma derive_model_name_run E fl (s : St E) name :
  unset s "model_name" ->
  (c <- attr_true E "input_model" ;;
   if c then model_name_of E "input_model" else
   c <- andM (ret (is_tf fl)) (attr_true E "saved_model_dir") ;;
   if c then ret (PStr "saved_model") else
   c <- andM (ret (is_tf fl)) (attr_true E "input_meta_graph") ;;
   if c then model_name_of E "input_meta_graph" else
   c <- andM (ret (is_mxnet fl)) (attr_true E "input_symbol") ;;
   if c then model_name_of E "input_symbol" else
   ret (PStr "<UNKNOWN_NAME>")) s = (Ok name, s) ->
  derive_model_name E fl s =
    (Ok tt,
     after_event (mkSt (<["model_name" := name]> (argv s)) (fs s) (trace s))
       (EvLog LDebug (MsgText ("Output model name would be " +:+ py_str E name +:+ "{.xml, .bin}")) None)).
Proof.
  intros Hm Hn. unfold derive_model_name.
  erewrite (bind_ok _ _ s name s); [reflexivity|].
  rewrite (bind_ok _ _ _ _ _ (attr_true_unset E s "model_name" Hm)). exact Hn.
Qed.

Lemma model_name_of_run E (s : St E) key v name :
  argv s !! key = Some v -> get_model_name E v = Ok name ->
  model_name_of E key s = (Ok name, s).
Proof.
  intros Hv Hn. cbv [model_name_of getattr bind lift]. now rewrite Hv, Hn.
Qed.

Lemma and_flag_run E (s : St E) (b : bool) key c :
  attr_true E key s = (Ok c, s) -> andM (ret b) (attr_true E key) s = (Ok (b && c), s).
Proof.
  intros H. unfold andM. rewrite (bind_ok _ _ _ _ _ (eq_refl : ret b s = (Ok b, s))).
  destruct b; [exact H | reflexivity].
Qed.

(** C7, as amended.  With no [model_name] given, once the required-input
    check has passed, [prepare_ir] stores in [model_name]:
    [get_model_name(input_model)] when [input_model] is set; otherwise,
    under the TensorFlow flag, the fixed name [saved_model] when
    [saved_model_dir] is set, whatever the directory is called, and
    [get_model_name(input_meta_graph)] when [input_meta_graph] is set;
    otherwise, under the MXNet flag, [get_model_name(input_symbol)] when
    [input_symbol] is set; and [<UNKNOWN_NAME>] when none of these is.  The
    name is in the namespace [prepare_ir] leaves, returning or raising. *)
Theorem derived_model_name E (s s1 s2 : St E) fl :
  detect_framework E s = (Ok fl, s1) ->
  until_model_name E fl s1 = (Ok tt, s2) ->
  unset s2 "model_name" ->
  forall name,
    ((exists v, is_set s2 "input_model" /\ argv s2 !! "input_model" = Some v
                /\ get_model_name E v = Ok name)
     \/ (unset s2 "input_model" /\ is_tf fl = true /\ is_set s2 "saved_model_dir"
         /\ name = PStr "saved_model")
     \/ (exists v, unset s2 "input_model" /\ is_tf fl = true /\ unset s2 "saved_model_dir"
                   /\ is_set s2 "input_meta_graph" /\ argv s2 !! "input_meta_graph" = Some v
                   /\ get_model_name E v = Ok name)
     \/ (exists v, unset s2 "input_model" /\ is_tf fl = false /\ is_mxnet fl = true
                   /\ is_set s2 "input_symbol" /\ argv s2 !! "input_symbol" = Some v
                   /\ get_model_name E v = Ok name)
     \/ (unset s2 "input_model" /\ is_tf fl = false /\ is_mxnet fl = true
         /\ unset s2 "input_symbol" /\ name = PStr "<UNKNOWN_NAME>")
     \/ (unset s2 "input_model" /\ is_tf fl = true /\ unset s2 "saved_model_dir"
         /\ unset s2 "input_meta_graph" /\ is_mxnet fl = false /\ name = PStr "<UNKNOWN_NAME>")
     \/ (unset s2 "input_model" /\ is_tf fl = false /\ is_mxnet fl = false
         /\ name = PStr "<UNKNOWN_NAME>")) ->
    attr "model_name" (snd (derive_model_name E fl s2)) = Some name
    /\ forall r s', prepare_ir E s = (r, s') -> attr "model_name" s' = Some name.
Proof.
  intros Hd Hu Hm name Hcase.
  assert (Hrun : derive_model_name E fl s2 =
    (Ok tt,
     after_event (mkSt (<["model_name" := name]> (argv s2)) (fs s2) (trace s2))
       (EvLog LDebug (MsgText ("Output model name would be " +:+ py_str E name +:+ "{.xml, .bin}")) None))).
  { apply derive_model_name_run; [exact Hm|].
    destruct Hcase as [(v & Hi & Hv & Hn) | [(Hi & Ht & Hs & ->) | [(v & Hi & Ht & Hs & Hg & Hv & Hn)
      | [(v & Hi & Ht & Hx & Hy & Hv & Hn) | [(Hi & Ht & Hx & Hy & ->)
      | [(Hi & Ht & Hs & Hg & Hx & ->) | (Hi & Ht & Hx & ->)]]]]]].
    - rewrite (bind_ok _ _ _ _ _ (attr_true_set E s2 _ Hi)).
      exact (model_name_of_run E s2 _ v name Hv Hn).
    - rewrite (bind_ok _ _ _ _ _ (attr_true_unset E s2 _ Hi)). rewrite Ht.
      rewrite (bind_ok _ _ _ _ _ (and_flag_run E s2 true _ _ (attr_true_set E s2 _ Hs))).
      reflexivity.
    - rewrite (bind_ok _ _ _ _ _ (attr_true_unset E s2 _ Hi)). rewrite Ht.
      rewrite (bind_ok _ _ _ _ _ (and_flag_run E s2 true _ _ (attr_true_unset E s2 _ Hs))).
      cbn [andb].
      rewrite (bind_ok _ _ _ _ _ (and_flag_run E s2 true _ _ (attr_true_set E s2 _ Hg))).
      cbn [andb].
      exact (model_name_of_run E s2 _ v name Hv Hn).
    - rewrite (bind_ok _ _ _ _ _ (attr_true_unset E s2 _ Hi)). rewrite Ht, Hx.
      rewrite (bind_ok _ _ _ _ _ (eq_refl : andM (ret false) (attr_true E "saved_model_dir") s2 = (Ok false, s2))).
      rewrite (bind_ok _ _ _ _ _ (eq_refl : andM (ret false) (attr_true E "input_meta_graph") s2 = (Ok false, s2))).
      rewrite (bind_ok _ _ _ _ _ (and_flag_run E s2 true _ _ (attr_true_set E s2 _ Hy))).
      cbn [andb].
      exact (model_name_of_run E s2 _ v name Hv Hn).
    - rewrite (bind_ok _ _ _ _ _ (attr_true_unset E s2 _ Hi)). rewrite Ht, Hx.
      rewrite (bind_ok _ _ _ _ _ (eq_refl : andM (ret false) (attr_true E "saved_model_dir") s2 = (Ok false, s2))).
      rewrite (bind_ok _ _ _ _ _ (eq_refl : andM (ret false) (attr_true E "input_meta_graph") s2 = (Ok false, s2))).
      rewrite (bind_ok _ _ _ _ _ (and_flag_run E s2 true _ _ (attr_true_unset E s2 _ Hy))).
      reflexivity.
    - rewrite (bind_ok _ _ _ _ _ (attr_true_unset E s2 _ Hi)). rewrite Ht, Hx.
      rewrite (bind_ok _ _ _ _ _ (and_flag_run E s2 true _ _ (attr_true_unset E s2 _ Hs))).
      cbn [andb].
      rewrite (bind_ok _ _ _ _ _ (and_flag_run E s2 true _ _ (attr_true_unset E s2 _ Hg))).
      reflexivity.
    - rewrite (bind_ok _ _ _ _ _ (attr_true_unset E s2 _ Hi)). rewrite Ht, Hx.
      reflexivity. }
  assert (Hattr : attr "model_name"
            (after_event (mkSt (<["model_name" := name]> (argv s2)) (fs s2) (trace s2))
               (EvLog LDebug (MsgText ("Output model name would be " +:+ py_str E name +:+ "{.xml, .bin}")) None))
          = Some name).
  { unfold attr. simpl. apply lookup_insert_eq. }
  split; [rewrite Hrun; exact Hattr|].
  intros r s' Hp. unfold prepare_ir in Hp. rewrite (bind_ok _ _ _ _ _ Hd) in Hp.
  rewrite (after_until_model_name E fl s1 s2 Hu) in Hp.
  rewrite (bind_ok _ _ _ _ _ Hrun) in Hp.
  rewrite <- Hattr. revert Hp.
  generalize (after_event (mkSt (<["model_name" := name]> (argv s2)) (fs s2) (trace s2))
               (EvLog LDebug (MsgText ("Output model name would be " +:+ py_str E name +:+ "{.xml, .bin}")) None)) r s'.
  match goal with
  | |- forall s r s', ?m s = (r, s') -> _ => change (preserves (attr "model_name") m)
  end.
  keeps_blocks.
Qed.

Lemma derived_model_name_witness :
  attr "model_name" (snd (derive_model_name tf_env tf_only saved_model_reached))
  = Some (PStr "saved_model")
  /\ forall r s', prepare_ir tf_env saved_model_run = (r, s') ->
       attr "model_name" s' = Some (PStr "saved_model").
Proof.
  apply (derived_model_name tf_env saved_model_run saved_model_run saved_model_reached tf_only).
  - apply run_eq; reflexivity.
  - apply run_eq; [vm_compute; reflexivity | reflexivity].
  - exists PNone. split; vm_compute; reflexivity.
  - right. left. split; [|split; [|split]].
    + exists PNone. split; vm_compute; reflexivity.
    + reflexivity.
    + exists (PStr "/models/resnet50"). split; vm_compute; reflexivity.
    + reflexivity.
Defined.

(** C7, as stated, fails: for a saved model directory the name does not
    come from the path.  The directory is [/models/resnet50], whose
    basename without extension is [resnet50]; the name is [saved_model]. *)
Lemma saved_model_name_is_fixed :
  basename_without_extension "/models/resnet50" = "resnet50"
  /\ returns (fst (prepare_ir tf_env saved_model_run)) = true
  /\ attr "model_name" (snd (prepare_ir tf_env saved_model_run)) = Some (PStr "saved_model").
Proof. split; [reflexivity|]. split; vm_compute; reflexivity. Qed.

(** ** The prototxt next to the caffemodel *)

Lemma str_take_drop n s : str_take n s +:+ str_drop n s = s.
Proof.
  revert s. induction n as [|n IH]; intros [|c s]; try reflexivity.
  cbn [str_take str_drop]. change (String c (str_take n s) +:+ str_drop n s)
    with (String c (str_take n s +:+ str_drop n s)).
  f_equal. apply IH.
Qed.

Lemma append_empty_r s : s +:+ "" = s.
Proof.
  induction s as [|c s IH]; [reflexivity|].
  change (String c s +:+ "") with (String c (s +:+ "")). f_equal. exact IH.
Qed.

Lemma splitext_concat p : (splitext p).1 +:+ (splitext p).2 = p.
Proof.
  unfold splitext.
  destruct (Z.ltb (rfind "/" p) (rfind "." p)); [|apply append_empty_r].
  destruct (existsb _ _); [apply str_take_drop | apply append_empty_r].
Qed.

Lemma length_append a b : String.length (a +:+ b) = (String.length a + String.length b)%nat.
Proof.
  induction a as [|c a IH]; [reflexivity|].
  change (String c a +:+ b) with (String c (a +:+ b)). cbn [String.length]. now rewrite IH.
Qed.

Lemma str_drop_append a b : str_drop (String.length a) (a +:+ b) = b.
Proof. induction a as [|c a IH]; [destruct b; reflexivity|]. exact IH. Qed.

Lemma endswith_append a b : endswith b (a +:+ b) = true.
Proof.
  unfold endswith. rewrite length_append.
  replace (String.length a + String.length b - String.length b)%nat with (String.length a) by lia.
  rewrite str_drop_append, String.eqb_refl.
  rewrite andb_true_r. apply Nat.leb_le. lia.
Qed.

(** [replace_ext] replaces the extension, and only that. *)
Lemma replace_ext_some name old new r :
  replace_ext name old new = Some r ->
  exists base, name = base +:+ old /\ r = base +:+ new.
Proof.
  unfold replace_ext. pose proof (splitext_concat name) as Hc.
  destruct (splitext name) as [base ext]. simpl in Hc.
  destruct (String.eqb ext old) eqn:He; [|discriminate].
  apply String.eqb_eq in He. subst ext. intros H. inversion H. eauto.
Qed.

Lemma replace_ext_none name old new :
  endswith old name = false -> replace_ext name old new = None.
Proof.
  intros He. destruct (replace_ext name old new) as [r|] eqn:Hr; [|reflexivity].
  apply replace_ext_some in Hr as (base & -> & _).
  rewrite endswith_append in He. discriminate He.
Qed.

Lemma after_until_input_proto E fl (s1 s2 : St E) :
  until_input_proto E fl s1 = (Ok tt, s2) ->
  prepare_ir_from E fl s1 =
    (infer_input_proto E fl ;;; print_arguments E fl ;;;
     check_environment E fl ;;; check_mean_options E fl ;;; check_scale_options E ;;;
     normalize_model_options E fl ;;; resolve_placeholders E ;;; resolve_output_dir E ;;;
     load_extensions E fl ;;; run_pipeline E) s2.
Proof.
  intros H. unfold until_input_proto in H.
  apply bind_ok_inv in H as ([] & ? & H1 & H).
  apply bind_ok_inv in H as ([] & ? & H2 & H).
  unfold prepare_ir_from.
  rewrite (bind_ok _ _ _ _ _ H1), (bind_ok _ _ _ _ _ H2), (bind_ok _ _ _ _ _ H). reflexivity.
Qed.

Lemma infer_input_proto_run E fl (s : St E) path :
  is_caffe fl = true -> unset s "input_proto" ->
  argv s !! "input_model" = Some (PStr path) ->
  infer_input_proto E fl s =
    match replace_ext path ".caffemodel" ".prototxt" with
    | Some proto =>
        (Ok tt, after_event (mkSt (<["input_proto" := PStr proto]> (argv s)) (fs s) (trace s))
                  (EvLog LInfo (MsgText ("Deduced name for prototxt: " +:+ py_str E (PStr proto))) None))
    | None =>
        (Raise (Error ("Cannot find prototxt file: for Caffe please specify --input_proto - a "
                       +:+ "protobuf file that stores topology and --input_model that stores "
                       +:+ "pretrained weights. " +:+ refer_to_faq_msg E 20) []),
         mkSt (<["input_proto" := PNone]> (argv s)) (fs s) (trace s))
    end.
Proof.
  intros Hc (v & Hv & Hb) Hm.
  cbv [infer_input_proto andM notM when attr_true getattr truth bind lift ret raise setattr
       modify as_path log emit].
  rewrite Hc, Hv, Hb. cbn [negb]. rewrite Hm. cbn [argv fs trace].
  destruct (replace_ext path ".caffemodel" ".prototxt") as [proto|] eqn:Hr.
  - apply replace_ext_some in Hr as (base & _ & ->).
    assert (Hne : String.eqb (base +:+ ".prototxt") "" = false).
    { destruct base; reflexivity. }
    cbn [argv fs trace]. rewrite lookup_insert_eq. cbn [py_bool]. rewrite Hne.
    cbn [negb argv fs trace]. rewrite lookup_insert_eq. reflexivity.
  - cbn [argv fs trace]. rewrite lookup_insert_eq. reflexivity.
Qed.

(** C4.  Under the Caffe flag, when [prepare_ir] reaches line 139 with no
    [input_proto] and a string as [input_model]: a proto that
    [replace_ext] finds is the model path with [.prototxt] in the place of
    [.caffemodel], it is stored in [input_proto], and it is there in the
    namespace [prepare_ir] leaves; for a model path that does not end in
    [.caffemodel], [prepare_ir] raises the [Error] about the prototxt.
    [model.caffemodel] gives [model.prototxt]. *)
Theorem caffe_input_proto E (s s1 s2 : St E) fl path :
  detect_framework E s = (Ok fl, s1) ->
  until_input_proto E fl s1 = (Ok tt, s2) ->
  is_caffe fl = true ->
  unset s2 "input_proto" ->
  argv s2 !! "input_model" = Some (PStr path) ->
  (forall proto,
     replace_ext path ".caffemodel" ".prototxt" = Some proto ->
     (exists base, path = base +:+ ".caffemodel" /\ proto = base +:+ ".prototxt")
     /\ fst (infer_input_proto E fl s2) = Ok tt
     /\ attr "input_proto" (snd (infer_input_proto E fl s2)) = Some (PStr proto)
     /\ forall r s', prepare_ir E s = (r, s') -> attr "input_proto" s' = Some (PStr proto))
  /\ (endswith ".caffemodel" path = false ->
      exists msg,
        prepare_ir E s =
          (Raise (Error msg []), mkSt (<["input_proto" := PNone]> (argv s2)) (fs s2) (trace s2))
        /\ contains "Cannot find prototxt file" msg = true
        /\ contains "--input_proto" msg = true)
  /\ replace_ext "model.caffemodel" ".caffemodel" ".prototxt" = Some "model.prototxt".
Proof.
  intros Hd Hu Hc Hp Hm.
  pose proof (infer_input_proto_run E fl s2 path Hc Hp Hm) as Hrun.
  assert (Hpre : prepare_ir E s =
    (infer_input_proto E fl ;;; print_arguments E fl ;;;
     check_environment E fl ;;; check_mean_options E fl ;;; check_scale_options E ;;;
     normalize_model_options E fl ;;; resolve_placeholders E ;;; resolve_output_dir E ;;;
     load_extensions E fl ;;; run_pipeline E) s2).
  { unfold prepare_ir. rewrite (bind_ok _ _ _ _ _ Hd). exact (after_until_input_proto E fl s1 s2 Hu). }
  split; [|split; [|reflexivity]].
  - intros proto Hr. rewrite Hr in Hrun.
    split; [exact (replace_ext_some _ _ _ _ Hr)|].
    rewrite Hrun. split; [reflexivity|].
    assert (Hattr : attr "input_proto"
              (after_event (mkSt (<["input_proto" := PStr proto]> (argv s2)) (fs s2) (trace s2))
                 (EvLog LInfo (MsgText ("Deduced name for prototxt: " +:+ py_str E (PStr proto))) None))
            = Some (PStr proto)).
    { unfold attr. simpl. apply lookup_insert_eq. }
    split; [exact Hattr|].
    intros r s' Hr'. rewrite Hpre in Hr'. rewrite (bind_ok _ _ _ _ _ Hrun) in Hr'.
    rewrite <- Hattr. revert Hr'.
    generalize (after_event (mkSt (<["input_proto" := PStr proto]> (argv s2)) (fs s2) (trace s2))
                 (EvLog LInfo (MsgText ("Deduced name for prototxt: " +:+ py_str E (PStr proto))) None)) r s'.
    match goal with
    | |- forall s r s', ?m s = (r, s') -> _ => change (preserves (attr "input_proto") m)
    end.
    keeps_blocks.
  - intros He. rewrite (replace_ext_none _ _ _ He) in Hrun.
    eexists. split; [rewrite Hpre; apply bind_raise; exact Hrun | split; reflexivity].
Qed.

Lemma caffe_input_proto_witness :
  (forall proto,
     replace_ext "model.caffemodel" ".caffemodel" ".prototxt" = Some proto ->
     (exists base, "model.caffemodel" = base +:+ ".caffemodel" /\ proto = base +:+ ".prototxt")
     /\ fst (infer_input_proto caffe_env caffe_only caffemodel_reached) = Ok tt
     /\ attr "input_proto" (snd (infer_input_proto caffe_env caffe_only caffemodel_reached))
        = Some (PStr proto)
     /\ forall r s', prepare_ir caffe_env caffemodel_run = (r, s') ->
          attr "input_proto" s' = Some (PStr proto))
  /\ (endswith ".caffemodel" "model.caffemodel" = false ->
      exists msg,
        prepare_ir caffe_env caffemodel_run =
          (Raise (Error msg []),
           mkSt (<["input_proto" := PNone]> (argv caffemodel_reached)) (fs caffemodel_reached)
             (trace caffemodel_reached))
        /\ contains "Cannot find prototxt file" msg = true
        /\ contains "--input_proto" msg = true)
  /\ replace_ext "model.caffemodel" ".caffemodel" ".prototxt" = Some "model.prototxt".
Proof.
  apply (caffe_input_proto caffe_env caffemodel_run caffemodel_run caffemodel_reached caffe_only
           "model.caffemodel").
  - apply run_eq; reflexivity.
  - apply run_eq; [vm_compute; reflexivity | reflexivity].
  - reflexivity.
  - exists PNone. split; vm_compute; reflexivity.
  - vm_compute. reflexivity.
Defined.

Example caffe_weights_without_prototxt :
  endswith ".caffemodel" "weights.bin" = false
  /\ raises_Error (fst (prepare_ir caffe_env caffe_weights_run)) = true
  /\ attr "input_proto" (snd (prepare_ir caffe_env caffe_weights_run)) = Some PNone.
Proof. split; [reflexivity|]. split; vm_compute; reflexivity. Qed.

(** ** The checks on the mean options *)

Lemma after_until_mean_options E fl (s1 s2 : St E) :
  until_mean_options E fl s1 = (Ok tt, s2) ->
  prepare_ir_from E fl s1 =
    (check_mean_options E fl ;;; check_scale_options E ;;; normalize_model_options E fl ;;;
     resolve_placeholders E ;;; resolve_output_dir E ;;; load_extensions E fl ;;;
     run_pipeline E) s2.
Proof.
  intros H. unfold until_mean_options in H.
  apply bind_ok_inv in H as ([] & ? & H1 & H).
  apply bind_ok_inv in H as ([] & ? & H2 & H).
  apply bind_ok_inv in H as ([] & ? & H3 & H).
  apply bind_ok_inv in H as ([] & ? & H4 & H).
  apply bind_ok_inv in H as ([] & ? & H5 & H).
  unfold prepare_ir_from.
  rewrite (bind_ok _ _ _ _ _ H1), (bind_ok _ _ _ _ _ H2), (bind_ok _ _ _ _ _ H3),
    (bind_ok _ _ _ _ _ H4), (bind_ok _ _ _ _ _ H5), (bind_ok _ _ _ _ _ H).
  reflexivity.
Qed.

Lemma check_mean_options_both E fl (s : St E) :
  is_caffe fl = true -> is_set s "mean_file" -> is_set s "mean_values" ->
  check_mean_options E fl s =
    (Raise (Error ("Both --mean_file and mean_values are specified. Specify either mean file or mean values. "
                   +:+ refer_to_faq_msg E 17) []), s).
Proof.
  intros Hc (a & Ha & Ha') (b & Hb & Hb').
  cbv [check_mean_options andM attr_true getattr truth bind lift ret raise].
  rewrite Hc, Ha, Ha', Hb, Hb'. reflexivity.
Qed.

(** C9.  Under the Caffe flag, with both [mean_file] and [mean_values]
    set, the check of the mean options raises the [Error] whose message
    cites [--mean_file] and [mean_values], in whatever state; and when
    [prepare_ir] reaches the check, that is what [prepare_ir] raises. *)
Theorem caffe_mean_file_and_mean_values E (s2 : St E) fl :
  is_caffe fl = true ->
  is_set s2 "mean_file" -> is_set s2 "mean_values" ->
  exists msg,
    check_mean_options E fl s2 = (Raise (Error msg []), s2)
    /\ contains "--mean_file" msg = true
    /\ contains "mean_values" msg = true
    /\ forall s s1,
         detect_framework E s = (Ok fl, s1) ->
         until_mean_options E fl s1 = (Ok tt, s2) ->
         prepare_ir E s = (Raise (Error msg []), s2).
Proof.
  intros Hc Hf Hv.
  pose proof (check_mean_options_both E fl s2 Hc Hf Hv) as Hm.
  eexists. split; [exact Hm|]. split; [reflexivity|]. split; [reflexivity|].
  intros s s1 Hd Hu.
  unfold prepare_ir. rewrite (bind_ok _ _ _ _ _ Hd).
  rewrite (after_until_mean_options E fl s1 s2 Hu).
  apply bind_raise. exact Hm.
Qed.

Lemma caffe_mean_file_and_mean_values_witness :
  exists msg,
    check_mean_options caffe_env caffe_only both_means_reached
    = (Raise (Error msg []), both_means_reached)
    /\ contains "--mean_file" msg = true
    /\ contains "mean_values" msg = true
    /\ forall s s1,
         detect_framework caffe_env s = (Ok caffe_only, s1) ->
         until_mean_options caffe_env caffe_only s1 = (Ok tt, both_means_reached) ->
         prepare_ir caffe_env s = (Raise (Error msg []), both_means_reached).
Proof.
  apply (caffe_mean_file_and_mean_values caffe_env both_means_reached caffe_only).
  - reflexivity.
  - exists (PStr "mean.binaryproto"). split; vm_compute; reflexivity.
  - exists (PStr "(1,2,3)"). split; vm_compute; reflexivity.
Defined.

Example caffe_both_means_run :
  raises_Error (fst (prepare_ir caffe_env both_means)) = true
  /\ fst (until_mean_options caffe_env caffe_only both_means) = Ok tt.
Proof. split; vm_compute; reflexivity. Qed.

Lemma forallb_nonnegative (l : list Z) :
  forallb (fun offset => Z.leb 0 offset) l = true <-> (forall z, In z l -> 0 <= z).
Proof.
  rewrite forallb_forall. split; intros H z Hz.
  - apply Z.leb_le. exact (H z Hz).
  - apply Z.leb_le. exact (H z Hz).
Qed.

Lemma check_mean_options_offsets E fl (s : St E) raw first more offsets :
  is_caffe fl = true -> is_set s "mean_file" -> unset s "mean_values" ->
  argv s !! "mean_file_offsets" = Some raw -> py_bool raw = Ok true ->
  get_tuple_values E raw 2 = Ok (first :: more) ->
  map_result py_int (split "," first) = Ok offsets ->
  check_mean_options E fl s =
    if forallb (fun offset => Z.leb 0 offset) offsets
    then (Ok tt, mkSt (<["mean_file_offsets" := PArray offsets]> (argv s)) (fs s) (trace s))
    else (Raise (Error ("Negative value specified for --mean_file_offsets option. "
                        +:+ "Please specify positive integer values in format '(x,y)'. "
                        +:+ refer_to_faq_msg E 18) []), s).
Proof.
  intros Hc (a & Ha & Ha') (b & Hb & Hb') Hraw Hraw' Ht Hi.
  cbv [check_mean_options andM when attr_true getattr truth bind lift ret raise setattr modify].
  rewrite Hc, Ha, Ha', Hb, Hb'. rewrite Ha, Ha', Hraw, Hraw'. cbv iota beta.
  rewrite Hraw, Ht. cbv iota beta. rewrite Hi.
  destruct (forallb (fun offset => Z.leb 0 offset) offsets); reflexivity.
Qed.

(** C6, as amended.  Under the Caffe flag, with [mean_file] set,
    [mean_values] unset and [mean_file_offsets] set, the offsets being the
    integers of the first tuple [get_tuple_values] returns: when one of them
    is negative, the check and with it [prepare_ir] raise the [Error] that
    names [--mean_file_offsets] and the format ['(x,y)']; when none is,
    the check stores the array of the integers in [mean_file_offsets], and
    it is there in the namespace [prepare_ir] leaves. *)
Theorem caffe_mean_file_offsets E (s s1 s2 : St E) fl raw first more offsets :
  detect_framework E s = (Ok fl, s1) ->
  until_mean_options E fl s1 = (Ok tt, s2) ->
  is_caffe fl = true ->
  is_set s2 "mean_file" -> unset s2 "mean_values" ->
  argv s2 !! "mean_file_offsets" = Some raw -> py_bool raw = Ok true ->
  get_tuple_values E raw 2 = Ok (first :: more) ->
  map_result py_int (split "," first) = Ok offsets ->
  ((exists z, In z offsets /\ z < 0) ->
     exists msg,
       check_mean_options E fl s2 = (Raise (Error msg []), s2)
       /\ prepare_ir E s = (Raise (Error msg []), s2)
       /\ contains "--mean_file_offsets" msg = true
       /\ contains "'(x,y)'" msg = true)
  /\ ((forall z, In z offsets -> 0 <= z) ->
     check_mean_options E fl s2 =
       (Ok tt, mkSt (<["mean_file_offsets" := PArray offsets]> (argv s2)) (fs s2) (trace s2))
     /\ forall r s', prepare_ir E s = (r, s') ->
          attr "mean_file_offsets" s' = Some (PArray offsets)).
Proof.
  intros Hd Hu Hc Hf Hv Hraw Hraw' Ht Hi.
  pose proof (check_mean_options_offsets E fl s2 raw first more offsets Hc Hf Hv Hraw Hraw' Ht Hi) as Hm.
  assert (Hp : prepare_ir E s =
               (check_mean_options E fl ;;; check_scale_options E ;;; normalize_model_options E fl ;;;
                resolve_placeholders E ;;; resolve_output_dir E ;;; load_extensions E fl ;;;
                run_pipeline E) s2).
  { unfold prepare_ir. rewrite (bind_ok _ _ _ _ _ Hd). exact (after_until_mean_options E fl s1 s2 Hu). }
  split.
  - intros (z & Hz & Hneg).
    destruct (forallb (fun offset => Z.leb 0 offset) offsets) eqn:Hall.
    + pose proof (proj1 (forallb_nonnegative offsets) Hall z Hz). lia.
    + eexists. split; [exact Hm|]. split; [|split; reflexivity].
      rewrite Hp. apply bind_raise. exact Hm.
  - intros Hall. rewrite (proj2 (forallb_nonnegative offsets) Hall) in Hm.
    split; [exact Hm|]. intros r s' Hr. rewrite Hp in Hr.
    rewrite (bind_ok _ _ _ _ _ Hm) in Hr.
    transitivity (attr "mean_file_offsets"
                    (mkSt (<["mean_file_offsets" := PArray offsets]> (argv s2)) (fs s2) (trace s2))).
    + revert Hr. generalize (mkSt (<["mean_file_offsets" := PArray offsets]> (argv s2)) (fs s2) (trace s2)) r s'.
      match goal with
      | |- forall s r s', ?m s = (r, s') -> _ => change (preserves (attr "mean_file_offsets") m)
      end.
      keeps_blocks.
    + unfold attr. simpl. apply lookup_insert_eq.
Qed.

Lemma caffe_mean_file_offsets_witness :
  ((exists z, In z [1; 2] /\ z < 0) ->
     exists msg,
       check_mean_options caffe_env caffe_only with_offsets_reached
       = (Raise (Error msg []), with_offsets_reached)
       /\ prepare_ir caffe_env with_offsets = (Raise (Error msg []), with_offsets_reached)
       /\ contains "--mean_file_offsets" msg = true
       /\ contains "'(x,y)'" msg = true)
  /\ ((forall z, In z [1; 2] -> 0 <= z) ->
     check_mean_options caffe_env caffe_only with_offsets_reached =
       (Ok tt, mkSt (<["mean_file_offsets" := PArray [1; 2]]> (argv with_offsets_reached))
                 (fs with_offsets_reached) (trace with_offsets_reached))
     /\ forall r s', prepare_ir caffe_env with_offsets = (r, s') ->
          attr "mean_file_offsets" s' = Some (PArray [1; 2])).
Proof.
  apply (caffe_mean_file_offsets caffe_env with_offsets with_offsets with_offsets_reached
           caffe_only (PStr "(1,2)") "1,2" []).
  - apply run_eq; reflexivity.
  - apply run_eq; [vm_compute; reflexivity | reflexivity].
  - reflexivity.
  - exists (PStr "mean.binaryproto"). split; vm_compute; reflexivity.
  - exists PNone. split; vm_compute; reflexivity.
  - vm_compute. reflexivity.
  - reflexivity.
  - reflexivity.
  - reflexivity.
Defined.

(** C6, as stated, fails: without a mean file the offsets are not looked
    at.  Here [--mean_file_offsets (1,-2)] goes through [prepare_ir] as it
    is: no error, no array. *)
Lemma caffe_negative_offsets_without_mean_file :
  map_result py_int (split "," "1,-2") = Ok [1; -2]
  /\ returns (fst (prepare_ir caffe_env (caffe_run [("mean_file_offsets", PStr "(1,-2)")]))) = true
  /\ attr "mean_file_offsets"
       (snd (prepare_ir caffe_env (caffe_run [("mean_file_offsets", PStr "(1,-2)")])))
     = Some (PStr "(1,-2)").
Proof. split; [reflexivity|]. split; vm_compute; reflexivity. Qed.

(** ** The output directory *)

Lemma makedirs_calls_after_event {E} (s : St E) ev :
  is_makedirs ev = false -> makedirs_calls (after_event s ev) = makedirs_calls s.
Proof.
  intros H. unfold makedirs_calls, after_event. simpl.
  rewrite List.filter_app. simpl. rewrite H. apply app_nil_r.
Qed.

(** C8.  Resolving the output directory when it exists and can be written
    does nothing to the file system, calls [os.makedirs] not once, and
    raises nothing, the first time and again; when it exists, [os.makedirs]
    is not called, whatever comes; when it does not exist, [os.makedirs] is
    called once, and its [PermissionError] becomes the [Error] about the
    directory. *)
Theorem resolve_output_dir_idempotent E (s : St E) dir shapes :
  argv s !! "output_dir" = Some (PStr dir) ->
  argv s !! "placeholder_shapes" = Some shapes ->
  (os_path_exists E (fs s) dir = true -> os_access_W_OK E (fs s) dir = true ->
     exists s1,
       resolve_output_dir E s = (Ok tt, s1)
       /\ fs s1 = fs s /\ argv s1 = argv s /\ makedirs_calls s1 = makedirs_calls s
       /\ exists s2,
            resolve_output_dir E s1 = (Ok tt, s2)
            /\ fs s2 = fs s /\ argv s2 = argv s /\ makedirs_calls s2 = makedirs_calls s)
  /\ (os_path_exists E (fs s) dir = true ->
      forall r s', resolve_output_dir E s = (r, s') ->
        fs s' = fs s /\ makedirs_calls s' = makedirs_calls s)
  /\ (os_path_exists E (fs s) dir = false ->
      forall r s', resolve_output_dir E s = (r, s') ->
        makedirs_calls s' = (makedirs_calls s ++ [EvMakedirs dir])%list)
  /\ (os_path_exists E (fs s) dir = false ->
      forall m f', os_makedirs E (fs s) dir = (Raise (PermissionError m), f') ->
        resolve_output_dir E s =
          (Raise (Error ("Failed to create directory {}. Permission denied! "
                         +:+ refer_to_faq_msg E 22) [PStr dir]),
           mkSt (argv s) f' (trace s ++ [EvMakedirs dir])%list)).
Proof.
  intros Hd Hp.
  assert (Hrun : forall s0 : St E, argv s0 = argv s -> fs s0 = fs s ->
            os_path_exists E (fs s) dir = true ->
            resolve_output_dir E s0 =
              if os_access_W_OK E (fs s) dir
              then (Ok tt, after_event s0 (EvLog LDebug (MsgText ("Placeholder shapes : " +:+ py_str E shapes)) None))
              else (Raise (Error ("Output directory {} is not writable for current user. "
                                  +:+ refer_to_faq_msg E 22) [PStr dir]), s0)).
  { intros s0 Ha Hf He.
    cbv [resolve_output_dir getattr bind lift as_path get_state raise ret log emit modify].
    rewrite Ha, Hd, Hf, He. cbn [negb].
    destruct (os_access_W_OK E (fs s) dir); cbn [negb]; [|reflexivity].
    rewrite Ha, Hp. reflexivity. }
  repeat apply conj.
  - intros He Hw.
    pose proof (Hrun s eq_refl eq_refl He) as H1. rewrite Hw in H1.
    eexists. split; [exact H1|].
    split; [reflexivity|]. split; [reflexivity|].
    split; [apply makedirs_calls_after_event; reflexivity|].
    pose proof (Hrun (after_event s (EvLog LDebug (MsgText ("Placeholder shapes : " +:+ py_str E shapes)) None))
                  eq_refl eq_refl He) as H2.
    rewrite Hw in H2.
    eexists. split; [exact H2|].
    split; [reflexivity|]. split; [reflexivity|].
    rewrite !makedirs_calls_after_event; reflexivity.
  - intros He r s' Hr. rewrite (Hrun s eq_refl eq_refl He) in Hr.
    destruct (os_access_W_OK E (fs s) dir); inversion Hr; subst.
    + split; [reflexivity|]. apply makedirs_calls_after_event. reflexivity.
    + split; reflexivity.
  - intros He r s' Hr. revert Hr.
    cbv [resolve_output_dir getattr bind lift as_path get_state raise ret log emit modify
         try_except makedirs].
    rewrite Hd, He. cbn [negb argv fs trace].
    destruct (os_makedirs E (fs s) dir) as [[[]|e] f'].
    + cbn [argv fs trace]. rewrite Hp. intros Hr. inversion Hr; subst.
      unfold makedirs_calls. cbn [trace]. rewrite !List.filter_app. simpl.
      now rewrite app_nil_r.
    + destruct e; intros Hr; inversion Hr; subst; unfold makedirs_calls; cbn [trace];
        rewrite List.filter_app; reflexivity.
  - intros He m f' Hm.
    cbv [resolve_output_dir getattr bind lift as_path get_state raise ret log emit modify
         try_except makedirs].
    rewrite Hd, He. cbn [negb argv fs trace]. rewrite Hm. reflexivity.
Qed.

Lemma resolve_output_dir_idempotent_witness :
  (os_path_exists tf_env (fs resolved_state) "out" = true ->
   os_access_W_OK tf_env (fs resolved_state) "out" = true ->
     exists s1,
       resolve_output_dir tf_env resolved_state = (Ok tt, s1)
       /\ fs s1 = fs resolved_state /\ argv s1 = argv resolved_state
       /\ makedirs_calls s1 = makedirs_calls resolved_state
       /\ exists s2,
            resolve_output_dir tf_env s1 = (Ok tt, s2)
            /\ fs s2 = fs resolved_state /\ argv s2 = argv resolved_state
            /\ makedirs_calls s2 = makedirs_calls resolved_state)
  /\ (os_path_exists tf_env (fs resolved_state) "out" = true ->
      forall r s', resolve_output_dir tf_env resolved_state = (r, s') ->
        fs s' = fs resolved_state /\ makedirs_calls s' = makedirs_calls resolved_state)
  /\ (os_path_exists tf_env (fs resolved_state) "out" = false ->
      forall r s', resolve_output_dir tf_env resolved_state = (r, s') ->
        makedirs_calls s' = (makedirs_calls resolved_state ++ [EvMakedirs "out"])%list)
  /\ (os_path_exists tf_env (fs resolved_state) "out" = false ->
      forall m f', os_makedirs tf_env (fs resolved_state) "out" = (Raise (PermissionError m), f') ->
        resolve_output_dir tf_env resolved_state =
          (Raise (Error ("Failed to create directory {}. Permission denied! "
                         +:+ refer_to_faq_msg tf_env 22) [PStr "out"]),
           mkSt (argv resolved_state) f' (trace resolved_state ++ [EvMakedirs "out"])%list)).
Proof.
  apply (resolve_output_dir_idempotent tf_env resolved_state "out" PNone).
  - vm_compute. reflexivity.
  - vm_compute. reflexivity.
Defined.

(** ** [driver] and [main] *)

Lemma driver_prepare_ir_raises E (s : St E) lvl sil e s' :
  argv s !! "log_level" = Some (PStr lvl) ->
  argv s !! "silent" = Some sil ->
  prepare_ir E (after_event s (EvInitLogger (PStr (upper lvl)) sil)) = (Raise e, s') ->
  driver E s = (Raise e, s').
Proof.
  intros Hl Hs Hp. unfold driver.
  cbv [getattr bind lift emit modify]. rewrite Hl, Hs.
  unfold after_event in Hp. rewrite Hp. reflexivity.
Qed.

Lemma report_messages_ok E (l : list string) (s : St E) :
  exists s', fold_right (fun el k => emit E (EvLog LError (MsgText el) (Some "analysis_info")) ;;; k)
               (ret tt) l s = (Ok tt, s').
Proof.
  revert s. induction l as [|el l IH]; intros s; simpl.
  - eexists. reflexivity.
  - destruct (IH (after_event s (EvLog LError (MsgText el) (Some "analysis_info")))) as [s' Hs'].
    exists s'. cbv [bind emit modify]. exact Hs'.
Qed.

(** Every report but the one of a missing file runs to its end. *)
Lemma report_ok E c e (s : St E) :
  c <> FileNotFound -> exists s', report E c e s = (Ok tt, s').
Proof.
  intros Hc. destruct c; [congruence | | |].
  - unfold report.
    assert (exists s1, match analysis_messages E with
                       | Some messages =>
                           fold_right (fun el k => emit E (EvLog LError (MsgText el) (Some "analysis_info")) ;;; k)
                             (ret tt) messages
                       | None => ret tt
                       end s = (Ok tt, s1)) as [s1 H1].
    { destruct (analysis_messages E); [apply report_messages_ok | eexists; reflexivity]. }
    rewrite (bind_ok _ _ _ _ _ H1). eexists. reflexivity.
  - eexists. reflexivity.
  - eexists. reflexivity.
Qed.

Lemma main_unfold E cli fw (s : St E) :
  main E cli fw s =
  match main_try E cli fw s with
  | (Ok z, s') => (Ok z, s')
  | (Raise e, s') =>
      match classify e with
      | Some c => (report E c e ;;; ret 1) s'
      | None => (Raise e, s')
      end
  end.
Proof.
  unfold main, try_except. destruct (main_try E cli fw s) as [[z|e] s']; [reflexivity|].
  destruct (classify e); reflexivity.
Qed.

Lemma main_try_driver_raises E cli fw (s0 : St E) ov s e s' :
  main_setup E cli fw s0 = (Ok ov, s) ->
  driver E s = (Raise e, s') ->
  main_try E cli fw s0 = (Raise e, s').
Proof.
  intros H0 Hd. unfold main_try. rewrite (bind_ok _ _ _ _ _ H0).
  apply bind_raise. exact Hd.
Qed.

Lemma main_reports E cli fw (s0 : St E) e s1 c :
  main_try E cli fw s0 = (Raise e, s1) ->
  classify e = Some c -> c <> FileNotFound ->
  exists s2, report E c e s1 = (Ok tt, s2) /\ main E cli fw s0 = (Ok 1, s2).
Proof.
  intros Ht Hc Hn. destruct (report_ok E c e s1 Hn) as [s2 H2].
  exists s2. split; [exact H2|].
  rewrite main_unfold, Ht, Hc. rewrite (bind_ok _ _ _ _ _ H2). reflexivity.
Qed.

(** ** The exit status *)

Lemma emit_ir_returns_zero E g (s : St E) z s' : emit_ir E g s = (Ok z, s') -> z = 0.
Proof.
  unfold emit_ir. intros H.
  do 4 (apply bind_ok_inv in H as (? & ? & _ & H)). inversion H. reflexivity.
Qed.

Lemma driver_returns_zero E (s : St E) z s' : driver E s = (Ok z, s') -> z = 0.
Proof.
  unfold driver. intros H.
  do 5 (apply bind_ok_inv in H as (? & ? & _ & H)).
  apply bind_ok_inv in H as (z0 & s1 & He & H).
  apply emit_ir_returns_zero in He. subst z0. cbn [Z.eqb negb] in H.
  do 2 (apply bind_ok_inv in H as (? & ? & _ & H)). inversion H. reflexivity.
Qed.

Lemma main_try_returns_zero E cli fw (s : St E) z s' :
  main_try E cli fw s = (Ok z, s') -> z = 0.
Proof.
  unfold main_try. intros H.
  apply bind_ok_inv in H as (? & ? & _ & H).
  apply bind_ok_inv in H as (z0 & s1 & Hd & H).
  apply driver_returns_zero in Hd. subst z0.
  do 2 (apply bind_ok_inv in H as (? & ? & _ & H)). inversion H. reflexivity.
Qed.

Lemma report_file_not_found E e (s : St E) before path rest :
  split missing_file_marker (exn_text E e) = before :: path :: rest ->
  exists s', report E FileNotFound e s = (Ok tt, s').
Proof.
  intros H. unfold report. unfold missing_file_marker in H. rewrite H.
  eexists. reflexivity.
Qed.

(** C3, as amended.  [main] returns 0 exactly when what is inside its [try]
    runs to its end, which can only return 0.  An [Error], a
    [FrameworkError] and any other [Exception] that is neither
    [FileNotFoundError] nor [NotADirectoryError] is reported by the one
    [except] clause of its class, and [main] returns 1; a missing file
    whose text has the marker is reported and [main] returns 1; so [main]
    returns nothing but 0 and 1.  [SystemExit] and [KeyboardInterrupt],
    which [except Exception] does not catch, leave [main] as they are. *)
Theorem main_exit_status E cli fw (s : St E) :
  (forall s', main E cli fw s = (Ok 0, s') <-> main_try E cli fw s = (Ok 0, s'))
  /\ (forall z s1, main_try E cli fw s = (Ok z, s1) -> z = 0)
  /\ (forall e s1 c,
        main_try E cli fw s = (Raise e, s1) -> classify e = Some c -> c <> FileNotFound ->
        exists s2, report E c e s1 = (Ok tt, s2) /\ main E cli fw s = (Ok 1, s2))
  /\ (forall e s1 before path rest,
        main_try E cli fw s = (Raise e, s1) -> classify e = Some FileNotFound ->
        split missing_file_marker (exn_text E e) = before :: path :: rest ->
        exists s2, main E cli fw s = (Ok 1, s2))
  /\ (forall e s1,
        main_try E cli fw s = (Raise e, s1) -> classify e = None ->
        is_Exception e = false /\ main E cli fw s = (Raise e, s1))
  /\ (forall z s', main E cli fw s = (Ok z, s') -> z = 0 \/ z = 1).
Proof.
  repeat apply conj.
  - intros s'. rewrite main_unfold.
    destruct (main_try E cli fw s) as [[z|e] s1] eqn:Ht; [tauto|].
    destruct (classify e) as [c|]; [|split; discriminate].
    split; [|discriminate]. intros H.
    apply bind_ok_inv in H as (? & ? & _ & H). discriminate H.
  - intros z s1 H. exact (main_try_returns_zero E cli fw s z s1 H).
  - intros e s1 c Ht Hc Hn. exact (main_reports E cli fw s e s1 c Ht Hc Hn).
  - intros e s1 before path rest Ht Hc Hs.
    destruct (report_file_not_found E e s1 _ _ _ Hs) as [s2 H2].
    exists s2. rewrite main_unfold, Ht, Hc. rewrite (bind_ok _ _ _ _ _ H2). reflexivity.
  - intros e s1 Ht Hc. split; [destruct e; try discriminate Hc; reflexivity|].
    rewrite main_unfold, Ht, Hc. reflexivity.
  - intros z s'. rewrite main_unfold.
    destruct (main_try E cli fw s) as [[z0|e] s1] eqn:Ht.
    + intros H. inversion H; subst. left. exact (main_try_returns_zero E cli fw s z s' Ht).
    + destruct (classify e) as [c|]; [|discriminate].
      intros H. apply bind_ok_inv in H as (? & ? & _ & H). inversion H. right. reflexivity.
Qed.

(** C3, as stated, fails: [argparse] leaves [parse_args] with [SystemExit]
    on a command line it rejects; no [except] clause of [main] catches it,
    and [main] returns no status. *)
Lemma main_system_exit_escapes :
  classify (SystemExit 2) = None
  /\ fst (main (sample_env (Ok tf_only) (Ok tt)) (Raise (SystemExit 2)) PNone
            (sample_state (Ok tf_only) (Ok tt) ∅ ∅))
     = Raise (SystemExit 2).
Proof. split; [reflexivity|]. vm_compute. reflexivity. Qed.

(** The first [except] clause of [main] takes the path from the text after
    "No such file or directory:".  The text of a [NotADirectoryError] does
    not have it: the clause itself raises [IndexError], which leaves
    [main].  Here the output directory is below a regular file. *)
Example main_not_a_directory_escapes :
  classify not_a_directory = Some FileNotFound
  /\ fst (main (sample_env (Ok tf_only) (Raise not_a_directory)) (Ok below_a_file_args) PNone
            (sample_state (Ok tf_only) (Raise not_a_directory) ∅ ∅))
     = Raise (IndexError "list index out of range").
Proof. split; [reflexivity|]. vm_compute. reflexivity. Qed.

(** ** The required model source *)

Lemma check_required_inputs_mxnet E (s : St E) fl :
  is_tf fl = false -> is_mxnet fl = true ->
  unset s "input_model" -> unset s "input_symbol" -> unset s "pretrained_model_name" ->
  check_required_inputs E fl s =
    (Raise (Error ("Path to input model or input symbol or pretrained_model_name is required: use --input_model or "
                   +:+ "--input_symbol or --pretrained_model_name") []), s).
Proof.
  intros Htf Hmx (a & Ha & Ha') (b & Hb & Hb') (c & Hc & Hc').
  cbv [check_required_inputs andM notM attr_true getattr truth bind lift ret raise].
  rewrite Htf, Hmx, Ha, Ha'. cbn [negb]. rewrite Hb, Hb'. cbn [negb]. rewrite Hc, Hc'.
  reflexivity.
Qed.

(** C5.  Under the MXNet flag, with [input_model], [input_symbol] and
    [pretrained_model_name] all unset, [prepare_ir] raises the [Error]
    whose message names the three options, [driver] lets it through, and
    [main] reports it and returns 1. *)
Theorem mxnet_without_model_source E cli fw (s0 s : St E) ov fl lvl sil :
  main_setup E cli fw s0 = (Ok ov, s) ->
  argv s !! "log_level" = Some (PStr lvl) ->
  argv s !! "silent" = Some sil ->
  deduce_framework_by_namespace E (argv s) = Ok fl ->
  is_mxnet fl = true -> is_tf fl = false ->
  unset s "input_model" -> unset s "input_symbol" -> unset s "pretrained_model_name" ->
  exists msg s1,
    prepare_ir E s = (Raise (Error msg []), s)
    /\ Forall (fun name => contains name msg = true)
         ["--input_model"; "--input_symbol"; "--pretrained_model_name"]
    /\ driver E s = (Raise (Error msg []), after_event s (EvInitLogger (PStr (upper lvl)) sil))
    /\ main E cli fw s0 = (Ok 1, s1)
    /\ In (EvLog LError (MsgExn (Error msg [])) None) (trace s1).
Proof.
  intros H0 Hl Hs Hd Hmx Htf Ha Hb Hc.
  assert (Hany : any_flag fl = true).
  { destruct fl as [t c m k o]. simpl in Hmx, Htf. subst. destruct c; reflexivity. }
  assert (Hp : forall s' : St E, argv s' = argv s ->
            prepare_ir E s' =
            (Raise (Error ("Path to input model or input symbol or pretrained_model_name is required: use --input_model or "
                   +:+ "--input_symbol or --pretrained_model_name") []), s')).
  { intros s' Ha'. unfold prepare_ir.
    rewrite (bind_ok _ _ _ _ _ (detect_framework_some E s' fl ltac:(rewrite Ha'; exact Hd) Hany)).
    unfold prepare_ir_from. apply bind_raise.
    apply check_required_inputs_mxnet; try assumption; unfold unset; rewrite Ha'; assumption. }
  pose proof (driver_prepare_ir_raises E s lvl sil _ _ Hl Hs
                (Hp (after_event s (EvInitLogger (PStr (upper lvl)) sil)) eq_refl)) as Hdr.
  pose proof (main_try_driver_raises E cli fw s0 ov s _ _ H0 Hdr) as Ht.
  destruct (main_reports E cli fw s0 _ _ ConfigurationError Ht eq_refl ltac:(discriminate))
    as (s2 & Hr & Hm).
  eexists _, s2. split; [exact (Hp s eq_refl)|]. split; [repeat constructor|].
  split; [exact Hdr|]. split; [exact Hm|].
  (* the report ends with the error and the traceback *)
  unfold report in Hr. apply bind_ok_inv in Hr as (u & s3 & _ & Hr).
  cbv [bind emit modify] in Hr. inversion Hr; subst. simpl.
  rewrite !in_app_iff. left. right. left. reflexivity.
Qed.

Lemma mxnet_without_model_source_witness :
  exists msg s1,
    prepare_ir _ mxnet_parsed = (Raise (Error msg []), mxnet_parsed)
    /\ Forall (fun name => contains name msg = true)
         ["--input_model"; "--input_symbol"; "--pretrained_model_name"]
    /\ driver _ mxnet_parsed
       = (Raise (Error msg []), after_event mxnet_parsed (EvInitLogger (PStr (upper "error")) (PBool true)))
    /\ main _ (Ok mxnet_args) PNone mxnet_start = (Ok 1, s1)
    /\ In (EvLog LError (MsgExn (Error msg [])) None) (trace s1).
Proof.
  apply (mxnet_without_model_source _ (Ok mxnet_args) PNone mxnet_start mxnet_parsed
           PNone mxnet_only "error" (PBool true)).
  - apply run_eq; [vm_compute; reflexivity | reflexivity].
  - vm_compute. reflexivity.
  - vm_compute. reflexivity.
  - reflexivity.
  - reflexivity.
  - reflexivity.
  - exists PNone. split; vm_compute; reflexivity.
  - exists PNone. split; vm_compute; reflexivity.
  - exists PNone. split; vm_compute; reflexivity.
Defined.
(** * More properties of [mo/main.py] *)

(** ** [replace_ext], there and back *)

Lemma rfind_from_append c a b i last :
  rfind_from c (a +:+ b) i last
  = rfind_from c b (i + Z.of_nat (String.length a)) (rfind_from c a i last).
Proof.
  revert i last. induction a as [|x a IH]; intros i last.
  - change ("" +:+ b) with b. cbn [String.length rfind_from]. now rewrite Z.add_0_r.
  - change (String x a +:+ b) with (String x (a +:+ b)).
    cbn [rfind_from String.length]. rewrite IH. f_equal. lia.
Qed.

Lemma rfind_from_absent c s i last :
  contains (String c "") s = false -> rfind_from c s i last = last.
Proof.
  revert i. induction s as [|a s IH]; intros i H; [reflexivity|].
  cbn [contains startswith] in H. apply orb_false_iff in H as [H1 H2].
  rewrite andb_true_r in H1. cbn [rfind_from].
  rewrite Ascii.eqb_sym, H1. apply IH. exact H2.
Qed.

Lemma rfind_from_bounds c s i last :
  last < i -> last <= rfind_from c s i last < i + Z.of_nat (String.length s).
Proof.
  revert i last. induction s as [|a s IH]; intros i last H.
  - cbn [rfind_from String.length]. lia.
  - cbn [rfind_from String.length].
    destruct (Ascii.eqb a c).
    + pose proof (IH (i + 1) i ltac:(lia)). lia.
    + pose proof (IH (i + 1) last ltac:(lia)). lia.
Qed.

Lemma substring_append i a b :
  (i < String.length a)%nat -> String.substring i 1 (a +:+ b) = String.substring i 1 a.
Proof.
  revert i. induction a as [|x a IH]; intros i H; [cbn in H; lia|].
  change (String x a +:+ b) with (String x (a +:+ b)).
  destruct i as [|i].
  - cbn [String.substring]. f_equal. destruct a; destruct b; reflexivity.
  - cbn [String.substring]. apply IH. cbn in H. lia.
Qed.

Lemma existsb_agree {A} (f g : A -> bool) l :
  (forall x, In x l -> f x = g x) -> existsb f l = existsb g l.
Proof.
  induction l as [|x l IH]; intros H; [reflexivity|].
  cbn [existsb]. rewrite (H x (or_introl eq_refl)), IH; [reflexivity|].
  intros y Hy. apply H. now right.
Qed.

Lemma str_take_append a b : str_take (String.length a) (a +:+ b) = a.
Proof.
  induction a as [|x a IH]; [destruct b; reflexivity|].
  change (String x a +:+ b) with (String x (a +:+ b)).
  cbn [String.length str_take]. now rewrite IH.
Qed.

(** [splitext] of a path that ends in an extension. *)
Lemma splitext_append base e :
  is_extension e = true ->
  splitext (base +:+ e) = if has_stem base then (base, e) else (base +:+ e, "").
Proof.
  intros He. destruct e as [|d r]; [discriminate He|].
  cbn [is_extension] in He.
  destruct (Ascii.eqb_spec d ".") as [->|Hd].
  2:{ exfalso. destruct d as [[] [] [] [] [] [] [] []]; try discriminate He. now apply Hd. }
  apply andb_true_iff in He as [Hdot Hsep].
  apply negb_true_iff in Hdot. apply negb_true_iff in Hsep.
  assert (Hs : rfind "/" (base +:+ String "." r) = rfind "/" base).
  { unfold rfind. rewrite rfind_from_append. cbn [rfind_from Ascii.eqb Bool.eqb].
    apply rfind_from_absent. exact Hsep. }
  assert (Hd : rfind "." (base +:+ String "." r) = Z.of_nat (String.length base)).
  { unfold rfind. rewrite rfind_from_append. cbn [rfind_from Ascii.eqb Bool.eqb].
    rewrite rfind_from_absent by exact Hdot. lia. }
  pose proof (rfind_from_bounds "/" base 0 (-1) ltac:(lia)) as Hb. fold (rfind "/" base) in Hb.
  unfold splitext. rewrite Hs, Hd.
  replace (Z.ltb (rfind "/" base) (Z.of_nat (String.length base))) with true
    by (symmetry; apply Z.ltb_lt; lia).
  rewrite Nat2Z.id, str_take_append, str_drop_append.
  replace (existsb _ _) with (has_stem base); [reflexivity|].
  unfold has_stem. apply existsb_agree. intros i Hi. apply in_seq in Hi.
  rewrite substring_append; [reflexivity | lia].
Qed.

(** X1.  On a path that ends in the extension [old], [replace_ext] puts
    [new] in its place, unless the file name is nothing but dots before
    it: then the path has no extension, and [replace_ext] returns
    [None]. *)
Theorem replace_ext_of_extension base old new :
  is_extension old = true ->
  replace_ext (base +:+ old) old new = if has_stem base then Some (base +:+ new) else None.
Proof.
  intros He. unfold replace_ext. rewrite (splitext_append base old He).
  destruct (has_stem base).
  - now rewrite String.eqb_refl.
  - destruct old; [discriminate He | reflexivity].
Qed.

Lemma replace_ext_of_extension_witness :
  replace_ext ("dir/model" +:+ ".caffemodel") ".caffemodel" ".prototxt"
  = if has_stem "dir/model" then Some ("dir/model" +:+ ".prototxt") else None.
Proof. apply (replace_ext_of_extension "dir/model" ".caffemodel" ".prototxt"). reflexivity. Defined.

(** X2.  [replace_ext] can be undone: when it has replaced the extension
    [old] by the extension [new], replacing [new] by [old] in the result
    gives the path back. *)
Theorem replace_ext_round_trip name old new r :
  is_extension old = true -> is_extension new = true ->
  replace_ext name old new = Some r ->
  replace_ext r new old = Some name.
Proof.
  intros Ho Hn H.
  destruct (replace_ext_some name old new r H) as (base & -> & ->).
  unfold replace_ext in *.
  rewrite (splitext_append base old Ho) in H. rewrite (splitext_append base new Hn).
  destruct (has_stem base).
  - now rewrite String.eqb_refl.
  - destruct old; [discriminate Ho | discriminate H].
Qed.

Lemma replace_ext_round_trip_witness :
  replace_ext "dir/model.prototxt" ".prototxt" ".caffemodel" = Some "dir/model.caffemodel".
Proof.
  apply (replace_ext_round_trip "dir/model.caffemodel" ".caffemodel" ".prototxt" "dir/model.prototxt");
    reflexivity.
Defined.

(** ** [split] *)

Lemma append_assoc (a b c : string) : (a +:+ b) +:+ c = a +:+ (b +:+ c).
Proof.
  induction a as [|x a IH]; [reflexivity|].
  change (String x a +:+ b) with (String x (a +:+ b)).
  change (String x (a +:+ b) +:+ c) with (String x ((a +:+ b) +:+ c)).
  change (String x a +:+ (b +:+ c)) with (String x (a +:+ (b +:+ c))).
  now rewrite IH.
Qed.

Lemma split_go_step sep c s cur :
  split_go sep (String c s) 0 cur =
  if startswith sep (String c s)
  then cur :: split_go sep s (String.length sep - 1) ""
  else split_go sep s 0 (cur +:+ String c "").
Proof. reflexivity. Qed.

Lemma split_go_nonempty sep s k cur : split_go sep s k cur <> [].
Proof.
  revert k cur. induction s as [|c s IH]; intros k cur; [discriminate|].
  destruct k as [|k]; [|apply IH].
  rewrite split_go_step. destruct (startswith sep (String c s)); [discriminate | apply IH].
Qed.

Lemma startswith_prefix p s : startswith p s = true -> exists r, s = p +:+ r.
Proof.
  revert s. induction p as [|x p IH]; intros s H; [exists s; reflexivity|].
  destruct s as [|c s]; [discriminate H|].
  cbn [startswith] in H. apply andb_true_iff in H as [Hc Hp].
  apply Ascii.eqb_eq in Hc. subst c. destruct (IH s Hp) as [r ->]. exists r. reflexivity.
Qed.

(** The characters of a separator that was matched are stepped over. *)
Lemma split_go_skip sep t r cur :
  split_go sep (t +:+ r) (String.length t) cur = split_go sep r 0 cur.
Proof.
  induction t as [|x t IH]; [reflexivity|].
  change (String x t +:+ r) with (String x (t +:+ r)). exact IH.
Qed.

(** Joining the pieces with the separator gives the string back. *)
Lemma join_split_go sep n s cur :
  sep <> "" -> (String.length s <= n)%nat ->
  String.concat sep (split_go sep s 0 cur) = cur +:+ s.
Proof.
  intros Hsep. revert s cur. induction n as [|n IH]; intros s cur Hn.
  - destruct s; [|cbn in Hn; lia]. cbn. now rewrite append_empty_r.
  - destruct s as [|c s]; [cbn; now rewrite append_empty_r|].
    rewrite split_go_step. destruct (startswith sep (String c s)) eqn:Hst.
    + destruct sep as [|x t]; [congruence|].
      destruct (startswith_prefix _ _ Hst) as [r Hr].
      change (String x t +:+ r) with (String x (t +:+ r)) in Hr.
      inversion Hr; subst c s.
      replace (String.length (String x t) - 1)%nat with (String.length t) by (cbn [String.length]; lia).
      rewrite split_go_skip.
      pose proof (split_go_nonempty (String x t) r 0 "") as Hne.
      pose proof (IH r "" ltac:(cbn in Hn; rewrite length_append in Hn; lia)) as Hr'.
      destruct (split_go (String x t) r 0 "") as [|p l]; [congruence|].
      cbn [String.concat]. cbn [String.concat] in Hr'. rewrite Hr'.
      reflexivity.
    + rewrite IH by (cbn in Hn; lia). now rewrite append_assoc.
Qed.

Lemma join_split sep s : sep <> "" -> String.concat sep (split sep s) = s.
Proof. intros H. unfold split. now rewrite (join_split_go sep (String.length s) s "" H). Qed.

Lemma contains_char_append c a b :
  contains (String c "") (a +:+ b) = contains (String c "") a || contains (String c "") b.
Proof.
  induction a as [|x a IH].
  - change ("" +:+ b) with b. destruct b; reflexivity.
  - change (String x a +:+ b) with (String x (a +:+ b)).
    cbn [contains startswith]. rewrite IH. now rewrite orb_assoc.
Qed.

(** No piece has the one-character separator in it. *)
Lemma split_go_pieces c s cur :
  contains (String c "") cur = false ->
  Forall (fun piece => contains (String c "") piece = false) (split_go (String c "") s 0 cur).
Proof.
  revert cur. induction s as [|a s IH]; intros cur Hcur.
  - constructor; [exact Hcur | constructor].
  - rewrite split_go_step. cbn [startswith String.length Nat.sub].
    rewrite andb_true_r. destruct (Ascii.eqb c a) eqn:Hca.
    + constructor; [exact Hcur|]. apply IH. reflexivity.
    + apply IH. rewrite contains_char_append, Hcur. cbn [contains startswith orb].
      now rewrite Hca.
Qed.

(** A string without the separator is one piece. *)
Lemma split_go_absent sep s cur :
  contains sep s = false -> split_go sep s 0 cur = [cur +:+ s].
Proof.
  revert cur. induction s as [|c s IH]; intros cur H.
  - cbn. now rewrite append_empty_r.
  - cbn [contains] in H. apply orb_false_iff in H as [H1 H2].
    rewrite split_go_step, H1, (IH _ H2), append_assoc. reflexivity.
Qed.

Lemma split_absent sep s : contains sep s = false -> split sep s = [s].
Proof. intros H. unfold split. now rewrite (split_go_absent sep s "" H). Qed.

(** ** The required model source, the other frameworks *)

Lemma detect_framework_inv E (s : St E) fl s1 :
  detect_framework E s = (Ok fl, s1) ->
  deduce_framework_by_namespace E (argv s) = Ok fl /\ any_flag fl = true /\ s1 = s.
Proof.
  cbv [detect_framework bind get_state lift getattr raise ret].
  destruct (deduce_framework_by_namespace E (argv s)) as [a|e]; [|discriminate].
  destruct (any_flag a) eqn:Ha; cbn [negb].
  - intros H. inversion H; subst. auto.
  - destruct (argv s !! "framework"); discriminate.
Qed.

Lemma prepare_ir_required_inputs E (s : St E) fl e :
  deduce_framework_by_namespace E (argv s) = Ok fl -> any_flag fl = true ->
  check_required_inputs E fl s = (Raise e, s) ->
  prepare_ir E s = (Raise e, s).
Proof.
  intros Hd Ha Hc. unfold prepare_ir.
  rewrite (bind_ok _ _ _ _ _ (detect_framework_some E s fl Hd Ha)).
  unfold prepare_ir_from. apply bind_raise. exact Hc.
Qed.

Lemma any_flag_tf fl : is_tf fl = true -> any_flag fl = true.
Proof. destruct fl as [t c m k o]. simpl. intros ->. reflexivity. Qed.

Lemma any_flag_caffe fl : is_caffe fl = true -> any_flag fl = true.
Proof. destruct fl as [[] c m k o]; simpl; intros ->; reflexivity. Qed.

Lemma any_flag_kaldi_onnx fl : is_kaldi fl || is_onnx fl = true -> any_flag fl = true.
Proof. destruct fl as [[] [] [] [] []]; simpl; intros H; try reflexivity; discriminate H. Qed.

(** X3.  Under the TensorFlow flag, with [input_model], [saved_model_dir]
    and [input_meta_graph] all unset, [prepare_ir] raises the [Error] that
    names the three options, whatever the other flags are, and leaves the
    state as it was. *)
Theorem tf_without_model_source E (s : St E) fl :
  deduce_framework_by_namespace E (argv s) = Ok fl ->
  is_tf fl = true ->
  unset s "input_model" -> unset s "saved_model_dir" -> unset s "input_meta_graph" ->
  exists msg,
    prepare_ir E s = (Raise (Error msg []), s)
    /\ Forall (fun name => contains name msg = true)
         ["--input_model"; "--saved_model_dir"; "--input_meta_graph"].
Proof.
  intros Hd Htf (a & Ha & Ha') (b & Hb & Hb') (c & Hc & Hc').
  eexists. split.
  - apply (prepare_ir_required_inputs E s fl _ Hd (any_flag_tf fl Htf)).
    cbv [check_required_inputs andM notM attr_true getattr truth bind lift ret raise].
    rewrite Htf, Ha, Ha'. cbn [negb]. rewrite Hb, Hb'. cbn [negb]. rewrite Hc, Hc'.
    reflexivity.
  - repeat constructor.
Qed.

Lemma tf_without_model_source_witness :
  exists msg,
    prepare_ir tf_env tf_no_source = (Raise (Error msg []), tf_no_source)
    /\ Forall (fun name => contains name msg = true)
         ["--input_model"; "--saved_model_dir"; "--input_meta_graph"].
Proof.
  apply (tf_without_model_source tf_env tf_no_source tf_only).
  - reflexivity.
  - reflexivity.
  - exists PNone. split; vm_compute; reflexivity.
  - exists PNone. split; vm_compute; reflexivity.
  - exists PNone. split; vm_compute; reflexivity.
Defined.

(** X4.  Under the Caffe flag alone of TensorFlow, MXNet and Caffe, with
    [input_model] and [input_proto] both unset, [prepare_ir] raises the
    [Error] that names the two options, and leaves the state as it was. *)
Theorem caffe_without_model_source E (s : St E) fl :
  deduce_framework_by_namespace E (argv s) = Ok fl ->
  is_tf fl = false -> is_mxnet fl = false -> is_caffe fl = true ->
  unset s "input_model" -> unset s "input_proto" ->
  exists msg,
    prepare_ir E s = (Raise (Error msg []), s)
    /\ Forall (fun name => contains name msg = true) ["--input_model"; "--input_proto"].
Proof.
  intros Hd Htf Hmx Hcf (a & Ha & Ha') (b & Hb & Hb').
  eexists. split.
  - apply (prepare_ir_required_inputs E s fl _ Hd (any_flag_caffe fl Hcf)).
    cbv [check_required_inputs andM notM attr_true getattr truth bind lift ret raise].
    rewrite Htf, Hmx, Hcf, Ha, Ha'. cbn [negb]. rewrite Hb, Hb'.
    reflexivity.
  - repeat constructor.
Qed.

Lemma caffe_without_model_source_witness :
  exists msg,
    prepare_ir caffe_env caffe_no_source = (Raise (Error msg []), caffe_no_source)
    /\ Forall (fun name => contains name msg = true) ["--input_model"; "--input_proto"].
Proof.
  apply (caffe_without_model_source caffe_env caffe_no_source caffe_only).
  - reflexivity.
  - reflexivity.
  - reflexivity.
  - reflexivity.
  - exists PNone. split; vm_compute; reflexivity.
  - exists PNone. split; vm_compute; reflexivity.
Defined.

(** X5.  Under the Kaldi or the ONNX flag, and none of the TensorFlow,
    MXNet and Caffe flags, with [input_model] unset, [prepare_ir] raises
    the [Error] that asks for [--input_model], and leaves the state as it
    was. *)
Theorem kaldi_onnx_without_input_model E (s : St E) fl :
  deduce_framework_by_namespace E (argv s) = Ok fl ->
  is_tf fl = false -> is_mxnet fl = false -> is_caffe fl = false ->
  is_kaldi fl || is_onnx fl = true ->
  unset s "input_model" ->
  prepare_ir E s = (Raise (Error "Path to input model is required: use --input_model." []), s).
Proof.
  intros Hd Htf Hmx Hcf Hko (a & Ha & Ha').
  apply (prepare_ir_required_inputs E s fl _ Hd (any_flag_kaldi_onnx fl Hko)).
  cbv [check_required_inputs andM notM attr_true getattr truth bind lift ret raise].
  rewrite Htf, Hmx, Hcf, Hko, Ha, Ha'. reflexivity.
Qed.

Lemma kaldi_onnx_without_input_model_witness :
  prepare_ir onnx_env onnx_no_source
  = (Raise (Error "Path to input model is required: use --input_model." []), onnx_no_source).
Proof.
  apply (kaldi_onnx_without_input_model onnx_env onnx_no_source onnx_only).
  - reflexivity.
  - reflexivity.
  - reflexivity.
  - reflexivity.
  - reflexivity.
  - exists PNone. split; vm_compute; reflexivity.
Defined.

(** X6.  The check of the required model source only reads: whatever it
    returns or raises, the state is as it was; and with [input_model] set
    it passes, whatever the flags are. *)
Theorem check_required_inputs_reads E (s : St E) fl :
  (forall r s', check_required_inputs E fl s = (r, s') -> s' = s)
  /\ (is_set s "input_model" -> check_required_inputs E fl s = (Ok tt, s)).
Proof.
  split.
  - assert (H : preserves (fun s0 : St E => s0) (check_required_inputs E fl)).
    { unfold check_required_inputs. preserves_tac. }
    intros r s'. apply H.
  - intros (v & Hv & Hb).
    cbv [check_required_inputs andM notM attr_true getattr truth bind lift ret raise].
    destruct fl as [[] [] [] [] []]; cbn [is_tf is_mxnet is_caffe is_kaldi is_onnx orb];
      repeat (first [rewrite Hv | rewrite Hb | progress cbn [negb] | progress cbv beta iota]);
      reflexivity.
Qed.

Lemma check_required_inputs_reads_witness :
  check_required_inputs caffe_env caffe_only caffemodel_run = (Ok tt, caffemodel_run).
Proof.
  apply (proj2 (check_required_inputs_reads caffe_env caffemodel_run caffe_only)).
  exists (PStr "model.caffemodel"). split; vm_compute; reflexivity.
Defined.

(** ** What [prepare_ir] leaves alone *)

Lemma keeps_detect_framework E {X} (f : St E -> X) : preserves f (detect_framework E).
Proof. unfold detect_framework. preserves_tac. Qed.

Lemma keeps_force_kaldi_ir_other E fl name :
  is_kaldi fl = false -> preserves (attr (E := E) name) (force_kaldi_ir E fl).
Proof. intros H. unfold force_kaldi_ir. rewrite H. preserves_tac. Qed.

(** The blocks of [prepare_ir], for an attribute that is not known. *)
Ltac keeps_block_of H :=
  first
    [ apply keeps_check_required_inputs | apply keeps_force_kaldi_ir | apply keeps_derive_model_name
    | apply keeps_infer_input_proto | apply keeps_print_arguments | apply keeps_check_environment
    | apply keeps_check_mean_options | apply keeps_check_scale_options
    | apply keeps_normalize_model_options | apply keeps_resolve_placeholders
    | apply keeps_resolve_output_dir | apply keeps_load_extensions | apply keeps_run_pipeline ];
  intros ->; apply H; cbv [prepare_ir_assigns In]; tauto.

Ltac keeps_blocks_of H :=
  first [ keeps_block_of H | apply preserves_bind; [keeps_block_of H | intro; keeps_blocks_of H] ].

(** X7.  The statements of [prepare_ir] assign twelve attributes of the
    namespace and no other.  The helpers of the other modules being taken
    not to write the namespace, every other attribute, [input_model],
    [output_dir] and [silent] among them, is after [prepare_ir] what it
    was before, whether [prepare_ir] returns or raises. *)
Theorem prepare_ir_assigns_only E (s : St E) name r s' :
  ~ In name prepare_ir_assigns ->
  prepare_ir E s = (r, s') ->
  attr name s' = attr name s.
Proof.
  intros Hn. revert s r s'.
  change (preserves (attr name) (prepare_ir E)).
  unfold prepare_ir. apply preserves_bind; [apply keeps_detect_framework | intros fl].
  unfold prepare_ir_from. keeps_blocks_of Hn.
Qed.

Lemma prepare_ir_assigns_only_witness :
  attr "input_model" (snd (prepare_ir caffe_env caffe_state)) = attr "input_model" caffe_state.
Proof.
  apply (prepare_ir_assigns_only caffe_env caffe_state "input_model"
           (fst (prepare_ir caffe_env caffe_state))).
  - cbv [prepare_ir_assigns In]. intuition discriminate.
  - apply run_eq; reflexivity.
Defined.

(** X8.  Only Kaldi switches the experimental IR off: when the Kaldi flag
    is not set, no statement of [prepare_ir] assigns
    [generate_experimental_IR_V10], and the attribute is after [prepare_ir]
    what the command line gave, whether [prepare_ir] returns or raises. *)
Theorem experimental_ir_kept_without_kaldi E (s : St E) fl r s' :
  deduce_framework_by_namespace E (argv s) = Ok fl ->
  is_kaldi fl = false ->
  prepare_ir E s = (r, s') ->
  attr "generate_experimental_IR_V10" s' = attr "generate_experimental_IR_V10" s.
Proof.
  intros Hd Hk H. unfold prepare_ir in H.
  apply bind_inv in H as [(a & s1 & H1 & H2) | (e & H1 & _)].
  - apply detect_framework_inv in H1 as (Ha & _ & ->).
    rewrite Hd in Ha. inversion Ha; subst a.
    revert H2. generalize s r s'.
    change (preserves (attr "generate_experimental_IR_V10") (prepare_ir_from E fl)).
    unfold prepare_ir_from.
    apply preserves_bind; [apply keeps_check_required_inputs | intro].
    apply preserves_bind; [apply keeps_force_kaldi_ir_other; exact Hk | intro].
    keeps_blocks.
  - exact (keeps_detect_framework E _ _ _ _ H1).
Qed.

Lemma experimental_ir_kept_without_kaldi_witness :
  attr "generate_experimental_IR_V10" (snd (prepare_ir onnx_env onnx_run))
  = attr "generate_experimental_IR_V10" onnx_run.
Proof.
  apply (experimental_ir_kept_without_kaldi onnx_env onnx_run onnx_only
           (fst (prepare_ir onnx_env onnx_run))).
  - reflexivity.
  - reflexivity.
  - apply run_eq; reflexivity.
Defined.

(** A model name that is given is stored again, as it is. *)
Lemma derive_model_name_given E fl (s : St E) v :
  argv s !! "model_name" = Some v -> py_bool v = Ok true ->
  derive_model_name E fl s =
    (Ok tt, after_event s (EvLog LDebug (MsgText ("Output model name would be " +:+ py_str E v
                                                   +:+ "{.xml, .bin}")) None)).
Proof.
  intros Hv Hb.
  cbv [derive_model_name attr_true getattr truth bind lift ret setattr modify log emit].
  rewrite Hv, Hb. cbv beta iota. rewrite Hv. cbn [argv fs trace].
  rewrite (insert_id _ _ _ Hv). reflexivity.
Qed.

(** X9.  A model name given on the command line wins over every name
    [prepare_ir] could derive: with [model_name] set, [model_name] is after
    [prepare_ir] what it was before, whether [prepare_ir] returns or
    raises. *)
Theorem given_model_name_kept E (s : St E) r s' :
  is_set s "model_name" ->
  prepare_ir E s = (r, s') ->
  attr "model_name" s' = attr "model_name" s.
Proof.
  intros (v & Hv & Hb) H. unfold prepare_ir in H.
  apply bind_inv in H as [(fl & s1 & H1 & H) | (e & H1 & _)];
    [| exact (keeps_detect_framework E _ _ _ _ H1)].
  apply detect_framework_inv in H1 as (_ & _ & ->).
  unfold prepare_ir_from in H.
  apply bind_inv in H as [([] & s1 & H1 & H) | (e & H1 & _)];
    [| exact (keeps_check_required_inputs E fl "model_name" _ _ _ H1)].
  pose proof (keeps_check_required_inputs E fl "model_name" _ _ _ H1) as K1.
  apply bind_inv in H as [([] & s2 & H2 & H) | (e & H2 & _)].
  2:{ rewrite (keeps_force_kaldi_ir E fl "model_name" ltac:(discriminate) _ _ _ H2). exact K1. }
  pose proof (keeps_force_kaldi_ir E fl "model_name" ltac:(discriminate) _ _ _ H2) as K2.
  assert (Hv2 : argv s2 !! "model_name" = Some v).
  { change (attr "model_name" s2 = Some v). rewrite K2, K1. exact Hv. }
  rewrite (bind_ok _ _ _ _ _ (derive_model_name_given E fl s2 v Hv2 Hb)) in H.
  assert (K : preserves (attr (E := E) "model_name")
              (infer_input_proto E fl ;;; print_arguments E fl ;;; check_environment E fl ;;;
               check_mean_options E fl ;;; check_scale_options E ;;; normalize_model_options E fl ;;;
               resolve_placeholders E ;;; resolve_output_dir E ;;; load_extensions E fl ;;;
               run_pipeline E)) by keeps_blocks.
  rewrite (K _ _ _ H), attr_after_event, K2, K1. reflexivity.
Qed.

Lemma given_model_name_kept_witness :
  attr "model_name" (snd (prepare_ir onnx_env onnx_run)) = attr "model_name" onnx_run.
Proof.
  apply (given_model_name_kept onnx_env onnx_run (fst (prepare_ir onnx_env onnx_run))).
  - exists (PStr "mine"). split; vm_compute; reflexivity.
  - apply run_eq; reflexivity.
Defined.

(** ** The blocks of one framework *)

(** X10.  The search for the prototxt and the checks of the mean options
    are for Caffe: when the Caffe flag is not set, both blocks return and
    leave the state as it was, whatever the mean options are; and under
    any flags, with [input_proto] set, the search for the prototxt does
    nothing. *)
Theorem caffe_blocks_skipped E (s : St E) fl :
  (is_caffe fl = false ->
     infer_input_proto E fl s = (Ok tt, s) /\ check_mean_options E fl s = (Ok tt, s))
  /\ (is_set s "input_proto" -> infer_input_proto E fl s = (Ok tt, s)).
Proof.
  split.
  - intros Hc. split.
    + cbv [infer_input_proto andM notM when bind ret]. rewrite Hc. reflexivity.
    + cbv [check_mean_options andM when bind ret]. rewrite Hc. reflexivity.
  - intros (v & Hv & Hb).
    cbv [infer_input_proto andM notM when attr_true getattr truth bind lift ret].
    destruct (is_caffe fl); [|reflexivity]. rewrite Hv, Hb. reflexivity.
Qed.

Lemma caffe_blocks_skipped_witness :
  infer_input_proto tf_env tf_only saved_model_run = (Ok tt, saved_model_run)
  /\ check_mean_options tf_env tf_only saved_model_run = (Ok tt, saved_model_run).
Proof.
  apply (proj1 (caffe_blocks_skipped tf_env saved_model_run tf_only)). reflexivity.
Defined.

(** ** The requirements and the TensorFlow alias *)

(** X11.  What the block does is decided by the code [check_requirements]
    returns.  A code that is not zero makes the block raise the [Error]
    with the code in its text, the state as it was.  With the code zero,
    the block returns: under the TensorFlow flag a
    [tensorflow_use_custom_operations_config] that is not [None] is copied
    into [transformations_config], replacing what was there; when it is
    [None], and under the other flags, the state stays as it was. *)
Theorem check_environment_cases E (s : St E) fl fw code failed v :
  argv s !! "framework" = Some fw ->
  check_requirements E fw = Ok code ->
  py_bool code = Ok failed ->
  argv s !! "tensorflow_use_custom_operations_config" = Some v ->
  check_environment E fl s =
    if failed
    then (Raise (Error ("check_requirements exit with return code " +:+ py_str E code) []), s)
    else (Ok tt,
          if is_tf fl && negb (is_none v)
          then mkSt (<["transformations_config" := v]> (argv s)) (fs s) (trace s)
          else s).
Proof.
  intros Hf Hc Hb Hv.
  cbv [check_environment andM when attr_not_none getattr truth bind lift ret raise setattr modify].
  rewrite Hf, Hc, Hb. destruct failed; [reflexivity|].
  destruct (is_tf fl); [|reflexivity]. rewrite Hv.
  destruct v; cbn [is_none negb andb]; try rewrite Hv; reflexivity.
Qed.

Lemma check_environment_cases_witness :
  check_environment bare_env tf_only bare_run =
    (Raise (Error ("check_requirements exit with return code " +:+ py_str bare_env (PInt 1)) []),
     bare_run)
  /\ attr "transformations_config" (snd (check_environment tf_env tf_only tf_alias_run))
     = Some (PStr "ssd.json").
Proof.
  split.
  - apply (check_environment_cases bare_env bare_run tf_only (PStr "tf") (PInt 1) true PNone).
    + vm_compute. reflexivity.
    + reflexivity.
    + reflexivity.
    + vm_compute. reflexivity.
  - assert (Hf : argv tf_alias_run !! "framework" = Some (PStr "tf")) by (vm_compute; reflexivity).
    assert (Hv : argv tf_alias_run !! "tensorflow_use_custom_operations_config"
                 = Some (PStr "ssd.json")) by (vm_compute; reflexivity).
    rewrite (check_environment_cases tf_env tf_alias_run tf_only (PStr "tf") (PInt 0) false
               (PStr "ssd.json") Hf eq_refl eq_refl Hv).
    apply lookup_insert_eq.
Defined.

(** ** Mean file offsets that are no integers *)

Lemma py_int_raise s e : py_int s = Raise e -> exists m, e = ValueError m.
Proof.
  unfold py_int. intros H. repeat case_match; inversion H; eauto.
Qed.

Lemma map_result_py_int_raise l e :
  map_result py_int l = Raise e -> exists m, e = ValueError m.
Proof.
  induction l as [|x l IH]; [discriminate|].
  cbn [map_result]. destruct (py_int x) as [z|e'] eqn:Hx.
  - destruct (map_result py_int l) as [zs|e'']; [discriminate|].
    intros H. inversion H; subst. apply IH. reflexivity.
  - intros H. inversion H; subst. exact (py_int_raise x e Hx).
Qed.

(** X13.  Under the Caffe flag, with [mean_file] and [mean_file_offsets]
    set and [mean_values] unset: when a piece of the first tuple is no
    integer, what the block raises is the [ValueError] of [int], not an
    [Error]; the state stays as it was, and [main] takes the exception for
    an internal error. *)
Theorem mean_file_offsets_not_integers E (s : St E) fl raw first more e :
  is_caffe fl = true -> is_set s "mean_file" -> unset s "mean_values" ->
  argv s !! "mean_file_offsets" = Some raw -> py_bool raw = Ok true ->
  get_tuple_values E raw 2 = Ok (first :: more) ->
  map_result py_int (split "," first) = Raise e ->
  check_mean_options E fl s = (Raise e, s)
  /\ (exists m, e = ValueError m)
  /\ classify e = Some InternalError.
Proof.
  intros Hc (a & Ha & Ha') (b & Hb & Hb') Hraw Hraw' Ht Hi.
  destruct (map_result_py_int_raise _ _ Hi) as [m ->].
  split; [|split; [eauto | reflexivity]].
  cbv [check_mean_options andM when attr_true getattr truth bind lift ret raise setattr modify].
  rewrite Hc, Ha, Ha', Hb, Hb'. rewrite Ha, Ha', Hraw, Hraw'. cbv iota beta.
  rewrite Hraw, Ht. cbv iota beta. rewrite Hi. reflexivity.
Qed.

Lemma mean_file_offsets_not_integers_witness :
  check_mean_options caffe_env caffe_only bad_offsets
  = (Raise (ValueError "invalid literal for int() with base 10: x"), bad_offsets)
  /\ (exists m, ValueError "invalid literal for int() with base 10: x" = ValueError m)
  /\ classify (ValueError "invalid literal for int() with base 10: x") = Some InternalError.
Proof.
  apply (mean_file_offsets_not_integers caffe_env bad_offsets caffe_only (PStr "(1,x)") "1,x" []).
  - reflexivity.
  - exists (PStr "mean.binaryproto"). split; vm_compute; reflexivity.
  - exists PNone. split; vm_compute; reflexivity.
  - vm_compute. reflexivity.
  - reflexivity.
  - vm_compute. reflexivity.
  - vm_compute. reflexivity.
Defined.

(** ** The scale options *)

(** X14.  With [scale] and [scale_values] both set, under whatever
    framework, the block raises the [Error] that cites [--scale] and
    [--scale_values], and leaves the state as it was. *)
Theorem scale_and_scale_values E (s : St E) :
  is_set s "scale" -> is_set s "scale_values" ->
  exists msg,
    check_scale_options E s = (Raise (Error msg []), s)
    /\ Forall (fun name => contains name msg = true) ["--scale"; "--scale_values"].
Proof.
  intros (a & Ha & Ha') (b & Hb & Hb').
  eexists. split.
  - cbv [check_scale_options andM attr_true getattr truth bind lift ret raise].
    rewrite Ha, Ha', Hb, Hb'. reflexivity.
  - repeat constructor.
Qed.

Lemma scale_and_scale_values_witness :
  exists msg,
    check_scale_options caffe_env two_scales = (Raise (Error msg []), two_scales)
    /\ Forall (fun name => contains name msg = true) ["--scale"; "--scale_values"].
Proof.
  apply (scale_and_scale_values caffe_env two_scales).
  - exists (PFloat 255). split; vm_compute; reflexivity.
  - exists (PStr "(1,2,3)"). split; vm_compute; reflexivity.
Defined.

(** X15.  A scale below one is no error.  With [scale] set, comparable
    with [1.0], and no [scale_values], the block returns: when the scale is
    below [1.0] it logs one message, marked as a warning, and changes
    nothing else; otherwise it changes nothing at all. *)
Theorem scale_below_one_warns E (s : St E) v below :
  argv s !! "scale" = Some v -> py_bool v = Ok true -> lt_one v = Ok below ->
  unset s "scale_values" ->
  check_scale_options E s = (Ok tt, if below then after_event s scale_warning else s).
Proof.
  intros Hv Hb Hl (w & Hw & Hw').
  cbv [check_scale_options andM when attr_true getattr truth bind lift ret raise emit modify].
  rewrite Hv, Hb, Hw, Hw'. cbv beta iota. rewrite Hv, Hb. cbv beta iota. rewrite Hv, Hl.
  destruct below; reflexivity.
Qed.

Lemma scale_below_one_warns_witness :
  check_scale_options caffe_env small_scale = (Ok tt, after_event small_scale scale_warning).
Proof.
  apply (scale_below_one_warns caffe_env small_scale (PFloat 0.5) true).
  - vm_compute. reflexivity.
  - vm_compute. reflexivity.
  - vm_compute. reflexivity.
  - exists PNone. split; vm_compute; reflexivity.
Defined.

(** ** The model options *)

(** X16.  Under the TensorFlow flag, with [input_model] and
    [saved_model_dir] both set, the block raises the [Error] that tells to
    give one of them, and leaves the state as it was. *)
Theorem tf_input_model_and_saved_model_dir E (s : St E) fl :
  is_tf fl = true -> is_set s "input_model" -> is_set s "saved_model_dir" ->
  normalize_model_options E fl s =
    (Raise (Error ("Both --input_model and --saved_model_dir are defined. "
                   +:+ "Specify either input model or saved model directory.") []), s).
Proof.
  intros Ht (a & Ha & Ha') (b & Hb & Hb').
  cbv [normalize_model_options andM attr_true getattr truth bind lift ret raise].
  rewrite Ha, Ha', Ht, Hb, Hb'. reflexivity.
Qed.

Lemma tf_input_model_and_saved_model_dir_witness :
  normalize_model_options tf_env tf_only tf_two_sources =
    (Raise (Error ("Both --input_model and --saved_model_dir are defined. "
                   +:+ "Specify either input model or saved model directory.") []), tf_two_sources).
Proof.
  apply (tf_input_model_and_saved_model_dir tf_env tf_two_sources tf_only).
  - reflexivity.
  - exists (PStr "model.pb"). split; vm_compute; reflexivity.
  - exists (PStr "/models/resnet50"). split; vm_compute; reflexivity.
Defined.

(** The last statement of the block, line 191. *)
Lemma keeps_output_names E name :
  name <> "output" ->
  preserves (attr (E := E) name)
    (c <- attr_true E "output" ;;
     if c then
       output <- getattr E "output" ;;
       l <- lift (py_split output) ;;
       setattr E "output" (PStrList l)
     else setattr E "output" PNone).
Proof. intros H. preserves_tac. Qed.

(** X17.  Under the TensorFlow flag, with no [input_model], the tags of the
    saved model being a string: tags with a space in them make the block
    raise the [Error] about the tags and leave the state as it was;
    otherwise [saved_model_tags] is, after the block, the list of the
    pieces between the commas, and joining the pieces with commas gives
    the string back. *)
Theorem saved_model_tags_split E (s : St E) fl tags r s' :
  is_tf fl = true -> unset s "input_model" ->
  argv s !! "saved_model_tags" = Some (PStr tags) ->
  normalize_model_options E fl s = (r, s') ->
  (contains " " tags = true ->
     r = Raise (Error "Incorrect saved model tag was provided. Specify --saved_model_tags with no spaces in it" [])
     /\ s' = s)
  /\ (contains " " tags = false ->
      attr "saved_model_tags" s' = Some (PStrList (split "," tags))
      /\ String.concat "," (split "," tags) = tags).
Proof.
  intros Ht (a & Ha & Ha') Hg H.
  unfold normalize_model_options in H.
  rewrite (bind_ok _ _ s false s) in H.
  2:{ cbv [andM attr_true getattr truth bind lift ret]. now rewrite Ha, Ha'. }
  cbv iota in H. rewrite Ht in H. cbv [when] in H.
  destruct (contains " " tags) eqn:Hc.
  - split; [|discriminate]. intros _.
    rewrite (bind_raise _ _ s
               (Error "Incorrect saved model tag was provided. Specify --saved_model_tags with no spaces in it" [])
               s) in H.
    + inversion H. auto.
    + cbv [attr_not_none getattr bind lift ret raise has_space]. rewrite Hg. cbv beta iota.
      rewrite Hg, Hc. reflexivity.
  - split; [discriminate|]. intros _. split; [|apply join_split; discriminate].
    rewrite (bind_ok _ _ s tt
               (mkSt (<["saved_model_tags" := PStrList (split "," tags)]> (argv s)) (fs s) (trace s)))
      in H.
    + rewrite (keeps_output_names E "saved_model_tags" ltac:(discriminate) _ _ _ H).
      apply lookup_insert_eq.
    + cbv [attr_not_none getattr bind lift ret raise has_space py_split setattr modify].
      rewrite Hg. cbv beta iota. rewrite Hg, Hc. reflexivity.
Qed.

Lemma saved_model_tags_split_witness :
  (fst (normalize_model_options tf_env tf_only tf_spaced_tags)
   = Raise (Error "Incorrect saved model tag was provided. Specify --saved_model_tags with no spaces in it" [])
   /\ snd (normalize_model_options tf_env tf_only tf_spaced_tags) = tf_spaced_tags)
  /\ (attr "saved_model_tags" (snd (normalize_model_options tf_env tf_only tf_tags_and_outputs))
      = Some (PStrList (split "," "serve,gpu"))
      /\ String.concat "," (split "," "serve,gpu") = "serve,gpu").
Proof.
  split.
  - apply (saved_model_tags_split tf_env tf_spaced_tags tf_only "serve, gpu").
    + reflexivity.
    + exists PNone. split; vm_compute; reflexivity.
    + vm_compute. reflexivity.
    + apply run_eq; reflexivity.
    + reflexivity.
  - apply (saved_model_tags_split tf_env tf_tags_and_outputs tf_only "serve,gpu"
             (fst (normalize_model_options tf_env tf_only tf_tags_and_outputs))).
    + reflexivity.
    + exists PNone. split; vm_compute; reflexivity.
    + vm_compute. reflexivity.
    + apply run_eq; reflexivity.
    + reflexivity.
Defined.

(** X18.  When the block returns, [output] is normalised: an [output] that
    was unset is [None]; an [output] that was set was a string, and is now
    the list of the names between its commas, none of which has a comma in
    it, and which joined with commas give the string back. *)
Theorem output_names_normalized E (s : St E) fl s' :
  normalize_model_options E fl s = (Ok tt, s') ->
  (exists v, argv s !! "output" = Some v /\ py_bool v = Ok false
             /\ attr "output" s' = Some PNone)
  \/ (exists names, argv s !! "output" = Some (PStr names) /\ names <> ""
                /\ attr "output" s' = Some (PStrList (split "," names))
                /\ String.concat "," (split "," names) = names
                /\ Forall (fun name => contains "," name = false) (split "," names)).
Proof.
  intros H. unfold normalize_model_options in H.
  apply bind_ok_inv in H as (c & s1 & H1 & H).
  assert (K1 : attr "output" s1 = attr "output" s).
  { revert H1. generalize s (@Ok bool c) s1.
    match goal with |- forall s r s', ?m s = (r, s') -> _ =>
      change (preserves (attr (E := E) "output") m) end.
    preserves_tac. }
  destruct c; [discriminate H|].
  apply bind_ok_inv in H as ([] & s2 & H2 & H).
  assert (K2 : attr "output" s2 = attr "output" s1).
  { revert H2. generalize s1 (@Ok unit tt) s2.
    match goal with |- forall s r s', ?m s = (r, s') -> _ =>
      change (preserves (attr (E := E) "output") m) end.
    preserves_tac. }
  unfold attr in K1, K2. rewrite <- K1, <- K2. unfold attr. clear H1 H2 K1 K2.
  revert H. cbv [attr_true getattr truth bind lift ret py_split setattr modify].
  destruct (argv s2 !! "output") as [v|] eqn:Hv; [|discriminate].
  destruct (py_bool v) as [[]|e] eqn:Hb; [| |discriminate].
  - rewrite Hv. destruct v as [| | | |names| | |]; try discriminate.
    intros H. inversion H; subst s'. right. exists names.
    split; [reflexivity|]. split.
    { intros ->. discriminate Hb. }
    split; [apply lookup_insert_eq|].
    split; [apply join_split; discriminate|].
    apply split_go_pieces. reflexivity.
  - intros H. inversion H; subst s'. left. exists v.
    split; [reflexivity|]. split; [exact Hb|]. apply lookup_insert_eq.
Qed.

Lemma output_names_normalized_witness :
  (exists v, argv tf_tags_and_outputs !! "output" = Some v /\ py_bool v = Ok false
             /\ attr "output" (snd (normalize_model_options tf_env tf_only tf_tags_and_outputs))
                = Some PNone)
  \/ (exists names, argv tf_tags_and_outputs !! "output" = Some (PStr names) /\ names <> ""
                /\ attr "output" (snd (normalize_model_options tf_env tf_only tf_tags_and_outputs))
                   = Some (PStrList (split "," names))
                /\ String.concat "," (split "," names) = names
                /\ Forall (fun name => contains "," name = false) (split "," names)).
Proof.
  apply (output_names_normalized tf_env tf_tags_and_outputs tf_only).
  apply run_eq; [vm_compute; reflexivity | reflexivity].
Defined.

(** ** The output directory that cannot be made *)

(** X19.  An output directory that exists and cannot be written makes the
    block raise the [Error] about the directory; nothing is created and
    the state stays as it was. *)
Theorem output_dir_not_writable E (s : St E) dir :
  argv s !! "output_dir" = Some (PStr dir) ->
  os_path_exists E (fs s) dir = true ->
  os_access_W_OK E (fs s) dir = false ->
  resolve_output_dir E s =
    (Raise (Error ("Output directory {} is not writable for current user. "
                   +:+ refer_to_faq_msg E 22) [PStr dir]), s).
Proof.
  intros Hd He Hw.
  cbv [resolve_output_dir getattr bind lift as_path get_state raise].
  rewrite Hd, He, Hw. reflexivity.
Qed.

Lemma output_dir_not_writable_witness :
  resolve_output_dir tf_env read_only_state =
    (Raise (Error ("Output directory {} is not writable for current user. "
                   +:+ refer_to_faq_msg tf_env 22) [PStr "out"]), read_only_state).
Proof.
  apply (output_dir_not_writable tf_env read_only_state "out").
  - vm_compute. reflexivity.
  - vm_compute. reflexivity.
  - vm_compute. reflexivity.
Defined.

(** X20.  Of the exceptions of [os.makedirs] only [PermissionError] is
    turned into an [Error]: when the output directory does not exist and
    [os.makedirs] raises anything else, the block raises that exception as
    it is, after the one call of [os.makedirs]. *)
Theorem makedirs_error_propagates E (s : St E) dir e f' :
  argv s !! "output_dir" = Some (PStr dir) ->
  os_path_exists E (fs s) dir = false ->
  os_makedirs E (fs s) dir = (Raise e, f') ->
  (forall m, e <> PermissionError m) ->
  resolve_output_dir E s = (Raise e, mkSt (argv s) f' (trace s ++ [EvMakedirs dir])%list).
Proof.
  intros Hd He Hm Hp.
  cbv [resolve_output_dir getattr bind lift as_path get_state raise ret log emit modify
       try_except makedirs].
  rewrite Hd, He. cbn [negb argv fs trace]. rewrite Hm.
  destruct e; try reflexivity. exfalso. exact (Hp msg eq_refl).
Qed.

Lemma makedirs_error_propagates_witness :
  resolve_output_dir below_a_file_env below_a_file_state
  = (Raise not_a_directory,
     mkSt (E := below_a_file_env) (argv below_a_file_state) ∅
       (trace below_a_file_state ++ [EvMakedirs "model.pb/out"])%list).
Proof.
  apply (makedirs_error_propagates below_a_file_env below_a_file_state "model.pb/out"
           not_a_directory ∅).
  - vm_compute. reflexivity.
  - vm_compute. reflexivity.
  - reflexivity.
  - intros m. discriminate.
Defined.

(** ** The extensions of the front end *)

(** X21.  With [extensions] missing, [None] or a string, the block calls
    [load_dirs] once, and what [load_dirs] returns or raises is what the
    block returns or raises.  The front end is the one of the first flag
    that is set, in the order tf, caffe, mxnet, kaldi, onnx; the extension
    directories are the pieces of [extensions] between the commas, and
    [None] when [extensions] is missing, [None] or empty.  Before the
    call, [freeze_placeholder_with_value] and [input] have been replaced by
    what [get_freeze_placeholder_values] gave. *)
Theorem load_extensions_front E (s : St E) fl front input freeze r fw :
  front_of fl = Some front ->
  (argv s !! "extensions" = None \/ argv s !! "extensions" = Some PNone
   \/ exists e, argv s !! "extensions" = Some (PStr e)) ->
  argv s !! "input" = Some input ->
  argv s !! "freeze_placeholder_with_value" = Some freeze ->
  get_freeze_placeholder_values E input freeze = Ok r ->
  argv s !! "framework" = Some fw ->
  load_extensions E fl s =
    (load_dirs E front fw (extension_dirs (argv s)) (fs s),
     after_event
       (mkSt (<["input" := r.2]> (<["freeze_placeholder_with_value" := r.1]> (argv s))) (fs s) (trace s))
       (EvLoadDirs front fw (extension_dirs (argv s)))).
Proof.
  intros Hfr Hx Hi Hz Hg Hfw.
  unfold extension_dirs.
  cbv [load_extensions andM hasattr attr_true getattr truth bind lift ret py_split is_str
       setattr modify emit get_state after_event].
  rewrite Hfr.
  destruct Hx as [Hx | [Hx | [e Hx]]]; rewrite Hx.
  - rewrite bool_decide_eq_false_2 by (intros [? ?]; discriminate).
    repeat (first [rewrite Hi | rewrite Hz | rewrite Hg | rewrite Hfw
                  | rewrite lookup_insert_ne by discriminate
                  | progress cbv beta iota | progress cbn [argv fs trace]]).
    reflexivity.
  - rewrite bool_decide_eq_true_2 by eauto.
    repeat (first [rewrite Hx | rewrite Hi | rewrite Hz | rewrite Hg | rewrite Hfw
                  | rewrite lookup_insert_ne by discriminate
                  | progress cbv beta iota | progress cbn [py_bool negb argv fs trace]]).
    reflexivity.
  - rewrite bool_decide_eq_true_2 by eauto.
    destruct (String.eqb e "") eqn:He;
      repeat (first [rewrite Hx | rewrite He | rewrite Hi | rewrite Hz | rewrite Hg | rewrite Hfw
                    | rewrite lookup_insert_ne by discriminate
                    | progress cbv beta iota | progress cbn [py_bool negb argv fs trace]]);
      reflexivity.
Qed.

Lemma load_extensions_front_witness :
  fst (load_extensions two_fronts_env tf_and_caffe two_fronts_state) = Ok tt
  /\ trace (snd (load_extensions two_fronts_env tf_and_caffe two_fronts_state))
     = [EvLoadDirs "tf" (PStr "tf") (Some ["/ext/a"; "/ext/b"])].
Proof.
  assert (Hx : argv two_fronts_state !! "extensions" = Some (PStr "/ext/a,/ext/b"))
    by (vm_compute; reflexivity).
  assert (Hi : argv two_fronts_state !! "input" = Some PNone) by (vm_compute; reflexivity).
  assert (Hz : argv two_fronts_state !! "freeze_placeholder_with_value" = Some PNone)
    by (vm_compute; reflexivity).
  assert (Hfw : argv two_fronts_state !! "framework" = Some (PStr "tf"))
    by (vm_compute; reflexivity).
  rewrite (load_extensions_front two_fronts_env two_fronts_state tf_and_caffe "tf"
             PNone PNone (PObj false "{}", PNone) (PStr "tf")
             eq_refl (or_intror (or_intror (ex_intro _ _ Hx))) Hi Hz eq_refl Hfw).
  split; [reflexivity|]. vm_compute. reflexivity.
Defined.

(** ** What [emit_ir] leaves alone *)

Ltac preserves_by side :=
  repeat
    first
      [ apply preserves_ret | apply preserves_raise | apply preserves_lift
      | apply preserves_get_state | apply preserves_getattr | apply preserves_hasattr
      | apply preserves_emit; side
      | apply preserves_bind; [| intro]
      | match goal with
        | |- preserves _ (if ?c then _ else _) => destruct c
        | |- preserves _ (match ?x with _ => _ end) => destruct x
        end ].

Section EmitKeeps.
Context {E : Env} {X : Type} (f : St E -> X).
Hypothesis f_event : forall s ev, is_print ev = false -> f (after_event s ev) = f s.
Hypothesis f_fs : forall s f', f (mkSt (argv s) f' (trace s)) = f s.

Lemma keeps_finalize_graph g : preserves f (finalize_graph E g).
Proof.
  unfold finalize_graph, run_pass, removes_output_ops, cmd_param, notM, truth.
  preserves_by ltac:(intros; apply f_event; reflexivity).
Qed.

Lemma keeps_write_ir g : preserves f (write_ir E g).
Proof.
  unfold write_ir, cmd_param.
  preserves_by ltac:(intros; apply f_event; reflexivity).
  match goal with
  | |- preserves _ (fun s => let '(r, f') := prepare_emit_ir E ?g ?l (fs s) in _) =>
      apply (preserves_fs_call f (fun x => prepare_emit_ir E g l x))
  end.
  exact f_fs.
Qed.

End EmitKeeps.

Lemma keeps_success_banner E : preserves (argv (E := E)) (success_banner E).
Proof. unfold success_banner, print. preserves_by ltac:(intros; reflexivity). Qed.

(** X22.  [emit_ir] reads the namespace and has no statement that writes
    it: whatever it returns or raises, the namespace is the one it was
    given. *)
Theorem emit_ir_keeps_namespace E g (s : St E) r s' :
  emit_ir E g s = (r, s') -> argv s' = argv s.
Proof.
  revert s r s'. change (preserves (argv (E := E)) (emit_ir E g)).
  unfold emit_ir.
  apply preserves_bind; [apply keeps_finalize_graph; reflexivity | intro].
  apply preserves_bind; [apply keeps_write_ir; reflexivity | intro].
  apply preserves_bind; [unfold notM, andM, attr_true, truth; preserves_by ltac:(intros; reflexivity) | intro].
  apply preserves_bind; [| intro; apply preserves_ret].
  destruct a1; [apply keeps_success_banner | apply preserves_ret].
Qed.

Lemma emit_ir_keeps_namespace_witness :
  argv (snd (emit_ir tf_env emit_graph emit_state)) = argv emit_state.
Proof.
  apply (emit_ir_keeps_namespace tf_env emit_graph emit_state
           (fst (emit_ir tf_env emit_graph emit_state))).
  apply run_eq; reflexivity.
Defined.

Lemma prints_after_event {E} (s : St E) ev :
  is_print ev = false -> prints (after_event s ev) = prints s.
Proof.
  intros H. unfold prints, after_event. simpl.
  rewrite List.filter_app. simpl. rewrite H. apply app_nil_r.
Qed.

(** X23.  A TensorFlow run that updates the configuration of the custom
    operations reports no generated IR: with [framework] being [tf] and
    [tensorflow_custom_operations_config_update] set, [emit_ir] prints
    nothing, whether it returns or raises. *)
Theorem config_update_prints_nothing E g (s : St E) r s' :
  argv s !! "framework" = Some (PStr "tf") ->
  is_set s "tensorflow_custom_operations_config_update" ->
  emit_ir E g s = (r, s') ->
  prints s' = prints s.
Proof.
  intros Hfw (v & Hv & Hb) H. unfold emit_ir in H.
  apply bind_inv in H as [(g' & s1 & H1 & H) | (e & H1 & _)].
  2:{ exact (keeps_finalize_graph prints prints_after_event g _ _ _ H1). }
  pose proof (keeps_finalize_graph prints prints_after_event g _ _ _ H1) as P1.
  pose proof (keeps_finalize_graph argv (fun _ _ _ => eq_refl) g _ _ _ H1) as A1.
  apply bind_inv in H as [([] & s2 & H2 & H) | (e & H2 & _)].
  2:{ rewrite (keeps_write_ir prints prints_after_event (fun _ _ => eq_refl) g' _ _ _ H2).
      exact P1. }
  pose proof (keeps_write_ir prints prints_after_event (fun _ _ => eq_refl) g' _ _ _ H2) as P2.
  pose proof (keeps_write_ir argv (fun _ _ _ => eq_refl) (fun _ _ => eq_refl) g' _ _ _ H2) as A2.
  revert H. cbv [notM andM attr_true getattr truth bind lift ret when is_str].
  rewrite A2, A1, Hfw. cbn [String.eqb Ascii.eqb Bool.eqb]. cbv beta iota.
  rewrite A2, A1, Hv, Hb. cbn [negb].
  intros H. inversion H; subst. now rewrite P2, P1.
Qed.

Lemma config_update_prints_nothing_witness :
  prints (snd (emit_ir tf_env tf_update_graph tf_update_state)) = prints tf_update_state.
Proof.
  apply (config_update_prints_nothing tf_env tf_update_graph tf_update_state
           (fst (emit_ir tf_env tf_update_graph tf_update_state))).
  - vm_compute. reflexivity.
  - exists (PStr "ssd.json"). split; vm_compute; reflexivity.
  - apply run_eq; reflexivity.
Defined.

(** ** The banner *)

Lemma startswith_append a b : startswith a (a +:+ b) = true.
Proof.
  induction a as [|x a IH]; [reflexivity|].
  change (String x a +:+ b) with (String x (a +:+ b)). cbn [startswith].
  now rewrite Ascii.eqb_refl, IH.
Qed.

(** X12.  The banner of a generated IR: three lines, the IR version, the
    XML file and the BIN file.  The two paths are the model name joined to
    the output directory, with [.xml] and [.bin] added; an output directory
    [.] is shown as the current directory; and the paths are below the
    directory shown unless the model name is an absolute path. *)
Theorem success_banner_paths E (s : St E) dir name :
  argv s !! "output_dir" = Some (PStr dir) ->
  argv s !! "model_name" = Some (PStr name) ->
  let shown := if String.eqb dir "." then os_getcwd E (fs s) else dir in
  success_banner E s =
    (Ok tt,
     add_events s
       [EvPrint (String (ascii_of_nat 10) "" +:+ "[ SUCCESS ] Generated IR version "
                 +:+ get_ir_version E (argv s) +:+ " model.");
        EvPrint ("[ SUCCESS ] XML file: " +:+ path_join shown name +:+ ".xml");
        EvPrint ("[ SUCCESS ] BIN file: " +:+ path_join shown name +:+ ".bin")])
  /\ (startswith "/" name = false -> startswith shown (path_join shown name) = true).
Proof.
  intros Hd Hn shown. split.
  - subst shown.
    cbv [success_banner getattr get_state bind lift ret print emit modify is_str as_path add_events].
    rewrite Hd. cbn [argv fs trace]. rewrite Hn.
    destruct (String.eqb dir "."); cbn [negb as_path argv fs trace]; rewrite Hn;
      cbn [argv fs trace]; rewrite <- !app_assoc; reflexivity.
  - intros Ha. unfold path_join. rewrite Ha.
    destruct (_ || _); apply startswith_append.
Qed.

Lemma success_banner_paths_witness :
  prints (snd (success_banner tf_env emit_state))
  = [EvPrint (String (ascii_of_nat 10) "" +:+ "[ SUCCESS ] Generated IR version 10 model.");
     EvPrint "[ SUCCESS ] XML file: out/model.xml";
     EvPrint "[ SUCCESS ] BIN file: out/model.bin"].
Proof.
  assert (Hd : argv emit_state !! "output_dir" = Some (PStr "out")) by (vm_compute; reflexivity).
  assert (Hn : argv emit_state !! "model_name" = Some (PStr "model")) by (vm_compute; reflexivity).
  rewrite (proj1 (success_banner_paths tf_env emit_state "out" "model" Hd Hn)).
  vm_compute. reflexivity.
Defined.

Example emit_ir_update_run :
  returns (fst (emit_ir tf_env tf_update_graph tf_update_state)) = true
  /\ prints (snd (emit_ir tf_env emit_graph emit_state))
     = [EvPrint (String (ascii_of_nat 10) "" +:+ "[ SUCCESS ] Generated IR version 10 model.");
        EvPrint "[ SUCCESS ] XML file: out/model.xml";
        EvPrint "[ SUCCESS ] BIN file: out/model.bin"].
Proof. split; vm_compute; reflexivity. Qed.

(** ** [driver] and [main], the rest *)

(** X24.  When [driver] returns, it returns 0, and the last it has printed
    is the execution time, followed by the memory consumed when [resource]
    can be imported. *)
Theorem driver_reports_time E (s : St E) z s' :
  driver E s = (Ok z, s') ->
  z = 0
  /\ exists before,
       trace s' =
       (before
        ++ EvPrint ("[ SUCCESS ] Total execution time: " +:+ elapsed_seconds E +:+ " seconds. ")
        :: match memory_usage E with
           | Some mem_usage => [EvPrint ("[ SUCCESS ] Memory consumed: " +:+ mem_usage +:+ " MB. ")]
           | None => []
           end)%list.
Proof.
  unfold driver. intros H.
  do 5 (apply bind_ok_inv in H as (? & ? & _ & H)).
  apply bind_ok_inv in H as (z0 & s1 & He & H).
  apply emit_ir_returns_zero in He. subst z0. cbn [Z.eqb negb] in H.
  revert H. cbv [print emit modify bind ret].
  destruct (memory_usage E); intros H; inversion H; subst; cbn [trace];
    (split; [reflexivity|]); exists (trace s1); rewrite <- ?app_assoc; reflexivity.
Qed.

Lemma driver_reports_time_witness :
  fst (driver kaldi_env kaldi_run) = Ok 0
  /\ exists before,
       trace (snd (driver kaldi_env kaldi_run)) =
       (before
        ++ EvPrint ("[ SUCCESS ] Total execution time: " +:+ elapsed_seconds kaldi_env +:+ " seconds. ")
        :: match memory_usage kaldi_env with
           | Some mem_usage => [EvPrint ("[ SUCCESS ] Memory consumed: " +:+ mem_usage +:+ " MB. ")]
           | None => []
           end)%list.
Proof.
  assert (H : driver kaldi_env kaldi_run = (Ok 0, snd (driver kaldi_env kaldi_run)))
    by (apply run_eq; [vm_compute; reflexivity | reflexivity]).
  split; [vm_compute; reflexivity|].
  exact (proj2 (driver_reports_time kaldi_env kaldi_run 0 _ H)).
Defined.

(** X25.  The update message is fetched inside the [try] of [main], unless
    the run is silent.  With [silent] set, [get_ov_update_message] is not
    called, whatever it would do.  With [silent] missing or not set, it is
    called after the namespace is ready, and when it raises, [driver] is
    never called: the exception leaves the [try] with nothing logged but
    what the setup logged. *)
Theorem update_message_unless_silent E a fw (s : St E) bf a' d bd :
  py_bool fw = Ok bf ->
  append_exp_keys_to_namespace E (if bf then <["framework" := fw]> a else a) = Ok a' ->
  a' !! "generate_deprecated_IR_V7" = Some d -> py_bool d = Ok bd ->
  let s1 := mkSt a' (fs s)
              (trace s ++ EvInitLogger (PStr "ERROR") (PBool false)
                       :: (if bd then [EvBoolAsI32] else []))%list in
  (is_set s1 "silent" -> main_setup E (Ok a) fw s = (Ok PNone, s1))
  /\ (a' !! "silent" = None \/ unset s1 "silent" ->
      main_setup E (Ok a) fw s = (get_ov_update_message E, s1)
      /\ forall e, get_ov_update_message E = Raise e ->
                   main_try E (Ok a) fw s = (Raise e, s1)).
Proof.
  intros Hf Ha Hd Hb s1.
  assert (Hsetup : main_setup E (Ok a) fw s =
            (c <- (h <- hasattr E "silent" ;;
                   if negb h then ret true else notM (attr_true E "silent")) ;;
             if c then lift (get_ov_update_message E) else ret PNone) s1).
  { subst s1.
    cbv [main_setup emit modify bind lift set_argv truth when setattr get_state attr_true getattr ret].
    rewrite Hf. cbn [argv fs trace].
    destruct bf; cbn [argv fs trace]; rewrite Ha; cbn [argv fs trace]; rewrite Hd, Hb;
      destruct bd; cbn [argv fs trace]; rewrite <- ?app_assoc; reflexivity. }
  split.
  - intros (v & Hv & Hv'). rewrite Hsetup.
    cbv [hasattr notM attr_true getattr truth bind lift ret].
    rewrite bool_decide_eq_true_2 by eauto. cbn [negb]. rewrite Hv, Hv'. reflexivity.
  - intros Hs.
    assert (H1 : main_setup E (Ok a) fw s = (get_ov_update_message E, s1)).
    { rewrite Hsetup. cbv [hasattr notM attr_true getattr truth bind lift ret].
      destruct Hs as [Hn | (v & Hv & Hv')].
      - change (argv s1) with a'.
        rewrite bool_decide_eq_false_2 by (rewrite Hn; intros [? ?]; discriminate).
        reflexivity.
      - rewrite bool_decide_eq_true_2 by eauto. cbn [negb]. rewrite Hv, Hv'. reflexivity. }
    split; [exact H1|].
    intros e He. unfold main_try. apply bind_raise. rewrite H1, He. reflexivity.
Qed.

Lemma update_message_unless_silent_witness :
  main_try offline_env (Ok chatty_args) PNone offline_start
  = (Raise (OtherException "URLError" "unreachable"),
     mkSt (E := offline_env) chatty_args ∅ [EvInitLogger (PStr "ERROR") (PBool false)]).
Proof.
  refine (proj2 (proj2 (update_message_unless_silent offline_env chatty_args PNone offline_start
                          false chatty_args (PBool false) false eq_refl eq_refl _ eq_refl) _)
            (OtherException "URLError" "unreachable") eq_refl).
  - vm_compute. reflexivity.
  - right. exists (PBool false). split; vm_compute; reflexivity.
Defined.

(** X26.  The first [except] clause of [main] reads the path after the
    marker "No such file or directory:".  When [main] catches a
    [FileNotFoundError] or a [NotADirectoryError] whose text does not have
    the marker, the clause itself fails: [main] returns no status, and
    [IndexError] leaves it, with nothing logged. *)
Theorem missing_file_without_marker E cli fw (s : St E) e s1 :
  main_try E cli fw s = (Raise e, s1) ->
  classify e = Some FileNotFound ->
  contains missing_file_marker (exn_text E e) = false ->
  main E cli fw s = (Raise (IndexError "list index out of range"), s1).
Proof.
  intros Ht Hc Hm. rewrite main_unfold, Ht, Hc.
  unfold report. unfold missing_file_marker in Hm. rewrite (split_absent _ _ Hm).
  reflexivity.
Qed.

Lemma missing_file_without_marker_witness :
  main below_a_file_env (Ok below_a_file_args) PNone below_a_file_start
  = (Raise (IndexError "list index out of range"),
     snd (main_try below_a_file_env (Ok below_a_file_args) PNone below_a_file_start)).
Proof.
  apply (missing_file_without_marker below_a_file_env (Ok below_a_file_args) PNone
           below_a_file_start not_a_directory).
  - apply run_eq; [vm_compute; reflexivity | reflexivity].
  - reflexivity.
  - vm_compute. reflexivity.
Defined.

Lemma report_messages_run E (l : list string) (s : St E) :
  fold_right (fun el k => emit E (EvLog LError (MsgText el) (Some "analysis_info")) ;;; k)
    (ret tt) l s
  = (Ok tt, add_events s (map (fun el => EvLog LError (MsgText el) (Some "analysis_info")) l)).
Proof.
  revert s. induction l as [|el l IH]; intros s.
  - cbn. unfold add_events, ret. now rewrite app_nil_r; destruct s.
  - cbn [fold_right map]. cbv [bind emit modify]. rewrite IH.
    unfold add_events. cbn [argv fs trace]. now rewrite <- app_assoc.
Qed.

(** X27.  The [except] clause for [Error] logs every message of the model
    analysis, marked as analysis information and in their order, then the
    error, then the traceback at debug level; [main] returns 1. *)
Theorem configuration_error_report E cli fw (s : St E) msg args s1 :
  main_try E cli fw s = (Raise (Error msg args), s1) ->
  main E cli fw s =
    (Ok 1, add_events s1 (analysis_events E
                          ++ [EvLog LError (MsgExn (Error msg args)) None;
                              EvLog LDebug MsgTraceback None])).
Proof.
  intros Ht. rewrite main_unfold, Ht. cbn [classify].
  unfold report, analysis_events.
  destruct (analysis_messages E) as [l|].
  - cbv [bind]. rewrite report_messages_run. cbv [emit modify ret add_events].
    cbn [argv fs trace]. rewrite <- !app_assoc. reflexivity.
  - cbv [bind emit modify ret add_events]. cbn [argv fs trace map app].
    rewrite <- !app_assoc. reflexivity.
Qed.

Lemma configuration_error_report_witness :
  trace (snd (main analysed_env (Ok mxnet_args) PNone analysed_start))
  = [EvInitLogger (PStr "ERROR") (PBool false); EvInitLogger (PStr "ERROR") (PBool true);
     EvLog LError (MsgText "Your model looks like a detection model.") (Some "analysis_info");
     EvLog LError (MsgText "Try --input_shape.") (Some "analysis_info");
     EvLog LError
       (MsgExn (Error ("Path to input model or input symbol or pretrained_model_name is required: use --input_model or "
                       +:+ "--input_symbol or --pretrained_model_name") [])) None;
     EvLog LDebug MsgTraceback None].
Proof.
  rewrite (configuration_error_report analysed_env (Ok mxnet_args) PNone analysed_start
             ("Path to input model or input symbol or pretrained_model_name is required: use --input_model or "
              +:+ "--input_symbol or --pretrained_model_name") []
             (snd (main_try analysed_env (Ok mxnet_args) PNone analysed_start))
             ltac:(apply run_eq; [vm_compute; reflexivity | reflexivity])).
  vm_compute. reflexivity.
Defined.

(** ** [print_argv] *)

Example print_argv_sample :
  print_argv_lines_of caffe_env sample_tables mapping_args caffe_only (PStr "model")
  = Ok mapping_lines.
Proof. vm_compute. reflexivity. Qed.

Example dirname_samples :
  dirname "/opt/mo/mo.py" = "/opt/mo" /\ dirname "mo.py" = "" /\ dirname "/mo.py" = "/"
  /\ dirname "a//b" = "a".
Proof. repeat split. Qed.

Section PrintArgvFacts.
Context (E : Env) (T : CliTables) (a : Namespace).

Lemma option_line_tab op d line : option_line E T a op d = Ok line -> is_option_line line = true.
Proof.
  unfold option_line. destruct d as [desc | label render].
  - destruct (_ && _); intros H; inversion H; reflexivity.
  - destruct (render _); intros H; inversion H; reflexivity.
Qed.

Lemma option_lines_outline items lines :
  map_result (fun item => option_line E T a item.1 item.2) items = Ok lines ->
  outline lines = [] /\ length lines = length items.
Proof.
  revert lines. induction items as [|[op d] items IH]; intros lines.
  - intros H. inversion H. split; reflexivity.
  - cbn [map_result fst snd]. destruct (option_line E T a op d) as [line|e] eqn:Hl; [|discriminate].
    destruct (map_result _ items) as [ls|e]; [|discriminate].
    intros H. inversion H; subst. destruct (IH ls eq_refl) as [IH1 IH2].
    unfold outline in *. cbn [List.filter length]. rewrite (option_line_tab _ _ _ Hl).
    cbn [negb]. split; [exact IH1 | now rewrite IH2].
Qed.

Lemma outline_app l1 l2 : outline (l1 ++ l2) = (outline l1 ++ outline l2)%list.
Proof. apply List.filter_app. Qed.

(** The lines of the tables: a header for each, and a line for each of
    its options. *)
Lemma group_lines_outline groups lines :
  group_lines E T a groups = Ok lines ->
  map_result (fun group => dict_get group.1 framework_specifics_map) groups = Ok (outline lines)
  /\ length lines = (length groups + list_sum (map (fun group => length group.2) groups))%nat.
Proof.
  revert lines. induction groups as [|[key items] groups IH]; intros lines.
  - intros H. inversion H. split; reflexivity.
  - cbn [group_lines map_result fst snd map list_sum length].
    destruct (dict_get key framework_specifics_map) as [header|e] eqn:Hh; [|discriminate].
    destruct (map_result _ items) as [ls|e] eqn:Hls; [|discriminate].
    destruct (group_lines E T a groups) as [more|e]; [|discriminate].
    intros H. inversion H; subst.
    destruct (IH more eq_refl) as [IH1 IH2]. rewrite IH1.
    destruct (option_lines_outline items ls Hls) as [O1 O2].
    assert (Hhead : is_option_line header = false).
    { revert Hh. cbn [dict_get framework_specifics_map].
      repeat (destruct (String.eqb _ key); [intros Hh; inversion Hh; reflexivity|]).
      discriminate. }
    split.
    + change (header :: ls ++ more)%list with ([header] ++ ls ++ more)%list.
      assert (Ho : outline [header] = [header]).
      { unfold outline. simpl. now rewrite Hhead. }
      rewrite !outline_app, O1, Ho. reflexivity.
    + cbn [length]. rewrite length_app, O2, IH2. unfold list_sum. cbn [fold_right]. lia.
Qed.

End PrintArgvFacts.

(** X28.  When [print_argv] comes to print its lines, the lines that are
    not the line of an option are, in this order: the header of the common
    options; the headers of Caffe, TensorFlow, MXNet, Kaldi and ONNX, each
    if its flag is set; and last the version.  There is one line more for
    every option of the tables that apply. *)
Theorem print_argv_outline E T a fl model_name lines :
  print_argv_lines_of E T a fl model_name = Ok lines ->
  outline lines
  = (section_headers fl ++ ["Model Optimizer version: " +:+ tab +:+ get_version T])%list
  /\ length lines = (length (section_headers fl) + options_count T fl model_name + 1)%nat.
Proof.
  unfold print_argv_lines_of.
  destruct (group_lines E T a (props T fl model_name)) as [ls|e] eqn:Hg; [|discriminate].
  intros H. inversion H; subst. clear H.
  destruct (group_lines_outline E T a _ _ Hg) as [H1 H2].
  rewrite outline_app, length_app, H2. unfold options_count.
  assert (Hh : outline ls = section_headers fl /\ length (props T fl model_name) = length (section_headers fl)).
  { revert H1. generalize (outline ls).
    destruct fl as [[] [] [] [] []]; intros l Hl; vm_compute in Hl; inversion Hl; split; reflexivity. }
  destruct Hh as [-> ->]. split; [reflexivity|]. cbn [length]. lia.
Qed.

Lemma print_argv_outline_witness :
  outline mapping_lines
  = (section_headers caffe_only ++ ["Model Optimizer version: " +:+ tab +:+ get_version sample_tables])%list
  /\ length mapping_lines
     = (length (section_headers caffe_only) + options_count sample_tables caffe_only (PStr "model")
        + 1)%nat.
Proof.
  apply (print_argv_outline caffe_env sample_tables mapping_args caffe_only (PStr "model")).
  vm_compute. reflexivity.
Defined.

Lemma props_keys T fl model_name key items :
  In (key, items) (props T fl model_name) ->
  exists header, dict_get key framework_specifics_map = Ok header.
Proof.
  destruct fl as [[] [] [] [] []]; cbn [props is_tf is_caffe is_mxnet is_kaldi is_onnx app In];
    intros H;
    repeat (destruct H as [H | H]; [inversion H; eexists; reflexivity|]); destruct H.
Qed.

Lemma option_lines_raise E T a items e :
  map_result (fun item => option_line E T a item.1 item.2) items = Raise e ->
  exists op label render,
    In (op, Rendered label render) items /\ render (shown_value a op) = Raise e.
Proof.
  induction items as [|[op d] items IH]; [discriminate|].
  cbn [map_result fst snd]. destruct (option_line E T a op d) as [line|e'] eqn:Hl.
  - destruct (map_result _ items) as [ls|e'']; [discriminate|].
    intros H. inversion H; subst. destruct (IH eq_refl) as (op' & label & render & Hin & Hr).
    exists op', label, render. split; [now right | exact Hr].
  - intros H. inversion H; subst. unfold option_line in Hl.
    destruct d as [desc | label render].
    + destruct (_ && _); discriminate Hl.
    + fold (shown_value a op) in Hl.
      destruct (render (shown_value a op)) as [text|e'] eqn:Hr; [discriminate Hl|].
      inversion Hl; subst. exists op, label, render. split; [now left | exact Hr].
Qed.

(** X29.  Nothing but a function of the tables that renders a value can
    make [print_argv] fail: when the lines cannot be made, one of the
    tables that apply has an option with such a function, and the function
    has raised that exception on the value of the option, which is the
    string NONE for an option that the namespace does not have. *)
Theorem print_argv_fails_in_renderer E T a fl model_name e :
  print_argv_lines_of E T a fl model_name = Raise e ->
  exists key items op label render,
    In (key, items) (props T fl model_name)
    /\ In (op, Rendered label render) items
    /\ render (shown_value a op) = Raise e.
Proof.
  unfold print_argv_lines_of.
  destruct (group_lines E T a (props T fl model_name)) as [ls|e'] eqn:Hg; [discriminate|].
  intros H. inversion H; subst. clear H.
  pose proof (props_keys T fl model_name) as Hk.
  revert Hk Hg. generalize (props T fl model_name). intros groups.
  induction groups as [|[key items] groups IH]; intros Hk; [discriminate|].
  cbn [group_lines].
  destruct (Hk key items (or_introl eq_refl)) as [header ->].
  destruct (map_result _ items) as [ls|e'] eqn:Hls.
  - destruct (group_lines E T a groups) as [more|e''] eqn:Hm; [discriminate|].
    intros H. inversion H; subst.
    destruct (IH (fun k i Hin => Hk k i (or_intror Hin)) eq_refl)
      as (key' & items' & op & label & render & Hin & Hop & Hr).
    exists key', items', op, label, render. split; [now right | split; assumption].
  - intros H. inversion H; subst.
    destruct (option_lines_raise E T a items e Hls) as (op & label & render & Hop & Hr).
    exists key, items, op, label, render. split; [now left | split; assumption].
Qed.

Lemma print_argv_fails_in_renderer_witness :
  exists key items op label render,
    In (key, items) (props sample_tables caffe_only (PStr "model"))
    /\ In (op, Rendered label render) items
    /\ render (shown_value no_proto_args op)
       = Raise (TypeError "expected str, bytes or os.PathLike object").
Proof.
  apply (print_argv_fails_in_renderer caffe_env sample_tables no_proto_args caffe_only (PStr "model")).
  vm_compute. reflexivity.
Defined.

(** X30.  The summary of the arguments is for a run that is not silent:
    with [silent] set, nothing is printed and the state stays as it was.
    Otherwise the header is printed first, and then all the lines in one
    call of [print], joined by line feeds; when the lines cannot be made,
    the header has been printed and the exception goes on. *)
Theorem print_arguments_unless_silent E (s : St E) fl model_name :
  argv s !! "model_name" = Some model_name ->
  (is_set s "silent" -> print_arguments E fl s = (Ok tt, s))
  /\ (unset s "silent" ->
      print_arguments E fl s =
      match print_argv_lines E (argv s) fl model_name with
      | Ok lines =>
          (Ok tt, add_events s [EvPrint "Model Optimizer arguments:";
                                EvPrint (String.concat (String (ascii_of_nat 10) "") lines)])
      | Raise e => (Raise e, after_event s (EvPrint "Model Optimizer arguments:"))
      end).
Proof.
  intros Hm. split.
  - intros (v & Hv & Hb).
    cbv [print_arguments notM attr_true getattr truth bind lift ret when].
    rewrite Hv, Hb. reflexivity.
  - intros (v & Hv & Hb).
    cbv [print_arguments notM attr_true getattr truth bind lift ret when get_state print emit modify].
    rewrite Hv, Hb. cbn [negb]. rewrite Hm. cbn [argv fs trace].
    destruct (print_argv_lines E (argv s) fl model_name) as [lines|e].
    + unfold add_events. cbn [argv fs trace]. rewrite <- app_assoc. reflexivity.
    + reflexivity.
Qed.

Lemma print_arguments_unless_silent_witness :
  fst (print_arguments printing_env caffe_only printing_state) = Ok tt
  /\ length (trace (snd (print_arguments printing_env caffe_only printing_state))) = 2%nat.
Proof.
  assert (Hm : argv printing_state !! "model_name" = Some (PStr "model"))
    by (vm_compute; reflexivity).
  assert (Hs : unset printing_state "silent")
    by (exists (PBool false); split; vm_compute; reflexivity).
  rewrite (proj2 (print_arguments_unless_silent printing_env printing_state caffe_only
                    (PStr "model") Hm) Hs).
  split; vm_compute; reflexivity.
Defined.

